(** * SECOP II report service: predicate builder, paginated fetch, workbook

    A shallow embedding of [app.py].  Python values are modelled as follows.

    - [str] is a Rocq [string] whose characters are the code points
      U+0000..U+00FF (one [ascii] per code point); [len] is [String.length].
    - [int] is [Z]; worksheet coordinates, which openpyxl keeps at least 1,
      are [nat].
    - A [dict] is a [gmap]; the JSON payload carries scalars only (null,
      booleans, integers, strings); floats, arrays and nested objects are not
      modelled.
    - A raised exception is the [Raise] branch of [result].
    - Calls to [logging] write to a file nobody reads back and are left out.
    - Library calls ([requests], [pandas], [urllib], [openpyxl]) are
      modelled by what the library does, each in a module or a definition of
      its name, next to the function of [app.py] that calls it. *)

From Stdlib Require Import ZArith Ascii String List Lia Bool.
From stdpp Require Import base tactics option list gmap strings pretty.

Local Open Scope Z_scope.

(** ** Exceptions and the error monad *)

Inductive exception : Type :=
| HTTPError (status_code : Z) (text : string)  (* [Response.raise_for_status] *)
| Timeout                                      (* [requests.get]: no answer in 90 s *)
| ConnectionError                              (* [requests.get]: no connection *)
| ParserError                                  (* [pd.read_csv]: [EmptyDataError] and the like *)
| AttributeError
| TypeError
| ValueError
| IndexError
| IllegalCharacterError.                       (* openpyxl, [Cell.check_string] *)

Inductive result (A : Type) : Type :=
| Return (a : A)
| Raise (e : exception).
Arguments Return {A} a.
Arguments Raise {A} e.

#[global] Instance result_ret : MRet result := @Return.
#[global] Instance result_bind : MBind result := fun A B f m =>
  match m with
  | Return a => f a
  | Raise e => Raise e
  end.

(** A [for] loop whose body may raise: the state after the last turn, or the
    first exception. *)
Fixpoint for_each {S A : Type} (body : S -> A -> result S) (s : S) (l : list A) : result S :=
  match l with
  | [] => Return s
  | x :: r => s' ← body s x; for_each body s' r
  end.

(** ** Python strings *)

Module Py.

(** [str.isspace] on the code points below 256. *)
Definition isspace (c : ascii) : bool :=
  let n := nat_of_ascii c in
  ((9 <=? n)%nat && (n <=? 13)%nat) || ((28 <=? n)%nat && (n <=? 32)%nat)
  || (n =? 133)%nat || (n =? 160)%nat.

Fixpoint lstrip (s : string) : string :=
  match s with
  | EmptyString => EmptyString
  | String c r => if isspace c then lstrip r else s
  end.

Fixpoint rstrip (s : string) : string :=
  match s with
  | EmptyString => EmptyString
  | String c r =>
      match rstrip r with
      | EmptyString => if isspace c then EmptyString else String c EmptyString
      | r' => String c r'
      end
  end.

Definition strip (s : string) : string := rstrip (lstrip s).

(** [s.replace(old, new)] for a one-character [old]. *)
Fixpoint replace (old : ascii) (new : string) (s : string) : string :=
  match s with
  | EmptyString => EmptyString
  | String c r =>
      if Ascii.eqb c old then new +:+ replace old new r
      else String c (replace old new r)
  end.

(** [s.split(sep)] for a one-character [sep]; never returns the empty list. *)
Fixpoint split (sep : ascii) (s : string) : list string :=
  match s with
  | EmptyString => [EmptyString]
  | String c r =>
      if Ascii.eqb c sep then EmptyString :: split sep r
      else match split sep r with
           | [] => [String c EmptyString]
           | h :: t => String c h :: t
           end
  end.

(** [sep.join(l)] *)
Fixpoint join (sep : string) (l : list string) : string :=
  match l with
  | [] => EmptyString
  | [x] => x
  | x :: r => x +:+ sep +:+ join sep r
  end.

Definition len (s : string) : Z := Z.of_nat (String.length s).

(** [bool(s)] *)
Definition nonempty (s : string) : bool :=
  match s with EmptyString => false | _ => true end.

(** [str(n)] for an [int]. *)
Definition str_int (n : Z) : string := pretty n.

(** [s[:n]] *)
Fixpoint prefix (n : nat) (s : string) : string :=
  match n, s with
  | S n', String c r => String c (prefix n' r)
  | _, _ => EmptyString
  end.

Definition is_digit (c : ascii) : bool :=
  let n := nat_of_ascii c in (48 <=? n)%nat && (n <=? 57)%nat.

(** The digits of an [int] literal: decimal digits with single underscores
    between them.  [sep] is true at the start and right after an
    underscore, where a digit has to follow.  Returns the value and the
    number of digits. *)
Fixpoint int_digits (s : string) (acc : Z) (sep : bool) (n : nat) : option (Z * nat) :=
  match s with
  | EmptyString => if sep then None else Some (acc, n)
  | String c r =>
      if is_digit c then
        int_digits r (10 * acc + (Z.of_nat (nat_of_ascii c) - 48)) false (S n)
      else if Ascii.eqb c "_" then
        if sep then None else int_digits r acc true n
      else None
  end.

(** The blanks that [int] skips at both ends of a [str]: the ASCII ones
    (tab to carriage return, and the space) and the two other spaces below
    256, which it reads as a space; unlike [str.strip] it does not skip the
    separators U+001C to U+001F. *)
Definition isspace_int (c : ascii) : bool :=
  let n := nat_of_ascii c in
  ((9 <=? n)%nat && (n <=? 13)%nat) || (n =? 32)%nat || (n =? 133)%nat || (n =? 160)%nat.

Fixpoint lstrip_int (s : string) : string :=
  match s with
  | EmptyString => EmptyString
  | String c r => if isspace_int c then lstrip_int r else s
  end.

Fixpoint rstrip_int (s : string) : string :=
  match s with
  | EmptyString => EmptyString
  | String c r =>
      match rstrip_int r with
      | EmptyString => if isspace_int c then EmptyString else String c EmptyString
      | r' => String c r'
      end
  end.

(** [int(s)] for a [str]: surrounding blanks, an optional sign, the digits;
    CPython refuses more than 4300 digits. *)
Definition int_of_str (s : string) : result Z :=
  let s := rstrip_int (lstrip_int s) in
  let '(neg, body) :=
    match s with
    | String "-" r => (true, r)
    | String "+" r => (false, r)
    | _ => (false, s)
    end in
  match int_digits body 0 true 0 with
  | Some (v, n) =>
      if (4300 <? n)%nat then Raise ValueError
      else Return (if neg then - v else v)
  | None => Raise ValueError
  end.

End Py.

(** ** JSON scalars of the request payload *)

Inductive json : Type :=
| JNull
| JBool (b : bool)
| JInt (n : Z)
| JStr (s : string).

(** [bool(v)] *)
Definition truthy (v : json) : bool :=
  match v with
  | JNull => false
  | JBool b => b
  | JInt n => negb (n =? 0)
  | JStr s => Py.nonempty s
  end.

(** [str(v)], which is what an f-string field prints. *)
Definition str (v : json) : string :=
  match v with
  | JNull => "None"
  | JBool true => "True"
  | JBool false => "False"
  | JInt n => Py.str_int n
  | JStr s => s
  end.

(** [int(v)] *)
Definition int (v : json) : result Z :=
  match v with
  | JNull => Raise TypeError
  | JBool b => Return (if b then 1 else 0)
  | JInt n => Return n
  | JStr s => Py.int_of_str s
  end.

(** [d.get(k)] and [d.get(k, default)] *)
Definition get (d : gmap string json) (k : string) : json :=
  default JNull (d !! k).
Definition get_default (d : gmap string json) (k : string) (dflt : json) : json :=
  default dflt (d !! k).

(** ** The predicate builder *)

Definition escapar_sql_mejorado (texto : json) : result json :=
  if negb (truthy texto) then Return texto
  else match texto with
       | JStr s => Return (JStr (Py.strip (Py.replace "'" "''" s)))
       | _ => Raise AttributeError
       end.

Definition procesar_terminos_multiples (entrada : json) : result (list json) :=
  if negb (truthy entrada) then Return []
  else match entrada with
       | JStr s =>
           mapM (fun termino => escapar_sql_mejorado (JStr (Py.strip termino)))
                (filter (fun termino => Py.nonempty (Py.strip termino) = true)
                        (Py.split "," s))
       | _ => Raise AttributeError
       end.

(** The four partial-match fields, payload key and column, in the order of
    the [campos_multiples] literal. *)
Definition campos_multiples : list (string * string) :=
  [ ("entidad", "entidad");
    ("departamento", "departamento_entidad");
    ("ciudad", "ciudad_entidad");
    ("modalidades", "modalidad_de_contratacion") ].

(** One turn of the loop over [campos_multiples]. *)
Definition condicion_multiple (filtros : gmap string json)
    (condiciones : list string) (campo : string * string) : result (list string) :=
  let '(clave, campo_sql) := campo in
  if truthy (get filtros clave) then
    terminos ← procesar_terminos_multiples (get filtros clave);
    match terminos with
    | [] => Return condiciones
    | _ =>
        let condiciones_or :=
          map (fun termino =>
                 "upper(" +:+ campo_sql +:+ ") like upper('%" +:+ str termino +:+ "%')")
              terminos in
        Return (condiciones ++ ["(" +:+ Py.join " OR " condiciones_or +:+ ")"])
    end
  else Return condiciones.

Definition construir_consulta_where (filtros : gmap string json) : result string :=
  let condiciones := [] in
  condiciones ←
    (if truthy (get filtros "proceso_de_compra") then
       numeros_proceso ← procesar_terminos_multiples (get filtros "proceso_de_compra");
       match numeros_proceso with
       | [] => Return condiciones
       | _ =>
           let lista_formateada :=
             Py.join ", " (map (fun n => "'" +:+ str n +:+ "'") numeros_proceso) in
           Return (condiciones ++ ["proceso_de_compra IN (" +:+ lista_formateada +:+ ")"])
       end
     else Return condiciones);
  condiciones ← for_each (condicion_multiple filtros) condiciones campos_multiples;
  condiciones ←
    (if truthy (get filtros "estado_del_procedimiento") then
       estado ← escapar_sql_mejorado (get filtros "estado_del_procedimiento");
       Return (condiciones ++ ["estado_del_procedimiento = '" +:+ str estado +:+ "'"])
     else Return condiciones);
  condiciones ←
    (if truthy (get filtros "estado_de_apertura_del_proceso") then
       estado_apertura ← escapar_sql_mejorado (get filtros "estado_de_apertura_del_proceso");
       Return (condiciones ++
                 ["estado_de_apertura_del_proceso = '" +:+ str estado_apertura +:+ "'"])
     else Return condiciones);
  let condiciones :=
    if truthy (get filtros "fecha_inicio") then
      condiciones ++
        ["fecha_de_publicacion_del >= '" +:+ str (get filtros "fecha_inicio") +:+ "T00:00:00'"]
    else condiciones in
  let condiciones :=
    if truthy (get filtros "fecha_fin") then
      condiciones ++
        ["fecha_de_publicacion_del <= '" +:+ str (get filtros "fecha_fin") +:+ "T23:59:59'"]
    else condiciones in
  Return (Py.join " AND " condiciones).

(** ** Tables

    A cell holds [None], the float [nan] that pandas uses for a missing
    value, a boolean, an integer or a string; other floats and dates are not
    modelled.  A [DataFrame] is its column labels and its rows; pandas keeps
    every row as long as the label list and, in a frame read from CSV, the
    labels distinct ([wf_frame]). *)

Inductive value : Type :=
| VNone
| VNaN
| VBool (b : bool)
| VInt (n : Z)
| VStr (s : string).

Record DataFrame : Type := mkDataFrame {
  columns : list string;
  data : list (list value)
}.

Definition wf_frame (df : DataFrame) : Prop :=
  NoDup (columns df) /\ Forall (fun row => length row = length (columns df)) (data df).

Module pd.

(** [pd.DataFrame()] *)
Definition DataFrame_ : DataFrame := mkDataFrame [] [].

(** [len(df)] *)
Definition len (df : DataFrame) : Z := Z.of_nat (length (data df)).

(** [df.empty]: some axis has length zero. *)
Definition empty (df : DataFrame) : bool :=
  (length (columns df) =? 0)%nat || (length (data df) =? 0)%nat.

(** The cell of [row] under label [c], [nan] when the frame has no such
    column. *)
Fixpoint at_label (c : string) (cs : list string) (row : list value) : value :=
  match cs, row with
  | c' :: cs', v :: row' => if String.eqb c c' then v else at_label c cs' row'
  | _, _ => VNaN
  end.

Definition reindex (cs' cs : list string) (row : list value) : list value :=
  map (fun c => at_label c cs row) cs'.

(** Labels in order of first appearance. *)
Definition union_columns (acc cs : list string) : list string :=
  acc ++ filter (fun c => c ∉ acc) cs.

(** [pd.concat(frames, ignore_index=True)] for a non-empty list: an outer
    join on the labels, the rows of each frame in turn.  The cells are
    returned as they are; where pandas turns the integers of a column into
    floats (an int64 column joined with a float64 or a uint64 one) its
    result has cells that are not modelled here, and [sin_conversion] below
    names the frames on which it changes none. *)
Definition concat (frames : list DataFrame) : DataFrame :=
  let cs := foldl (fun acc df => union_columns acc (columns df)) [] frames in
  mkDataFrame cs
    (List.concat (map (fun df => map (reindex cs (columns df)) (data df)) frames)).

End pd.

(** ** The remote endpoint

    One HTTP GET is a [Request]: the three values the query string is built
    from.  [url] is the address the code hands to [requests.get].  The
    endpoint answers the [n]-th call of a download with a transport failure
    or a [Response]; [csv] is the frame [pd.read_csv] builds from the body,
    [None] when the parser raises. *)

Record Request : Type := mkRequest {
  limit : Z;
  offset : Z;
  where_ : string
}.

Record Response : Type := mkResponse {
  status_code : Z;
  text : string;
  csv : option DataFrame
}.

Inductive transport_failure : Type :=
| TimedOut
| NoConnection.

Definition raised_by (f : transport_failure) : exception :=
  match f with
  | TimedOut => Timeout
  | NoConnection => ConnectionError
  end.

Definition endpoint : Type := nat -> Request -> transport_failure + Response.

Module urllib.

Definition hex_digit (n : nat) : ascii :=
  match String.get n "0123456789ABCDEF" with
  | Some c => c
  | None => "0"%char
  end.

Definition percent (byte : nat) : string :=
  String "%" (String (hex_digit (byte / 16)) (String (hex_digit (byte mod 16)) EmptyString)).

(** Letters, digits, [_.-~] and the default [safe='/']. *)
Definition is_safe (c : ascii) : bool :=
  let n := nat_of_ascii c in
  (((48 <=? n) && (n <=? 57)) || ((65 <=? n) && (n <=? 90)) || ((97 <=? n) && (n <=? 122))
   || (n =? 95) || (n =? 46) || (n =? 45) || (n =? 126) || (n =? 47))%nat.

(** A code point from 128 on is two UTF-8 bytes. *)
Definition quote_char (c : ascii) : string :=
  let n := nat_of_ascii c in
  if is_safe c then String c EmptyString
  else if (n <? 128)%nat then percent n
  else (percent (192 + n / 64) +:+ percent (128 + n mod 64))%nat.

Fixpoint quote (s : string) : string :=
  match s with
  | EmptyString => EmptyString
  | String c r => quote_char c +:+ quote r
  end.

End urllib.

Definition BASE_URL : string := "https://www.datos.gov.co/resource/p6dx-8zbt.csv".

Definition url (r : Request) : string :=
  let query := "$limit=" +:+ Py.str_int (limit r) +:+ "&$offset=" +:+ Py.str_int (offset r) in
  let query :=
    if Py.nonempty (where_ r) then query +:+ "&$where=" +:+ urllib.quote (where_ r)
    else query in
  BASE_URL +:+ "?" +:+ query.

(** [Response.raise_for_status]: a 4xx or 5xx status raises. *)
Definition raise_for_status (r : Response) : result unit :=
  if (400 <=? status_code r) && (status_code r <? 600)
  then Raise (HTTPError (status_code r) (text r))
  else Return tt.

(** [pd.read_csv(StringIO(response.text))] *)
Definition read_csv (r : Response) : result DataFrame :=
  match csv r with
  | Some df => Return df
  | None => Raise ParserError
  end.

(** ** The paginated fetch *)

Definition limite_por_pagina : Z := 10000.

(** The [while] loop.  It returns the requests issued so far, oldest first,
    with the pages kept or the exception raised; [None] stands for a loop
    that has not finished within [fuel] turns. *)
Fixpoint bucle (fuel : nat) (get : endpoint) (where_clause : string) (max_registros : Z)
    (llamadas : list Request) (todas_las_paginas : list DataFrame)
    (offset total_registros : Z) : option (list Request * result (list DataFrame)) :=
  if total_registros <? max_registros then
    match fuel with
    | O => None
    | S fuel =>
        let limite_actual := Z.min limite_por_pagina (max_registros - total_registros) in
        let peticion := mkRequest limite_actual offset where_clause in
        let respuesta := get (length llamadas) peticion in
        let llamadas := llamadas ++ [peticion] in
        match respuesta with
        | inl falla => Some (llamadas, Raise (raised_by falla))
        | inr response =>
            match raise_for_status response with
            | Raise e => Some (llamadas, Raise e)
            | Return _ =>
                match read_csv response with
                | Raise e => Some (llamadas, Raise e)
                | Return df_pagina =>
                    if pd.empty df_pagina then Some (llamadas, Return todas_las_paginas)
                    else
                      let todas_las_paginas := todas_las_paginas ++ [df_pagina] in
                      let registros_pagina := pd.len df_pagina in
                      let total_registros := total_registros + registros_pagina in
                      if registros_pagina <? limite_por_pagina
                      then Some (llamadas, Return todas_las_paginas)
                      else bucle fuel get where_clause max_registros llamadas
                             todas_las_paginas (offset + limite_por_pagina) total_registros
                end
            end
        end
    end
  else Some (llamadas, Return todas_las_paginas).

(** Every full turn adds at least [limite_por_pagina] rows, so this many
    turns are enough ([descargar_datos_paginado_total]). *)
Definition turnos (max_registros : Z) : nat :=
  Z.to_nat ((max_registros + limite_por_pagina - 1) / limite_por_pagina).

Definition descargar_datos_paginado (get : endpoint) (where_clause : string)
    (max_registros : Z) : option (list Request * result DataFrame) :=
  '(llamadas, paginas) ← bucle (turnos max_registros) get where_clause max_registros [] [] 0 0;
  Some (llamadas,
        todas_las_paginas ← paginas;
        match todas_las_paginas with
        | [] => Return pd.DataFrame_
        | _ => Return (pd.concat todas_las_paginas)
        end).

(** ** openpyxl

    The part of openpyxl 3.1 that [crear_excel_en_memoria] drives: one
    worksheet with its cell dictionary, merged ranges, dimensions and
    tables.  The bytes that [wb.save] writes are not modelled: [save] does
    what the writer does to the sheet before it encodes it, and the
    worksheet it returns stands for the saved workbook. *)

Module openpyxl.

Record Font : Type := mkFont { bold : bool; size : Z; color : string }.
Record PatternFill : Type :=
  mkPatternFill { start_color : string; end_color : string; fill_type : string }.
Record Alignment : Type := mkAlignment { horizontal : string; vertical : string }.

(** A [Cell], or the [MergedCell] placeholder that a merge leaves on every
    position but the top-left one ([merged], value always [None]). *)
Record cell : Type := mkCell {
  merged : bool;
  cell_value : value;
  font : option Font;
  fill : option PatternFill;
  alignment : option Alignment
}.

Definition MergedCell : cell := mkCell true VNone None None None.

Record TableStyleInfo : Type := mkTableStyleInfo {
  name : string;
  showFirstColumn : bool;
  showLastColumn : bool;
  showRowStripes : bool;
  showColumnStripes : bool
}.

Record Table : Type := mkTable {
  displayName : string;
  ref : string;
  tableStyleInfo : option TableStyleInfo
}.

(** Cells are keyed by (row, column), both from 1.  A merged range is
    (min_col, min_row, max_col, max_row). *)
Record Worksheet : Type := mkWorksheet {
  title : string;
  _cells : gmap (nat * nat) cell;
  _current_row : nat;
  merged_cells : list (nat * nat * nat * nat);
  row_height : gmap nat Z;
  column_width : gmap string Z;
  tables : list Table
}.

(** [Workbook().active] *)
Definition active : Worksheet := mkWorksheet "Sheet" ∅ 0 [] ∅ ∅ [].

Definition set_title (ws : Worksheet) (t : string) : Worksheet :=
  mkWorksheet t (_cells ws) (_current_row ws) (merged_cells ws) (row_height ws)
    (column_width ws) (tables ws).

Definition put (ws : Worksheet) (row col : nat) (c : cell) : Worksheet :=
  mkWorksheet (title ws) (<[(row, col) := c]> (_cells ws)) (_current_row ws)
    (merged_cells ws) (row_height ws) (column_width ws) (tables ws).

Definition set_current_row (ws : Worksheet) (row : nat) : Worksheet :=
  mkWorksheet (title ws) (_cells ws) row (merged_cells ws) (row_height ws)
    (column_width ws) (tables ws).

(** [ws.row_dimensions[row].height = h] *)
Definition set_height (ws : Worksheet) (row : nat) (h : Z) : Worksheet :=
  mkWorksheet (title ws) (_cells ws) (_current_row ws) (merged_cells ws)
    (<[row := h]> (row_height ws)) (column_width ws) (tables ws).

(** [ws.column_dimensions[letter].width = w] *)
Definition set_width (ws : Worksheet) (letter : string) (w : Z) : Worksheet :=
  mkWorksheet (title ws) (_cells ws) (_current_row ws) (merged_cells ws)
    (row_height ws) (<[letter := w]> (column_width ws)) (tables ws).

(** [ws.add_table(tab)] *)
Definition add_table (ws : Worksheet) (tab : Table) : Worksheet :=
  mkWorksheet (title ws) (_cells ws) (_current_row ws) (merged_cells ws)
    (row_height ws) (column_width ws) (tables ws ++ [tab]).

(** *** Column letters and coordinates *)

(** The [while col_idx > 0] loop of [get_column_letter], in binary
    arithmetic; a letter is produced per turn. *)
Fixpoint letters (fuel : nat) (col_idx : N) (acc : string) : string :=
  match fuel with
  | O => acc
  | S fuel =>
      if (col_idx =? 0)%N then acc
      else
        let '(q, r) := N.div_eucl col_idx 26 in
        (* an exact division borrows from the quotient *)
        let '(q, r) := if (r =? 0)%N then ((q - 1)%N, 26%N) else (q, r) in
        letters fuel q (String (ascii_of_N (r + 64)) acc)
  end.

(** Indices 1 to 18278, which have up to three letters. *)
Definition get_column_letter (col_idx : nat) : result string :=
  if ((1 <=? col_idx) && (col_idx <=? 18278))%nat
  then Return (letters 3 (N.of_nat col_idx) EmptyString)
  else Raise ValueError.

Definition upper (c : ascii) : ascii :=
  let n := nat_of_ascii c in
  if ((97 <=? n) && (n <=? 122))%nat then ascii_of_nat (n - 32) else c.

Definition is_letter (c : ascii) : bool :=
  let n := nat_of_ascii (upper c) in ((65 <=? n) && (n <=? 90))%nat.

Fixpoint column_index (s : string) (acc : N) : N :=
  match s with
  | EmptyString => acc
  | String c r => column_index r (acc * 26 + (N_of_ascii (upper c) - 64))%N
  end.

(** One to three letters. *)
Definition column_index_from_string (s : string) : result nat :=
  if ((1 <=? String.length s) && (String.length s <=? 3))%nat
     && forallb is_letter (list_ascii_of_string s)
  then Return (N.to_nat (column_index s 0))
  else Raise ValueError.

(** Leading letters and the rest. *)
Fixpoint split_letters (s : string) : string * string :=
  match s with
  | EmptyString => (EmptyString, EmptyString)
  | String c r =>
      if is_letter c then let '(l, d) := split_letters r in (String c l, d)
      else (EmptyString, s)
  end.

Fixpoint digits_value (s : string) (acc : nat) : option nat :=
  match s with
  | EmptyString => Some acc
  | String c r =>
      if Py.is_digit c then digits_value r (acc * 10 + (nat_of_ascii c - 48))%nat
      else None
  end.

(** ['J1'] is row 1, column 10. *)
Definition coordinate_to_tuple (coord : string) : result (nat * nat) :=
  let '(l, d) := split_letters coord in
  col ← column_index_from_string l;
  match d, digits_value d 0 with
  | String _ _, Some row => if (1 <=? row)%nat then Return (row, col) else Raise ValueError
  | _, _ => Raise ValueError
  end.

(** ['A1:J1'] is (1, 1, 10, 1): min_col, min_row, max_col, max_row. *)
Definition range_boundaries (range_string : string) : result (nat * nat * nat * nat) :=
  match Py.split ":" range_string with
  | [a; b] =>
      '(min_row, min_col) ← coordinate_to_tuple a;
      '(max_row, max_col) ← coordinate_to_tuple b;
      Return (min_col, min_row, max_col, max_row)
  | _ => Raise ValueError
  end.

(** *** Cell values *)

(** The control characters that [ILLEGAL_CHARACTERS_RE] rejects. *)
Definition is_illegal (c : ascii) : bool :=
  let n := nat_of_ascii c in
  ((n <=? 8) || (n =? 11) || (n =? 12) || ((14 <=? n) && (n <=? 31)))%nat.

(** [Cell.check_string]: cut to 32767 characters, then refuse control
    characters. *)
Definition check_string (s : string) : result string :=
  let s := Py.prefix 32767 s in
  if existsb is_illegal (list_ascii_of_string s) then Raise IllegalCharacterError
  else Return s.

(** The value a [Cell] keeps when it is given [v]. *)
Definition bind_value (v : value) : result value :=
  match v with
  | VStr s => s' ← check_string s; Return (VStr s')
  | _ => Return v
  end.

(** [Cell(ws, row, column, value=content)] *)
Definition Cell (content : value) : result cell :=
  v ← bind_value content; Return (mkCell false v None None None).

(** [ws.cell(row, column)]: the cell there, made empty if there is none;
    a new cell moves [_current_row] up to its row.  Rows and columns start
    at 1, and [_get_cell] refuses a row beyond 1048576, also where a cell
    exists. *)
Definition cell_at (ws : Worksheet) (row col : nat) : result (Worksheet * cell) :=
  if (1 <=? Z.of_nat row) && (Z.of_nat row <=? 1048576) && (1 <=? Z.of_nat col) then
    match _cells ws !! (row, col) with
    | Some c => Return (ws, c)
    | None =>
        let c := mkCell false VNone None None None in
        Return (set_current_row (put ws row col c) (Nat.max row (_current_row ws)), c)
    end
  else Raise ValueError.

(** [ws[coord] = v]; a [MergedCell] has no settable value. *)
Definition setitem (ws : Worksheet) (coord : string) (v : value) : result Worksheet :=
  '(row, col) ← coordinate_to_tuple coord;
  '(ws, c) ← cell_at ws row col;
  if merged c then Raise AttributeError
  else
    v' ← bind_value v;
    Return (put ws row col (mkCell false v' (font c) (fill c) (alignment c))).

(** [ws[coord].font = f], and the like. *)
Definition set_font (ws : Worksheet) (coord : string) (f : Font) : result Worksheet :=
  '(row, col) ← coordinate_to_tuple coord;
  '(ws, c) ← cell_at ws row col;
  Return (put ws row col (mkCell (merged c) (cell_value c) (Some f) (fill c) (alignment c))).

Definition set_fill (ws : Worksheet) (coord : string) (f : PatternFill) : result Worksheet :=
  '(row, col) ← coordinate_to_tuple coord;
  '(ws, c) ← cell_at ws row col;
  Return (put ws row col (mkCell (merged c) (cell_value c) (font c) (Some f) (alignment c))).

Definition set_alignment (ws : Worksheet) (coord : string) (a : Alignment) : result Worksheet :=
  '(row, col) ← coordinate_to_tuple coord;
  '(ws, c) ← cell_at ws row col;
  Return (put ws row col (mkCell (merged c) (cell_value c) (font c) (fill c) (Some a))).

(** The positions of a range in row-major order. *)
Definition range_cells (min_col min_row max_col max_row : nat) : list (nat * nat) :=
  row ← seq min_row (S max_row - min_row);
  col ← seq min_col (S max_col - min_col);
  [(row, col)].

(** [ws.merge_cells(range_string)]: the range is recorded and every
    position but the first gets a [MergedCell] in the cell dictionary
    ([_clean_merge_range]: [self._cells[row, col] = MergedCell(self, row, col)]),
    as openpyxl does from version 2.6 on. *)
Definition merge_cells (ws : Worksheet) (range_string : string) : result Worksheet :=
  '(min_col, min_row, max_col, max_row) ← range_boundaries range_string;
  let ws :=
    mkWorksheet (title ws) (_cells ws) (_current_row ws)
      (merged_cells ws ++ [(min_col, min_row, max_col, max_row)])
      (row_height ws) (column_width ws) (tables ws) in
  Return (foldl (fun ws '(row, col) => put ws row col MergedCell) ws
            (tail (range_cells min_col min_row max_col max_row))).

(** [ws.append(iterable)]: a new row below [_current_row], cells from
    column 1. *)
Definition append (ws : Worksheet) (iterable : list value) : result Worksheet :=
  let row_idx := S (_current_row ws) in
  ws ← for_each (fun ws '(col_idx, content) =>
                   c ← Cell content; Return (put ws row_idx col_idx c))
         ws (zip (seq 1 (length iterable)) iterable);
  Return (set_current_row ws row_idx).

(** [ws.max_row] and [ws.max_column]: the largest key of the cell
    dictionary, merged placeholders included ([max(c[1] for c in
    self._cells)]), 1 without cells. *)
Definition max_row (ws : Worksheet) : nat :=
  match (map_to_list (_cells ws)).*1.*1 with
  | [] => 1%nat
  | rows => max_list rows
  end.

Definition max_column (ws : Worksheet) : nat :=
  match (map_to_list (_cells ws)).*1.*2 with
  | [] => 1%nat
  | cols => max_list cols
  end.

(** One tuple of [ws.columns]: the cells of column [col_idx] in rows
    1..[last_row], missing ones made on the way. *)
Fixpoint cells_at (ws : Worksheet) (col_idx : nat) (rows : list nat)
    : result (Worksheet * list cell) :=
  match rows with
  | [] => Return (ws, [])
  | row :: rows =>
      '(ws, c) ← cell_at ws row col_idx;
      '(ws, cells) ← cells_at ws col_idx rows;
      Return (ws, c :: cells)
  end.

Definition column (ws : Worksheet) (col_idx last_row : nat)
    : result (Worksheet * list cell) :=
  cells_at ws col_idx (seq 1 last_row).

(** The cells of a range, as [ws[range_string]] collects them with
    [iter_rows]: row by row, missing ones made on the way. *)
Fixpoint cells_of (ws : Worksheet) (positions : list (nat * nat))
    : result (Worksheet * list cell) :=
  match positions with
  | [] => Return (ws, [])
  | (row, col) :: positions =>
      '(ws, c) ← cell_at ws row col;
      '(ws, cells) ← cells_of ws positions;
      Return (ws, c :: cells)
  end.

(** [wb.save(output)], as far as it touches the sheet: for every table the
    writer collects the cells of the table's range and reads the header
    cells from its first row, [ws[t.ref][0]]; a range whose last row lies
    above its first row has no row. *)
Definition save (ws : Worksheet) : result Worksheet :=
  for_each (fun ws t =>
              '(min_col, min_row, max_col, max_row) ← range_boundaries (ref t);
              '(ws, _) ← cells_of ws (range_cells min_col min_row max_col max_row);
              if (max_row <? min_row)%nat then Raise IndexError else Return ws)
    ws (tables ws).

End openpyxl.

(** ** The workbook emitter *)

(** [bool(v)], [str(v)] and [v or ''] for a cell value. *)
Definition truthy_value (v : value) : bool :=
  match v with
  | VNone => false
  | VNaN => true
  | VBool b => b
  | VInt n => negb (n =? 0)
  | VStr s => Py.nonempty s
  end.

Definition str_value (v : value) : string :=
  match v with
  | VNone => "None"
  | VNaN => "nan"
  | VBool true => "True"
  | VBool false => "False"
  | VInt n => Py.str_int n
  | VStr s => s
  end.

Definition value_or_empty (v : value) : value :=
  if truthy_value v then v else VStr EmptyString.

(** [max(...)] of a sequence of integers. *)
Definition max_ (l : list Z) : result Z :=
  match l with
  | [] => Raise ValueError
  | x :: r => Return (foldl Z.max x r)
  end.

(** [dataframe_to_rows(df, index=False, header=False)] *)
Definition dataframe_to_rows (df : DataFrame) : list (list value) := data df.

Definition titulo_empresa : string := "Sociedad Colombiana de Consultoria SAS".

(** One turn of the loop over [ws_datos.columns].  The guard on
    [isinstance(column_cells[0], tuple)] never holds, a column being a tuple
    of cells, and has no counterpart here. *)
Definition ajustar_columna (last_row : nat) (ws_datos : openpyxl.Worksheet) (col_idx : nat)
    : result openpyxl.Worksheet :=
  '(ws_datos, column_cells) ← openpyxl.column ws_datos col_idx last_row;
  column_letter ← openpyxl.get_column_letter col_idx;
  length ← max_ (map (fun c => Py.len (str_value (value_or_empty (openpyxl.cell_value c))))
                     column_cells);
  Return (openpyxl.set_width ws_datos column_letter (length + 2)).

Definition font_titulo_empresa : openpyxl.Font := openpyxl.mkFont true 16 "003366".
Definition fill_titulo_empresa : openpyxl.PatternFill :=
  openpyxl.mkPatternFill "DDEBF7" "DDEBF7" "solid".
Definition alignment_titulo_empresa : openpyxl.Alignment :=
  openpyxl.mkAlignment "center" "center".

(** The first half of [crear_excel_en_memoria], which does not look at the
    table: a new sheet with the banner on row 1. *)
Definition poner_titulo : result openpyxl.Worksheet :=
  let ws_datos := openpyxl.active in
  let ws_datos := openpyxl.set_title ws_datos "Datos SECOP2" in
  ws_datos ← openpyxl.setitem ws_datos "A1" (VStr titulo_empresa);
  ws_datos ← openpyxl.set_font ws_datos "A1" font_titulo_empresa;
  ws_datos ← openpyxl.set_fill ws_datos "A1" fill_titulo_empresa;
  ws_datos ← openpyxl.set_alignment ws_datos "A1" alignment_titulo_empresa;
  ws_datos ← openpyxl.merge_cells ws_datos "A1:J1";
  Return (openpyxl.set_height ws_datos 1 30).

(** The second half: header, rows, table and column widths. *)
Definition llenar_hoja (df : DataFrame) (ws_datos : openpyxl.Worksheet)
    : result openpyxl.Worksheet :=
  let column_names := map VStr (columns df) in
  ws_datos ← openpyxl.append ws_datos column_names;
  ws_datos ← for_each openpyxl.append ws_datos (dataframe_to_rows df);
  letter ← openpyxl.get_column_letter (openpyxl.max_column ws_datos);
  let tab :=
    openpyxl.mkTable "TablaDatos"
      ("A2:" +:+ letter +:+ Py.str_int (Z.of_nat (openpyxl.max_row ws_datos))) None in
  let style := openpyxl.mkTableStyleInfo "TableStyleMedium9" false false true false in
  let tab := openpyxl.mkTable (openpyxl.displayName tab) (openpyxl.ref tab) (Some style) in
  let ws_datos := openpyxl.add_table ws_datos tab in
  (* [ws.columns] yields nothing on a sheet without rows and otherwise
     fixes both bounds before the first column is produced *)
  if (openpyxl._current_row ws_datos =? 0)%nat then Return ws_datos
  else
    for_each (ajustar_columna (openpyxl.max_row ws_datos)) ws_datos
      (seq 1 (openpyxl.max_column ws_datos)).

Definition crear_excel_en_memoria (df : DataFrame) : result openpyxl.Worksheet :=
  ws_datos ← poner_titulo;
  ws_datos ← llenar_hoja df ws_datos;
  openpyxl.save ws_datos.

(** ** The request handler *)

Record datetime : Type := mkDatetime {
  year : Z; month : Z; day : Z; hour : Z; minute : Z; second : Z; microsecond : Z
}.

Definition datetime_fields (d : datetime) : list Z :=
  [year d; month d; day d; hour d; minute d; second d; microsecond d].

Fixpoint lex_gt (a b : list Z) : bool :=
  match a, b with
  | x :: a', y :: b' => (y <? x) || ((x =? y) && lex_gt a' b')
  | _, _ => false
  end.

(** [a > b] *)
Definition datetime_gt (a b : datetime) : bool :=
  lex_gt (datetime_fields a) (datetime_fields b).

Definition pad2 (n : Z) : string :=
  if n <? 10 then "0" +:+ Py.str_int n else Py.str_int n.

(** [d.strftime("%Y%m%d_%H%M%S")], for a year of four digits. *)
Definition strftime (d : datetime) : string :=
  Py.str_int (year d) +:+ pad2 (month d) +:+ pad2 (day d) +:+ "_" +:+
  pad2 (hour d) +:+ pad2 (minute d) +:+ pad2 (second d).

Inductive flask_response : Type :=
| jsonify (error : string) (status : Z)
| send_file (excel_file : openpyxl.Worksheet) (download_name : string) (mimetype : string).

Definition o_aguda : string := String (ascii_of_nat 243) EmptyString.

(** The body of the [try] block.  [now] gives the successive readings of
    the clock; reading 0 is taken at the expiry gate. *)
Definition consulta (now : nat -> datetime) (get : endpoint) (filtros : gmap string json)
    : option (result flask_response) :=
  match construir_consulta_where filtros with
  | Raise e => Some (Raise e)
  | Return where_clause =>
      match int (get_default filtros "max_registros" (JInt 50000)) with
      | Raise e => Some (Raise e)
      | Return max_registros =>
          '(_, descarga) ← descargar_datos_paginado get where_clause max_registros;
          Some (df ← descarga;
                if pd.empty df then
                  Return (jsonify "No se encontraron registros con los filtros especificados." 404)
                else
                  excel_file ← crear_excel_en_memoria df;
                  let timestamp := strftime (now 1%nat) in
                  let filename := "secop2_reporte_" +:+ timestamp +:+ ".xlsx" in
                  Return (send_file excel_file filename
                            "application/vnd.openxmlformats-officedocument.spreadsheetml.sheet"))
      end
  end.

(** [None] only if the download does not finish, which never happens
    ([handle_query_total]). *)
Definition handle_query (now : nat -> datetime) (get : endpoint) (filtros : gmap string json)
    : option flask_response :=
  let fecha_limite := mkDatetime 2025 12 31 0 0 0 0 in
  if datetime_gt (now 0%nat) fecha_limite then Some (jsonify "Este servicio ha expirado." 403)
  else
    r ← consulta now get filtros;
    match r with
    | Return response => Some response
    | Raise (HTTPError _ response_text) =>
        Some (jsonify ("Error al contactar la API de SECOP: " +:+ response_text) 502)
    | Raise _ =>
        Some (jsonify ("Ocurri" +:+ o_aguda +:+ " un error inesperado en el servidor.") 500)
    end.

Definition status (r : flask_response) : Z :=
  match r with
  | jsonify _ s => s
  | send_file _ _ _ => 200
  end.

(** ** What the statements below talk about *)

(** The page the endpoint gave to call [n], the empty frame if it gave none. *)
Definition pagina (get : endpoint) (n : nat) (r : Request) : DataFrame :=
  match get n r with
  | inr response => default pd.DataFrame_ (csv response)
  | inl _ => pd.DataFrame_
  end.

(** An endpoint that answers every request with a page that has no more
    rows than asked for. *)
Definition sirve_paginas (get : endpoint) : Prop :=
  forall n r, 0 < limit r ->
    exists response df,
      get n r = inr response /\ raise_for_status response = Return tt /\
      csv response = Some df /\ pd.len df <= limit r.

(** An endpoint that always has a full page. *)
Definition sirve_paginas_llenas (get : endpoint) : Prop :=
  forall n r, 0 < limit r ->
    exists response df,
      get n r = inr response /\ raise_for_status response = Return tt /\
      csv response = Some df /\ columns df <> [] /\ pd.len df = limit r.

(** *** Sample data *)

Definition df6 : DataFrame :=
  mkDataFrame ["id"; "name"] [[VStr "1"; VStr "Acme"]; [VStr "2"; VStr "Beta"]].

Definition fila_muestra : list value := [VInt 1; VStr "x"].

(** As many rows as asked for, on every call. *)
Definition fuente_llena : endpoint := fun _ r =>
  inr (mkResponse 200 "id,name"
         (Some (mkDataFrame ["id"; "name"] (replicate (Z.to_nat (limit r)) fila_muestra)))).

(** A header line and no rows. *)
Definition fuente_vacia : endpoint := fun _ _ =>
  inr (mkResponse 200 "id,name" (Some (mkDataFrame ["id"; "name"] []))).

Definition fuente_caida : endpoint := fun _ _ => inl TimedOut.

Definition fuente_503 : endpoint := fun _ _ =>
  inr (mkResponse 503 "Service Unavailable" None).

Definition reloj : nat -> datetime := fun _ => mkDatetime 2025 6 1 12 0 0 0.

(** Pages on the labels [schema]. *)
Definition on_schema (schema : list string) (p : DataFrame) : Prop :=
  wf_frame p /\ columns p = schema.

(** The pages given to the calls [llamadas], in call order. *)
Definition paginas_servidas (get : endpoint) (llamadas : list Request) : list DataFrame :=
  imap (pagina get) llamadas.

(** The pages the loop keeps. *)
Definition no_vacias (ps : list DataFrame) : list DataFrame :=
  filter (fun p => pd.empty p = false) ps.

(** The [$where] parameter of the query string. *)
Definition parametro_where (w : string) : string :=
  if Py.nonempty w then "&$where=" +:+ urllib.quote w else EmptyString.

(** The expiry date and the messages of the handler. *)
Definition fecha_limite : datetime := mkDatetime 2025 12 31 0 0 0 0.

Definition mensaje_404 : string :=
  "No se encontraron registros con los filtros especificados.".
Definition mensaje_500 : string :=
  "Ocurri" +:+ o_aguda +:+ " un error inesperado en el servidor.".
Definition mensaje_502 (response_text : string) : string :=
  "Error al contactar la API de SECOP: " +:+ response_text.

(** A request that gets past the expiry gate and reaches the download with
    predicate [w] and cap [cap]. *)
Definition llega_a_descarga (now : nat -> datetime) (filtros : gmap string json)
    (w : string) (cap : Z) : Prop :=
  datetime_gt (now 0%nat) fecha_limite = false /\
  construir_consulta_where filtros = Return w /\
  int (get_default filtros "max_registros" (JInt 50000)) = Return cap.

(** The value at a position of the sheet, [None] where there is no cell. *)
Definition valor (ws : openpyxl.Worksheet) (row col : nat) : value :=
  default VNone (openpyxl.cell_value <$> openpyxl._cells ws !! (row, col)).

(** The values of a row, columns 1 to [ws.max_column]. *)
Definition fila (ws : openpyxl.Worksheet) (row : nat) : list value :=
  map (valor ws row) (seq 1 (openpyxl.max_column ws)).

(** What the width loop measures on a cell: [len(str(cell.value or ''))]. *)
Definition medida (v : value) : Z := Py.len (str_value (value_or_empty v)).

(** The length of the text of a value, zero for a missing one. *)
Definition longitud (v : value) : Z :=
  match v with
  | VNone => 0
  | _ => Py.len (str_value v)
  end.

Definition longest (l : list Z) : Z := foldr Z.max 0 l.

(** Values on which [medida] is [longitud]: not a zero, not [False], and a
    text within the 32767 characters a cell keeps. *)
Definition medible (v : value) : Prop :=
  v <> VInt 0 /\ v <> VBool false /\
  forall s, v = VStr s -> (String.length s <= 32767)%nat.

(** The lengths that decide the width of sheet column [col]: the banner
    caption, which sits in column 1, the header and the data cells. *)
Definition medidas (df : DataFrame) (col : nat) : list Z :=
  (if (col =? 1)%nat then Py.len titulo_empresa else 0)
  :: longitud (nth (col - 1) (map VStr (columns df)) VNone)
  :: map (fun row => longitud (nth (col - 1) row VNone)) (data df).

(** [ws'] keeps what [ws] has: the same title, merges, heights and tables,
    every cell of [ws], and no new value. *)
Definition conserva (ws ws' : openpyxl.Worksheet) : Prop :=
  openpyxl.title ws' = openpyxl.title ws /\
  openpyxl.merged_cells ws' = openpyxl.merged_cells ws /\
  openpyxl.row_height ws' = openpyxl.row_height ws /\
  openpyxl.tables ws' = openpyxl.tables ws /\
  (forall k y, openpyxl._cells ws !! k = Some y -> openpyxl._cells ws' !! k = Some y) /\
  (forall row col, valor ws' row col = valor ws row col).

(** The cells of the banner row. *)
Definition celda_titulo : openpyxl.cell :=
  openpyxl.mkCell false (VStr titulo_empresa) (Some font_titulo_empresa)
    (Some fill_titulo_empresa) (Some alignment_titulo_empresa).

Definition celdas_titulo : gmap (nat * nat) openpyxl.cell :=
  <[(1, 1)%nat := celda_titulo]>
    (list_to_map (map (fun col => ((1%nat, col), openpyxl.MergedCell)) (seq 2 9))).

(** A cell as [ws.append] makes it. *)
Definition celda (v : value) : openpyxl.cell := openpyxl.mkCell false v None None None.

(** [vals] are the values the cells keep when given [row]. *)
Definition guardados (row vals : list value) : Prop :=
  Forall2 (fun v v' => openpyxl.bind_value v = Return v') row vals.

(** [ws'] differs from [ws] in cells and [_current_row] at most. *)
Definition mismo_marco (ws ws' : openpyxl.Worksheet) : Prop :=
  openpyxl.title ws' = openpyxl.title ws /\
  openpyxl.merged_cells ws' = openpyxl.merged_cells ws /\
  openpyxl.row_height ws' = openpyxl.row_height ws /\
  openpyxl.column_width ws' = openpyxl.column_width ws /\
  openpyxl.tables ws' = openpyxl.tables ws.

(** The sheet that [poner_titulo] returns. *)
Definition hoja_titulo : openpyxl.Worksheet :=
  openpyxl.mkWorksheet "Datos SECOP2" celdas_titulo 1 [(1, 1, 10, 1)%nat]
    {[ 1%nat := 30 ]} ∅ [].

(** The numbers [start], [start + 1], ... *)
Fixpoint N_run (start : N) (len : nat) : list N :=
  match len with
  | O => []
  | S len => start :: N_run (N.succ start) len
  end.

(** The number of columns of a merged range. *)
Definition columnas_del_rango (r : nat * nat * nat * nat) : nat :=
  let '(min_col, _, max_col, _) := r in (S max_col - min_col)%nat.

(** Rows whose integers are int64, as [pd.read_csv] reads them. *)
Definition enteros_int64 (rows : list (list value)) : Prop :=
  Forall (Forall (fun v => forall n, v = VInt n ->
                     - 9223372036854775808 <= n < 9223372036854775808)) rows.

(** Frames that [pd.concat] joins without changing a cell.  pandas reads a
    column of integers as int64 (uint64 from 2^63 on) and a column of
    missing values only as float64, and joining an integer column with a
    float64 or a uint64 one turns the integers into floats, which are not
    among the cells modelled here.  In a frame of this kind every integer
    is an int64 and no column consists of missing values only. *)
Definition sin_conversion (p : DataFrame) : Prop :=
  (forall j, (j < length (columns p))%nat ->
     Exists (fun row => exists v, row !! j = Some v /\ v <> VNaN /\ v <> VNone)
            (data p)) /\
  enteros_int64 (data p).

(** A first page on the labels a and b, as long as asked for, and then
    pages of one row on the labels b and c. *)
Definition fuente_mixta : endpoint := fun n r =>
  match n with
  | O => inr (mkResponse 200 "a,b"
                (Some (mkDataFrame ["a"; "b"]
                         (replicate (Z.to_nat (limit r)) [VStr "1"; VStr "2"]))))
  | S _ => inr (mkResponse 200 "b,c"
                  (Some (mkDataFrame ["b"; "c"] [[VStr "3"; VStr "4"]])))
  end.

(** *** Vocabulary of the further properties *)

(** Read from the left, the quotes of [s] come in pairs. *)
Fixpoint comillas_dobles (s : string) : bool :=
  match s with
  | EmptyString => true
  | String c r =>
      if Ascii.eqb c "'" then
        match r with
        | String c' r' => Ascii.eqb c' "'" && comillas_dobles r'
        | EmptyString => false
        end
      else comillas_dobles r
  end.

(** [s] with every pair of quotes put back to one quote. *)
Fixpoint sin_doblar (s : string) : string :=
  match s with
  | EmptyString => EmptyString
  | String c r =>
      if Ascii.eqb c "'" then
        match r with
        | String c' r' =>
            if Ascii.eqb c' "'" then String c (sin_doblar r') else String c (sin_doblar r)
        | EmptyString => String c EmptyString
        end
      else String c (sin_doblar r)
  end.

(** [c in s] *)
Fixpoint contiene (c : ascii) (s : string) : bool :=
  match s with
  | EmptyString => false
  | String c' r => Ascii.eqb c' c || contiene c r
  end.

(** A term as the multi-value clauses take it: a text that is not empty,
    has no blank at either end, no comma, and quotes in pairs only. *)
Definition termino_limpio (t : json) : Prop :=
  exists e, t = JStr e /\ e <> EmptyString /\ Py.strip e = e /\
            contiene "," e = false /\ comillas_dobles e = true.

(** The payload keys that [construir_consulta_where] reads, in the order it
    reads them, and those whose value goes through the escaping. *)
Definition claves_texto : list string :=
  [ "proceso_de_compra"; "entidad"; "departamento"; "ciudad"; "modalidades";
    "estado_del_procedimiento"; "estado_de_apertura_del_proceso" ].

Definition claves_filtro : list string := claves_texto ++ [ "fecha_inicio"; "fecha_fin" ].

(** What a filter counts for: its value if that is truthy, nothing if not. *)
Definition efectivo (filtros : gmap string json) (k : string) : option json :=
  if truthy (get filtros k) then Some (get filtros k) else None.

(** A value the escaping accepts: a text, or anything falsy. *)
Definition texto_o_falso (v : json) : bool :=
  match v with
  | JStr _ => true
  | _ => negb (truthy v)
  end.

(** What the loop asks for on its call number [n]: the fixed stride as
    offset, the predicate unchanged, and at least one row but no more than a
    page or than what the cap leaves after [n] full pages. *)
Definition peticion_en_regla (w : string) (cap : Z) (n : nat) (r : Request) : Prop :=
  offset r = limite_por_pagina * Z.of_nat n /\
  where_ r = w /\
  1 <= limit r <= Z.min limite_por_pagina (cap - limite_por_pagina * Z.of_nat n).

(** The call was answered with a status that does not raise and a body that
    parses. *)
Definition atendida (get : endpoint) (n : nat) (r : Request) : Prop :=
  exists response df,
    get n r = inr response /\ raise_for_status response = Return tt /\
    csv response = Some df.

(** The characters that [quote] lets through or produces: the unreserved
    ones, the slash, and the percent sign of an escape. *)
Definition caracter_de_url (c : ascii) : bool :=
  urllib.is_safe c || Ascii.eqb c "%".

Definition mensaje_403 : string := "Este servicio ha expirado.".

Definition xlsx : string :=
  "application/vnd.openxmlformats-officedocument.spreadsheetml.sheet".

(** What a cell keeps of a value it accepts: a text is cut to 32767
    characters, anything else is kept as it is. *)
Definition guardado (v : value) : value :=
  match v with
  | VStr s => VStr (Py.prefix 32767 s)
  | _ => v
  end.

(** The value at each position of the sheet rendered from [df]: the caption
    in A1, the labels on row 2, row [i] of the table on row [3 + i], and
    nothing anywhere else. *)
Definition contenido (df : DataFrame) (row col : nat) : value :=
  if (col =? 0)%nat then VNone
  else if (row =? 1)%nat then
    if (col =? 1)%nat then VStr titulo_empresa else VNone
  else if (row =? 2)%nat then guardado (nth (col - 1) (map VStr (columns df)) VNone)
  else if (3 <=? row)%nat then
    guardado (nth (col - 1) (nth (row - 3) (data df) []) VNone)
  else VNone.

(** A value a cell accepts: not a text with a control character among the
    characters that are kept. *)
Definition limpio (v : value) : bool :=
  match v with
  | VStr s =>
      negb (existsb openpyxl.is_illegal (list_ascii_of_string (Py.prefix 32767 s)))
  | _ => true
  end.

Definition tabla_limpia (df : DataFrame) : bool :=
  forallb limpio (map VStr (columns df)) && forallb (forallb limpio) (data df).

(** The table that [crear_excel_en_memoria] registers, given the last
    column letter and the last row. *)
Definition tabla_datos (letter : string) (last_row : nat) : openpyxl.Table :=
  openpyxl.mkTable "TablaDatos" ("A2:" +:+ letter +:+ Py.str_int (Z.of_nat last_row))
    (Some (openpyxl.mkTableStyleInfo "TableStyleMedium9" false false true false)).

(** A one-cell table whose text is the control character U+0007, and a
    source that serves it. *)
Definition df_sucio : DataFrame :=
  mkDataFrame ["id"] [[VStr (String "007"%char EmptyString)]].

Definition fuente_sucia : endpoint := fun _ _ =>
  inr (mkResponse 200 "id" (Some df_sucio)).

(** Noon of the last day. *)
Definition reloj_ultimo_dia : nat -> datetime := fun _ => mkDatetime 2025 12 31 12 0 0 0.

(** * Properties *)

(** ** The paginated fetch *)

Lemma raise_for_status_ok response :
  raise_for_status response = Return tt <->
  ~ (400 <= status_code response < 600).
Proof.
  unfold raise_for_status.
  destruct (400 <=? status_code response) eqn:Ha;
    destruct (status_code response <? 600) eqn:Hb; simpl; split;
    try discriminate; try reflexivity; lia.
Qed.

Lemma raise_for_status_raise response e :
  raise_for_status response = Raise e ->
  400 <= status_code response < 600 /\
  e = HTTPError (status_code response) (text response).
Proof.
  unfold raise_for_status.
  destruct (400 <=? status_code response) eqn:Ha;
    destruct (status_code response <? 600) eqn:Hb; simpl;
    intros H; inversion H; split; auto; lia.
Qed.

Lemma bucle_stop fuel get w cap llamadas paginas off total :
  cap <= total ->
  bucle fuel get w cap llamadas paginas off total = Some (llamadas, Return paginas).
Proof.
  intros H. destruct fuel; cbn [bucle];
    destruct (total <? cap) eqn:E; try reflexivity; lia.
Qed.

(** The loop always comes to an end within the turns it is given by
    [descargar_datos_paginado]. *)
Lemma bucle_total fuel get w cap llamadas paginas off total :
  cap - total <= limite_por_pagina * Z.of_nat fuel ->
  exists l r, bucle fuel get w cap llamadas paginas off total = Some (l, r).
Proof.
  unfold limite_por_pagina.
  revert llamadas paginas off total.
  induction fuel as [|fuel IH]; intros llamadas paginas off total Hfuel.
  - rewrite bucle_stop by lia. eauto.
  - cbn [bucle]. destruct (total <? cap) eqn:E; [|eauto].
    destruct (get _ _) as [falla|response]; [eauto|].
    destruct (raise_for_status response); [|eauto].
    destruct (read_csv response) as [df|]; [|eauto].
    destruct (pd.empty df); [eauto|].
    unfold limite_por_pagina.
    destruct (pd.len df <? 10000) eqn:E'; [eauto|].
    apply IH. lia.
Qed.

Lemma turnos_enough cap : cap - 0 <= limite_por_pagina * Z.of_nat (turnos cap).
Proof.
  unfold turnos, limite_por_pagina.
  destruct (Z.le_gt_cases cap 0) as [H|H]; [lia|].
  rewrite Z2Nat.id by (apply Z.div_pos; lia).
  pose proof (Z.mul_div_le (cap + 10000 - 1) 10000 ltac:(lia)).
  pose proof (Z.mod_pos_bound (cap + 10000 - 1) 10000 ltac:(lia)).
  pose proof (Z.div_mod (cap + 10000 - 1) 10000 ltac:(lia)).
  lia.
Qed.

Lemma descargar_datos_paginado_total get w cap :
  exists l r, descargar_datos_paginado get w cap = Some (l, r).
Proof.
  unfold descargar_datos_paginado.
  destruct (bucle_total (turnos cap) get w cap [] [] 0 0 (turnos_enough cap))
    as (l & r & ->).
  simpl. eauto.
Qed.

(** *** Joining pages that share their labels *)

Lemma at_label_skip c c0 cs v row :
  c <> c0 -> pd.at_label c (c0 :: cs) (v :: row) = pd.at_label c cs row.
Proof.
  intros Hne. cbn [pd.at_label].
  destruct (String.eqb_spec c c0); [congruence|reflexivity].
Qed.

Lemma reindex_same cs row :
  NoDup cs -> length row = length cs -> pd.reindex cs cs row = row.
Proof.
  unfold pd.reindex. intros Hnd. revert row.
  induction Hnd as [|c0 cs Hnotin Hnd IH]; intros [|v row] Hlen;
    try discriminate; [reflexivity|].
  cbn [map]. f_equal.
  - cbn [pd.at_label]. by rewrite String.eqb_refl.
  - etransitivity; [|apply (IH row); simpl in Hlen; lia].
    apply map_ext_in. intros c Hin. apply at_label_skip.
    intros ->. apply Hnotin. by apply list_elem_of_In.
Qed.

Lemma filter_known (acc cs : list string) :
  cs ⊆ acc -> filter (fun c => c ∉ acc) cs = [].
Proof.
  induction cs as [|c cs IH]; intros Hsub; [reflexivity|].
  rewrite filter_cons. destruct (decide (c ∉ acc)) as [Hn|_].
  - exfalso. apply Hn, Hsub. left.
  - apply IH. intros x Hx. apply Hsub. by right.
Qed.

Lemma filter_unknown (cs : list string) : filter (fun c => c ∉ @nil string) cs = cs.
Proof.
  induction cs as [|c cs IH]; [reflexivity|].
  rewrite filter_cons. destruct (decide (c ∉ [])) as [_|Hn].
  - by rewrite IH.
  - exfalso. apply Hn. apply not_elem_of_nil.
Qed.

Lemma union_columns_same (cs : list string) : pd.union_columns cs cs = cs.
Proof. unfold pd.union_columns. rewrite filter_known by done. apply app_nil_r. Qed.

Lemma union_columns_nil (cs : list string) : pd.union_columns [] cs = cs.
Proof. unfold pd.union_columns. cbn [app]. apply filter_unknown. Qed.

Section SameSchema.

Variable schema : list string.

Lemma union_columns_schema (ps : list DataFrame) :
  Forall (on_schema schema) ps ->
  foldl (fun acc df => pd.union_columns acc (columns df)) schema ps = schema.
Proof.
  induction 1 as [|p ps [_ Hp] _ IH]; [reflexivity|].
  cbn [foldl]. by rewrite Hp, union_columns_same.
Qed.

Lemma concat_columns (ps : list DataFrame) :
  ps <> [] -> Forall (on_schema schema) ps -> columns (pd.concat ps) = schema.
Proof.
  intros Hne Hall. destruct Hall as [|p ps [Hwf Hp] Hall]; [done|].
  unfold pd.concat. cbn [columns foldl]. rewrite Hp, union_columns_nil.
  by apply union_columns_schema.
Qed.

Lemma concat_data (ps : list DataFrame) :
  ps <> [] -> Forall (on_schema schema) ps -> data (pd.concat ps) = concat (map data ps).
Proof.
  intros Hne Hall. pose proof (concat_columns ps Hne Hall) as Hcols.
  unfold pd.concat in *. cbn [columns data] in *. rewrite Hcols.
  f_equal. clear Hne Hcols.
  induction Hall as [|p ps [[Hnd Hrows] Hp] _ IH]; [reflexivity|].
  cbn [map]. f_equal; [|exact IH].
  rewrite Hp in *. clear Hp.
  induction Hrows as [|row rows Hrow _ IHrows]; [reflexivity|].
  cbn [map]. f_equal; [|exact IHrows]. by apply reindex_same.
Qed.

End SameSchema.

(** *** The loop over an endpoint that serves pages *)


Lemma concat_len (ps : list DataFrame) :
  pd.len (pd.concat ps) = Z.of_nat (length (concat (map data ps))).
Proof.
  unfold pd.len, pd.concat. cbn [data]. f_equal.
  generalize (foldl (fun acc df => pd.union_columns acc (columns df)) [] ps) as cs.
  intros cs. induction ps as [|p ps IH]; [reflexivity|].
  cbn [map concat]. rewrite !length_app, IH. by rewrite length_map.
Qed.

Lemma paginas_servidas_snoc get llamadas r :
  paginas_servidas get (llamadas ++ [r]) =
  paginas_servidas get llamadas ++ [pagina get (length llamadas) r].
Proof.
  unfold paginas_servidas. rewrite imap_app. cbn [imap]. by rewrite Nat.add_0_r.
Qed.

Lemma no_vacias_snoc ps p :
  no_vacias (ps ++ [p]) = no_vacias ps ++ (if pd.empty p then [] else [p]).
Proof.
  unfold no_vacias. rewrite filter_app. f_equal.
  rewrite filter_cons, filter_nil. destruct (pd.empty p); by case_decide.
Qed.

Lemma empty_no_rows df : columns df <> [] -> pd.empty df = true -> data df = [].
Proof.
  unfold pd.empty. destruct (columns df); [done|].
  destruct (data df); [done|discriminate].
Qed.

(** On a shared schema the pages that are dropped have no rows. *)
Lemma filas_no_vacias schema ps :
  schema <> [] -> Forall (on_schema schema) ps ->
  Forall (on_schema schema) (no_vacias ps) /\
  concat (map data (no_vacias ps)) = concat (map data ps).
Proof.
  intros Hschema. unfold no_vacias.
  induction 1 as [|p ps Hp _ [IH1 IH2]]; [by split|].
  rewrite filter_cons. case_decide as Hempty; cbn [map concat].
  - split; [by constructor|]. by rewrite IH2.
  - split; [exact IH1|]. rewrite IH2.
    destruct Hp as [_ Hcols].
    rewrite (empty_no_rows p) by (rewrite ?Hcols; by destruct (pd.empty p)).
    reflexivity.
Qed.

Lemma ceil_bound (n cap : Z) :
  (n - 1) * limite_por_pagina < cap -> n <= (cap + limite_por_pagina - 1) / limite_por_pagina.
Proof.
  unfold limite_por_pagina. intros H.
  apply Z.div_le_lower_bound; lia.
Qed.

Section Paginas.

Variables (get : endpoint) (w : string) (cap : Z).
Hypothesis Hget : sirve_paginas get.

Lemma bucle_paginas fuel : forall llamadas paginas off total,
  cap - total <= limite_por_pagina * Z.of_nat fuel ->
  total <= cap ->
  total = Z.of_nat (length (concat (map data paginas))) ->
  paginas = no_vacias (paginas_servidas get llamadas) ->
  (Z.of_nat (length llamadas) - 1) * limite_por_pagina < cap ->
  Z.of_nat (length llamadas) * limite_por_pagina <= total ->
  exists l ps,
    bucle fuel get w cap llamadas paginas off total = Some (l, Return ps) /\
    ps = no_vacias (paginas_servidas get l) /\
    Z.of_nat (length (concat (map data ps))) <= cap /\
    (Z.of_nat (length l) - 1) * limite_por_pagina < cap.
Proof.
  induction fuel as [|fuel IH];
    intros llamadas paginas off total Hfuel Hcap Htotal Hkept Hprev Hfull.
  - rewrite bucle_stop by (unfold limite_por_pagina in *; lia).
    exists llamadas, paginas. repeat split; auto; lia.
  - cbn [bucle]. destruct (total <? cap) eqn:E.
    2:{ exists llamadas, paginas. repeat split; auto; lia. }
    apply Z.ltb_lt in E.
    set (peticion := mkRequest _ off w).
    assert (0 < limit peticion) as Hpos
      by (subst peticion; cbn [limit]; unfold limite_por_pagina; lia).
    destruct (Hget (length llamadas) peticion Hpos)
      as (response & df & Hresp & Hok & Hcsv & Hlen).
    assert (pagina get (length llamadas) peticion = df) as Hpag
      by (unfold pagina; rewrite Hresp, Hcsv; reflexivity).
    rewrite Hresp, Hok. unfold read_csv. rewrite Hcsv.
    assert (limit peticion <= limite_por_pagina /\ limit peticion <= cap - total)
      as [Hl1 Hl2] by (subst peticion; cbn [limit]; lia).
    assert ((Z.of_nat (length (llamadas ++ [peticion])) - 1) * limite_por_pagina < cap)
      as Hcalls by (rewrite length_app; cbn [length]; lia).
    assert (no_vacias (paginas_servidas get (llamadas ++ [peticion])) =
            paginas ++ (if pd.empty df then [] else [df])) as Hkept'
      by (by rewrite paginas_servidas_snoc, no_vacias_snoc, Hpag, Hkept).
    destruct (pd.empty df) eqn:Hempty.
    + exists (llamadas ++ [peticion]), paginas.
      rewrite app_nil_r in Hkept'. repeat split; auto; lia.
    + assert (Z.of_nat (length (concat (map data (paginas ++ [df])))) =
              total + pd.len df) as Htotal'.
      { rewrite map_app, concat_app, length_app. cbn [map concat].
        rewrite app_nil_r. unfold pd.len. lia. }
      destruct (pd.len df <? limite_por_pagina) eqn:Hshort.
      * exists (llamadas ++ [peticion]), (paginas ++ [df]).
        repeat split; auto; lia.
      * apply Z.ltb_ge in Hshort.
        apply IH; auto; try lia.
        rewrite length_app. cbn [length]. lia.
Qed.

End Paginas.

(** *** One turn of the loop *)

Lemma bucle_turno fuel get w cap llamadas paginas off total response df :
  total < cap ->
  let peticion := mkRequest (Z.min limite_por_pagina (cap - total)) off w in
  get (length llamadas) peticion = inr response ->
  raise_for_status response = Return tt ->
  csv response = Some df ->
  pd.empty df = false ->
  bucle (S fuel) get w cap llamadas paginas off total =
  if pd.len df <? limite_por_pagina
  then Some (llamadas ++ [peticion], Return (paginas ++ [df]))
  else bucle fuel get w cap (llamadas ++ [peticion]) (paginas ++ [df])
         (off + limite_por_pagina) (total + pd.len df).
Proof.
  intros Hlt peticion Hresp Hok Hcsv Hempty. cbn [bucle].
  apply Z.ltb_lt in Hlt. rewrite Hlt. fold peticion.
  rewrite Hresp, Hok. unfold read_csv. by rewrite Hcsv, Hempty.
Qed.

Lemma bucle_extends fuel get w cap : forall llamadas paginas off total l r,
  bucle fuel get w cap llamadas paginas off total = Some (l, r) ->
  exists suf, l = llamadas ++ suf.
Proof.
  induction fuel as [|fuel IH]; intros llamadas paginas off total l r;
    cbn [bucle]; destruct (total <? cap); try discriminate;
    try (intros [= <- <-]; exists []; by rewrite app_nil_r).
  destruct (get _ _) as [falla|response];
    [intros [= <- <-]; eauto|].
  destruct (raise_for_status response); [|intros [= <- <-]; eauto].
  destruct (read_csv response) as [df|]; [|intros [= <- <-]; eauto].
  destruct (pd.empty df); [intros [= <- <-]; eauto|].
  destruct (pd.len df <? limite_por_pagina); [intros [= <- <-]; eauto|].
  intros H. apply IH in H as [suf ->]. rewrite <- app_assoc. eauto.
Qed.

Lemma full_page_not_empty df n :
  columns df <> [] -> pd.len df = n -> 0 < n -> pd.empty df = false.
Proof.
  unfold pd.empty, pd.len. intros Hc Hn Hpos.
  destruct (columns df); [done|]. destruct (data df); [simpl in Hn; lia|done].
Qed.

Lemma url_parametros (l o : Z) (sl so w : string) :
  Py.str_int l = sl -> Py.str_int o = so ->
  url (mkRequest l o w) =
  BASE_URL +:+ "?" +:+
    (if Py.nonempty w
     then ("$limit=" +:+ sl +:+ "&$offset=" +:+ so) +:+ "&$where=" +:+ urllib.quote w
     else "$limit=" +:+ sl +:+ "&$offset=" +:+ so).
Proof. by intros <- <-. Qed.

(** C1: with [max_registros = 15000] and an endpoint that always fills the
    page it is asked for, the download issues exactly two requests, limit
    10000 at offset 0 and limit 5000 at offset 10000, for any predicate, and
    returns a table of exactly 15000 rows. *)
Theorem tope_15000_dos_llamadas (get : endpoint) (w : string) :
  sirve_paginas_llenas get ->
  exists df,
    descargar_datos_paginado get w 15000 =
      Some ([mkRequest 10000 0 w; mkRequest 5000 10000 w], Return df) /\
    pd.len df = 15000 /\
    url (mkRequest 10000 0 w) =
      "https://www.datos.gov.co/resource/p6dx-8zbt.csv?$limit=10000&$offset=0"
      +:+ parametro_where w /\
    url (mkRequest 5000 10000 w) =
      "https://www.datos.gov.co/resource/p6dx-8zbt.csv?$limit=5000&$offset=10000"
      +:+ parametro_where w.
Proof.
  intros Hget.
  destruct (Hget 0%nat (mkRequest 10000 0 w) ltac:(cbn; lia))
    as (r1 & df1 & Hr1 & Hok1 & Hcsv1 & Hc1 & Hl1).
  destruct (Hget 1%nat (mkRequest 5000 10000 w) ltac:(cbn; lia))
    as (r2 & df2 & Hr2 & Hok2 & Hcsv2 & Hc2 & Hl2).
  cbn [limit] in Hl1, Hl2.
  exists (pd.concat [df1; df2]). split; [|split; [|split]].
  - unfold descargar_datos_paginado.
    change (turnos 15000) with 2%nat.
    rewrite (bucle_turno 1 get w 15000 [] [] 0 0 r1 df1); try done;
      [|by apply (full_page_not_empty df1 10000)].
    rewrite Hl1. change (10000 <? limite_por_pagina) with false. cbn iota.
    change ([] ++ [?x]) with [x].
    rewrite (bucle_turno 0 get w 15000 _ _ _ _ r2 df2); try done;
      [|by apply (full_page_not_empty df2 5000)].
    rewrite Hl2. reflexivity.
  - rewrite concat_len. cbn [map concat]. rewrite app_nil_r, length_app.
    unfold pd.len in *. lia.
  - rewrite (url_parametros 10000 0 "10000" "0" w) by (vm_compute; reflexivity).
    unfold parametro_where. by destruct (Py.nonempty w).
  - rewrite (url_parametros 5000 10000 "5000" "10000" w) by (vm_compute; reflexivity).
    unfold parametro_where. by destruct (Py.nonempty w).
Qed.

Lemma fuente_llena_llena : sirve_paginas_llenas fuente_llena.
Proof.
  intros n r Hpos. eexists _, _. unfold fuente_llena.
  split; [reflexivity|]. split; [reflexivity|]. split; [reflexivity|].
  split; [done|]. unfold pd.len. cbn [data]. rewrite length_replicate. lia.
Qed.

Lemma fuente_llena_sirve : sirve_paginas fuente_llena.
Proof.
  intros n r Hpos. eexists _, _. unfold fuente_llena.
  split; [reflexivity|]. split; [reflexivity|]. split; [reflexivity|].
  unfold pd.len. cbn [data]. rewrite length_replicate. lia.
Qed.

Lemma tope_15000_dos_llamadas_witness :
  sirve_paginas_llenas fuente_llena /\
  exists df,
    descargar_datos_paginado fuente_llena "estado = 'Abierto'" 15000 =
      Some ([mkRequest 10000 0 "estado = 'Abierto'";
             mkRequest 5000 10000 "estado = 'Abierto'"], Return df) /\
    pd.len df = 15000 /\
    url (mkRequest 10000 0 "estado = 'Abierto'") =
      "https://www.datos.gov.co/resource/p6dx-8zbt.csv?$limit=10000&$offset=0"
      +:+ parametro_where "estado = 'Abierto'" /\
    url (mkRequest 5000 10000 "estado = 'Abierto'") =
      "https://www.datos.gov.co/resource/p6dx-8zbt.csv?$limit=5000&$offset=10000"
      +:+ parametro_where "estado = 'Abierto'".
Proof.
  split; [exact fuente_llena_llena|].
  exact (tope_15000_dos_llamadas fuente_llena "estado = 'Abierto'" fuente_llena_llena).
Defined.

Lemma fuente_llena_on_schema llamadas :
  Forall (on_schema ["id"; "name"]) (paginas_servidas fuente_llena llamadas).
Proof.
  apply Forall_forall. intros p Hp.
  apply elem_of_lookup_imap in Hp as (n & r & -> & _).
  split; [split|reflexivity]; cbn [pagina fuente_llena columns data default csv].
  - apply NoDup_cons. split; [|apply NoDup_singleton].
    intros H%list_elem_of_singleton. discriminate.
  - by apply Forall_replicate.
Qed.


Lemma fuente_llena_sin_conversion llamadas :
  Forall sin_conversion (no_vacias (paginas_servidas fuente_llena llamadas)).
Proof.
  apply Forall_forall. intros p Hp. unfold no_vacias in Hp.
  apply list_elem_of_filter in Hp as [Hne Hp].
  unfold paginas_servidas in Hp. apply list_elem_of_lookup in Hp as [i Hp].
  rewrite list_lookup_imap in Hp.
  destruct (llamadas !! i) as [r|]; [|discriminate]. cbn in Hp. injection Hp as <-.
  unfold pagina, fuente_llena in *. cbn [csv default columns data] in *.
  unfold pd.empty in Hne. cbn [columns data length Nat.eqb orb] in Hne.
  rewrite length_replicate in Hne. apply Nat.eqb_neq in Hne.
  destruct (Z.to_nat (limit r)) as [|k]; [done|]. split.
  - intros j Hj. cbn in Hj. apply Exists_cons. left.
    destruct j as [|[|j]]; [by eexists|by eexists|lia].
  - unfold enteros_int64. apply Forall_replicate. unfold fila_muestra.
    repeat (constructor; [intros n [= <-]; lia || intros n; discriminate|]).
    constructor.
Qed.


Lemma fuente_mixta_sirve : sirve_paginas fuente_mixta.
Proof.
  intros n r Hpos. destruct n as [|n]; eexists _, _;
    (split; [reflexivity|]); (split; [reflexivity|]); (split; [reflexivity|]).
  - unfold pd.len. cbn [data]. rewrite length_replicate. lia.
  - unfold pd.len. cbn. lia.
Qed.


(** *** Failures of the endpoint *)

(** The request that ends a download, when it is the last of the log. *)
Local Ltac ultima Hlast Hresp :=
  let Hn := fresh "Hn" in
  let Hl := fresh "Hl" in
  intros [= <- <-] Hn Hl;
  destruct (Hlast Hn Hl) as (-> & -> & ?); rewrite Hresp.

Lemma bucle_fallo fuel get w cap : forall llamadas paginas off total l r n peticion,
  bucle fuel get w cap llamadas paginas off total = Some (l, r) ->
  (length llamadas <= n)%nat ->
  l !! n = Some peticion ->
  match get n peticion with
  | inl falla => r = Raise (raised_by falla) /\ length l = S n
  | inr response =>
      400 <= status_code response < 600 ->
      r = Raise (HTTPError (status_code response) (text response)) /\ length l = S n
  end.
Proof.
  induction fuel as [|fuel IH]; intros llamadas paginas off total l r n peticion;
    cbn [bucle]; destruct (total <? cap); try discriminate;
    try (intros [= <- <-] Hn Hl; apply lookup_lt_Some in Hl; lia).
  set (actual := mkRequest _ off w).
  assert (forall l', (length llamadas <= n)%nat ->
            (llamadas ++ [actual] ++ l') !! n = Some peticion ->
            (n = length llamadas /\ peticion = actual) \/
            (length (llamadas ++ [actual]) <= n)%nat) as Hcase.
  { intros l' Hn Hl. rewrite lookup_app_r in Hl by done.
    destruct (n - length llamadas)%nat as [|k] eqn:Hk.
    - left. cbn in Hl. split; [lia|congruence].
    - right. rewrite length_app. cbn. lia. }
  assert ((length llamadas <= n)%nat ->
          (llamadas ++ [actual]) !! n = Some peticion ->
          n = length llamadas /\ peticion = actual /\
          length (llamadas ++ [actual]) = S n) as Hlast.
  { intros Hn Hl.
    destruct (Hcase [] Hn) as [[-> ->]|Hge]; [by rewrite app_nil_r| |].
    - rewrite length_app. cbn. repeat split; lia.
    - apply lookup_lt_Some in Hl. lia. }
  destruct (get (length llamadas) actual) as [falla|response] eqn:Hresp.
  { ultima Hlast Hresp. done. }
  destruct (raise_for_status response) as [[]|e] eqn:Hst.
  2:{ ultima Hlast Hresp. apply raise_for_status_raise in Hst as [_ ->]. auto. }
  apply raise_for_status_ok in Hst.
  destruct (read_csv response) as [df|]; [|ultima Hlast Hresp; tauto].
  destruct (pd.empty df); [ultima Hlast Hresp; tauto|].
  destruct (pd.len df <? limite_por_pagina); [ultima Hlast Hresp; tauto|].
  intros Hb Hn Hl.
  destruct (bucle_extends _ _ _ _ _ _ _ _ _ _ Hb) as [suf ->].
  rewrite <- app_assoc in Hl.
  destruct (Hcase suf Hn Hl) as [[-> ->]|Hge].
  - rewrite Hresp. tauto.
  - rewrite app_assoc in Hl. exact (IH _ _ _ _ _ _ _ _ Hb Hge Hl).
Qed.

(** ** The request handler *)


Lemma handle_query_raise now get filtros w cap llamadas e :
  llega_a_descarga now filtros w cap ->
  descargar_datos_paginado get w cap = Some (llamadas, Raise e) ->
  handle_query now get filtros =
  Some (match e with
        | HTTPError _ response_text => jsonify (mensaje_502 response_text) 502
        | _ => jsonify mensaje_500 500
        end).
Proof.
  intros (Hgate & Hw & Hcap) Hd. unfold handle_query, consulta.
  fold fecha_limite. rewrite Hgate, Hw, Hcap, Hd. cbn. by destruct e.
Qed.

Lemma handle_query_empty now get filtros w cap llamadas df :
  llega_a_descarga now filtros w cap ->
  descargar_datos_paginado get w cap = Some (llamadas, Return df) ->
  pd.empty df = true ->
  handle_query now get filtros = Some (jsonify mensaje_404 404).
Proof.
  intros (Hgate & Hw & Hcap) Hd Hempty. unfold handle_query, consulta.
  fold fecha_limite. rewrite Hgate, Hw, Hcap, Hd. cbn. by rewrite Hempty.
Qed.

Lemma handle_query_total now get filtros :
  exists response, handle_query now get filtros = Some response.
Proof.
  unfold handle_query, consulta.
  destruct (datetime_gt _ _); [eauto|].
  destruct (construir_consulta_where filtros) as [w|e]; [|cbn; destruct e; eauto].
  destruct (int _) as [cap|e]; [|cbn; destruct e; eauto].
  destruct (descargar_datos_paginado_total get w cap) as (l & r & ->). cbn.
  destruct r as [df|e]; cbn; [|destruct e; eauto].
  destruct (pd.empty df); cbn; [eauto|].
  destruct (crear_excel_en_memoria df) as [ws|e]; cbn; [eauto|destruct e; eauto].
Qed.

Lemma descargar_raise get w cap llamadas r :
  descargar_datos_paginado get w cap = Some (llamadas, r) ->
  exists paginas,
    bucle (turnos cap) get w cap [] [] 0 0 = Some (llamadas, paginas) /\
    forall e, paginas = Raise e -> r = Raise e.
Proof.
  unfold descargar_datos_paginado.
  destruct (bucle _ _ _ _ _ _ _ _) as [[l paginas]|]; [|discriminate].
  cbn. intros [= <- <-]. exists paginas. split; [reflexivity|]. by intros e ->.
Qed.

(** C4 (amended): a 4xx or 5xx answer raises [HTTPError], ends the download
    with that request as its last one (no retry) and is reported by the
    handler as 502; a transport failure (timeout, no connection) also ends
    the download at once, but raises its own exception, which the handler
    reports as the generic 500. *)
Theorem fallo_de_fuente (now : nat -> datetime) (get : endpoint)
    (filtros : gmap string json) (w : string) (cap : Z)
    (llamadas : list Request) (r : result DataFrame) (n : nat) (peticion : Request) :
  llega_a_descarga now filtros w cap ->
  descargar_datos_paginado get w cap = Some (llamadas, r) ->
  llamadas !! n = Some peticion ->
  match get n peticion with
  | inl falla =>
      r = Raise (raised_by falla) /\ length llamadas = S n /\
      handle_query now get filtros = Some (jsonify mensaje_500 500)
  | inr response =>
      400 <= status_code response < 600 ->
      r = Raise (HTTPError (status_code response) (text response)) /\
      length llamadas = S n /\
      handle_query now get filtros = Some (jsonify (mensaje_502 (text response)) 502)
  end.
Proof.
  intros Hllega Hd Hn.
  destruct (descargar_raise _ _ _ _ _ Hd) as (paginas & Hb & Hr).
  pose proof (bucle_fallo _ _ _ _ _ _ _ _ _ _ _ _ Hb (Nat.le_0_l n) Hn) as Hf.
  destruct (get n peticion) as [falla|response].
  - destruct Hf as [Hp Hlen]. apply Hr in Hp. subst r. repeat split; auto.
    rewrite (handle_query_raise _ _ _ _ _ _ _ Hllega Hd). by destruct falla.
  - intros Hst. destruct (Hf Hst) as [Hp Hlen]. apply Hr in Hp. subst r.
    repeat split; auto.
    by rewrite (handle_query_raise _ _ _ _ _ _ _ Hllega Hd).
Qed.

Lemma fallo_de_fuente_witness :
  llega_a_descarga reloj ∅ EmptyString 50000 /\
  descargar_datos_paginado fuente_503 EmptyString 50000 =
    Some ([mkRequest 10000 0 EmptyString], Raise (HTTPError 503 "Service Unavailable")) /\
  [mkRequest 10000 0 EmptyString] !! 0%nat = Some (mkRequest 10000 0 EmptyString) /\
  length [mkRequest 10000 0 EmptyString] = 1%nat /\
  handle_query reloj fuente_503 ∅ =
    Some (jsonify (mensaje_502 "Service Unavailable") 502).
Proof.
  assert (llega_a_descarga reloj ∅ EmptyString 50000) as Hllega
    by (repeat split; vm_compute; reflexivity).
  assert (descargar_datos_paginado fuente_503 EmptyString 50000 =
            Some ([mkRequest 10000 0 EmptyString],
                  Raise (HTTPError 503 "Service Unavailable"))) as Hd
    by (vm_compute; reflexivity).
  split; [exact Hllega|]. split; [exact Hd|]. split; [reflexivity|].
  pose proof (fallo_de_fuente reloj fuente_503 ∅ EmptyString 50000 _ _ 0%nat _
                Hllega Hd eq_refl) as H.
  cbn in H. destruct H as (_ & Hlen & Hq); [lia|]. split; assumption.
Defined.

(** C4 as stated fails: a timeout raises [Timeout], not the [HTTPError] of
    a bad status, and the handler answers 500, not 502. *)
Lemma timeout_no_es_502 :
  descargar_datos_paginado fuente_caida EmptyString 50000 =
    Some ([mkRequest 10000 0 EmptyString], Raise Timeout) /\
  (forall s t, Timeout <> HTTPError s t) /\
  handle_query reloj fuente_caida ∅ = Some (jsonify mensaje_500 500) /\
  status (jsonify mensaje_500 500) <> 502.
Proof.
  split; [vm_compute; reflexivity|]. split; [discriminate|].
  split; [vm_compute; reflexivity|]. cbn. lia.
Qed.

(** C9: when the download returns a table without rows, the handler answers
    404 with the no-records message, which is neither the 502 of a failed
    source nor the 500 of a server fault, and returns before the workbook is
    built (the answer is a [jsonify], not a [send_file]). *)
Theorem sin_registros_404 (now : nat -> datetime) (get : endpoint)
    (filtros : gmap string json) (w : string) (cap : Z)
    (llamadas : list Request) (df : DataFrame) :
  llega_a_descarga now filtros w cap ->
  descargar_datos_paginado get w cap = Some (llamadas, Return df) ->
  pd.len df = 0 ->
  handle_query now get filtros = Some (jsonify mensaje_404 404) /\
  status (jsonify mensaje_404 404) <> 502 /\
  status (jsonify mensaje_404 404) <> 500.
Proof.
  intros Hllega Hd Hlen. split; [|cbn; lia].
  apply (handle_query_empty now get filtros w cap llamadas df Hllega Hd).
  unfold pd.empty, pd.len in *. destruct (data df); [|cbn in Hlen; lia].
  cbn. apply orb_true_r.
Qed.

Lemma sin_registros_404_witness :
  llega_a_descarga reloj {[ "max_registros" := JInt 100 ]} EmptyString 100 /\
  descargar_datos_paginado fuente_vacia EmptyString 100 =
    Some ([mkRequest 100 0 EmptyString], Return pd.DataFrame_) /\
  pd.len pd.DataFrame_ = 0 /\
  handle_query reloj fuente_vacia {[ "max_registros" := JInt 100 ]} =
    Some (jsonify mensaje_404 404) /\
  status (jsonify mensaje_404 404) <> 502 /\
  status (jsonify mensaje_404 404) <> 500.
Proof.
  assert (llega_a_descarga reloj {[ "max_registros" := JInt 100 ]} EmptyString 100)
    as Hllega by (repeat split; vm_compute; reflexivity).
  assert (descargar_datos_paginado fuente_vacia EmptyString 100 =
            Some ([mkRequest 100 0 EmptyString], Return pd.DataFrame_)) as Hd
    by (vm_compute; reflexivity).
  split; [exact Hllega|]. split; [exact Hd|]. split; [reflexivity|].
  exact (sin_registros_404 reloj fuente_vacia _ _ _ _ _ Hllega Hd eq_refl).
Defined.

(** C10: with a cap of zero or less the download issues no request and
    returns the empty table, no rows and no columns; the handler passes the
    caller's cap on unchecked, so such a request ends in the 404 of an empty
    result. *)
Theorem tope_no_positivo (get : endpoint) (w : string) (cap : Z) :
  cap <= 0 ->
  descargar_datos_paginado get w cap = Some ([], Return (mkDataFrame [] [])) /\
  forall now filtros,
    llega_a_descarga now filtros w cap ->
    handle_query now get filtros = Some (jsonify mensaje_404 404).
Proof.
  intros Hcap.
  assert (descargar_datos_paginado get w cap = Some ([], Return (mkDataFrame [] [])))
    as Hd by (unfold descargar_datos_paginado; by rewrite bucle_stop by lia).
  split; [exact Hd|]. intros now filtros Hllega.
  by apply (handle_query_empty now get filtros w cap [] _ Hllega Hd).
Qed.

Lemma tope_no_positivo_witness :
  -5 <= 0 /\
  descargar_datos_paginado fuente_llena EmptyString (-5) =
    Some ([], Return (mkDataFrame [] [])) /\
  llega_a_descarga reloj {[ "max_registros" := JStr "-5" ]} EmptyString (-5) /\
  handle_query reloj fuente_llena {[ "max_registros" := JStr "-5" ]} =
    Some (jsonify mensaje_404 404).
Proof.
  assert (llega_a_descarga reloj {[ "max_registros" := JStr "-5" ]} EmptyString (-5))
    as Hllega by (repeat split; vm_compute; reflexivity).
  destruct (tope_no_positivo fuente_llena EmptyString (-5) ltac:(lia)) as [Hd Hq].
  split; [lia|]. split; [exact Hd|]. split; [exact Hllega|].
  exact (Hq reloj _ Hllega).
Defined.

(** ** The predicate builder *)

(** C3: the code puts a date into its clause as it comes, whatever its
    text, without the quote doubling and trimming that every other field
    gets: a start date with a quote in it closes the literal early.
    [escapar_sql_mejorado] would have doubled the quotes, as it does for the
    status. *)
Theorem fecha_sin_escapar :
  (forall (a : ascii) (s : string),
     construir_consulta_where {[ "fecha_inicio" := JStr (String a s) ]} =
       Return ("fecha_de_publicacion_del >= '" +:+ String a s +:+ "T00:00:00'")) /\
  (forall (a : ascii) (s : string),
     construir_consulta_where {[ "fecha_fin" := JStr (String a s) ]} =
       Return ("fecha_de_publicacion_del <= '" +:+ String a s +:+ "T23:59:59'")) /\
  construir_consulta_where {[ "fecha_inicio" := JStr "2024-01-01' OR '1'='1" ]} =
    Return "fecha_de_publicacion_del >= '2024-01-01' OR '1'='1T00:00:00'" /\
  construir_consulta_where {[ "fecha_fin" := JStr " 2024-12-31' -- " ]} =
    Return "fecha_de_publicacion_del <= ' 2024-12-31' -- T23:59:59'" /\
  escapar_sql_mejorado (JStr "2024-01-01' OR '1'='1") =
    Return (JStr "2024-01-01'' OR ''1''=''1") /\
  construir_consulta_where
    {[ "estado_del_procedimiento" := JStr "2024-01-01' OR '1'='1" ]} =
    Return "estado_del_procedimiento = '2024-01-01'' OR ''1''=''1'".
Proof. repeat split; intros; vm_compute; reflexivity. Qed.

(** C5: a status or opening-status field yields its clause whenever its
    text is not empty, the test coming before the trimming: a value of
    blanks only is trimmed to nothing and compared as the empty literal.
    The multi-value fields drop such a value. *)
Theorem estado_en_blanco_da_clausula :
  (forall (a : ascii) (s : string),
     construir_consulta_where {[ "estado_del_procedimiento" := JStr (String a s) ]} =
       Return ("estado_del_procedimiento = '" +:+
               Py.strip (Py.replace "'" "''" (String a s)) +:+ "'")) /\
  (forall (a : ascii) (s : string),
     construir_consulta_where
       {[ "estado_de_apertura_del_proceso" := JStr (String a s) ]} =
       Return ("estado_de_apertura_del_proceso = '" +:+
               Py.strip (Py.replace "'" "''" (String a s)) +:+ "'")) /\
  construir_consulta_where {[ "estado_del_procedimiento" := JStr "   " ]} =
    Return "estado_del_procedimiento = ''" /\
  construir_consulta_where {[ "estado_de_apertura_del_proceso" := JStr " " ]} =
    Return "estado_de_apertura_del_proceso = ''" /\
  construir_consulta_where {[ "entidad" := JStr " , " ]} = Return EmptyString /\
  construir_consulta_where {[ "proceso_de_compra" := JStr "   " ]} = Return EmptyString.
Proof. repeat split; intros; vm_compute; reflexivity. Qed.

(** ** The workbook emitter *)

Lemma conserva_refl ws : conserva ws ws.
Proof. by repeat split. Qed.

Lemma conserva_trans ws1 ws2 ws3 : conserva ws1 ws2 -> conserva ws2 ws3 -> conserva ws1 ws3.
Proof.
  intros (? & ? & ? & ? & Hc & Hv) (? & ? & ? & ? & Hc' & Hv').
  repeat split; try congruence;
    first [ by intros; apply Hc', Hc | by intros; rewrite Hv', Hv ].
Qed.

Lemma cell_at_spec ws row col ws' x :
  openpyxl.cell_at ws row col = Return (ws', x) ->
  conserva ws ws' /\ openpyxl.column_width ws' = openpyxl.column_width ws /\
  openpyxl.cell_value x = valor ws row col.
Proof.
  unfold openpyxl.cell_at, valor. destruct (_ && _ && _); [|discriminate].
  destruct (openpyxl._cells ws !! (row, col)) as [y|] eqn:Hy; intros [= <- <-].
  - split; [apply conserva_refl|]. by split.
  - split; [|by split]. repeat split; try reflexivity; cbn.
    + intros k y Hk. rewrite lookup_insert_ne; [done|]. intros <-. congruence.
    + intros r c. unfold valor. cbn. destruct (decide ((row, col) = (r, c))) as [<-|Hne].
      * by rewrite lookup_insert_eq, Hy.
      * by rewrite lookup_insert_ne.
Qed.

Lemma cells_at_spec col rows : forall ws ws' cells,
  openpyxl.cells_at ws col rows = Return (ws', cells) ->
  conserva ws ws' /\ openpyxl.column_width ws' = openpyxl.column_width ws /\
  map openpyxl.cell_value cells = map (fun row => valor ws row col) rows.
Proof.
  induction rows as [|row rows IH]; intros ws ws' cells; cbn [openpyxl.cells_at].
  - intros [= <- <-]. split; [apply conserva_refl|]. by split.
  - destruct (openpyxl.cell_at ws row col) as [[ws1 x]|] eqn:H1;
      cbn [mbind result_bind]; [|discriminate].
    destruct (openpyxl.cells_at ws1 col rows) as [[ws2 xs]|] eqn:H2;
      cbn [mbind result_bind]; [|discriminate].
    intros [= <- <-].
    apply cell_at_spec in H1 as (Hc1 & Hw1 & Hx).
    apply IH in H2 as (Hc2 & Hw2 & Hxs).
    split; [by eapply conserva_trans|]. split; [congruence|].
    cbn [map]. rewrite Hx, Hxs. f_equal.
    apply map_ext. intros r. apply Hc1.
Qed.

Lemma ajustar_columna_spec last_row ws col ws' :
  ajustar_columna last_row ws col = Return ws' ->
  conserva ws ws' /\
  exists letter m,
    openpyxl.get_column_letter col = Return letter /\
    max_ (map (fun row => medida (valor ws row col)) (seq 1 last_row)) = Return m /\
    openpyxl.column_width ws' = <[letter := m + 2]> (openpyxl.column_width ws).
Proof.
  unfold ajustar_columna, openpyxl.column.
  destruct (openpyxl.cells_at ws col (seq 1 last_row)) as [[ws1 cells]|] eqn:Hcells;
    cbn [mbind result_bind]; [|discriminate].
  apply cells_at_spec in Hcells as (Hc & Hw & Hvals).
  destruct (openpyxl.get_column_letter col) as [letter|]; [|discriminate].
  cbn. assert (map (fun c => Py.len (str_value (value_or_empty (openpyxl.cell_value c)))) cells =
               map (fun row => medida (valor ws row col)) (seq 1 last_row)) as ->.
  { change (fun c => Py.len (str_value (value_or_empty (openpyxl.cell_value c))))
      with (medida ∘ openpyxl.cell_value).
    rewrite <- (map_map openpyxl.cell_value medida), Hvals. by rewrite map_map. }
  destruct (max_ _) as [m|]; [|discriminate]. cbn. intros [= <-].
  split.
  - destruct Hc as (? & ? & ? & ? & ? & ?). by repeat split.
  - exists letter, m. repeat split. cbn. by rewrite Hw.
Qed.

(** *** Appending rows *)

Lemma mismo_marco_refl ws : mismo_marco ws ws.
Proof. by repeat split. Qed.

Lemma mismo_marco_trans ws1 ws2 ws3 :
  mismo_marco ws1 ws2 -> mismo_marco ws2 ws3 -> mismo_marco ws1 ws3.
Proof.
  intros (? & ? & ? & ? & ?) (? & ? & ? & ? & ?). repeat split; congruence.
Qed.

Lemma Cell_spec v x :
  openpyxl.Cell v = Return x ->
  exists v', openpyxl.bind_value v = Return v' /\ x = celda v'.
Proof.
  unfold openpyxl.Cell. destruct (openpyxl.bind_value v) as [v'|]; cbn; [|discriminate].
  intros [= <-]. by exists v'.
Qed.

Lemma llenar_fila_spec row_idx : forall row k ws ws',
  for_each (fun ws '(col_idx, content) =>
              c ← openpyxl.Cell content; Return (openpyxl.put ws row_idx col_idx c))
    ws (zip (seq k (length row)) row) = Return ws' ->
  exists vals,
    guardados row vals /\ mismo_marco ws ws' /\
    openpyxl._current_row ws' = openpyxl._current_row ws /\
    forall r c,
      openpyxl._cells ws' !! (r, c) =
      if decide (r = row_idx /\ (k <= c < k + length row)%nat)
      then celda <$> vals !! (c - k)%nat
      else openpyxl._cells ws !! (r, c).
Proof.
  induction row as [|v row IH]; intros k ws ws'; cbn [length seq zip_with for_each].
  - intros [= <-]. exists [].
    refine (conj _ (conj (mismo_marco_refl ws) (conj eq_refl _))); [by unfold guardados|].
    intros r c. case_decide; [lia|reflexivity].
  - destruct (openpyxl.Cell v) as [x|] eqn:Hx; cbn; [|discriminate].
    apply Cell_spec in Hx as (v' & Hv & ->).
    intros H. apply IH in H as (vals & Hvals & Hm & Hcur & Hcells).
    exists (v' :: vals). split; [by unfold guardados; constructor|]. split; [exact Hm|].
    split; [exact Hcur|]. intros r c. rewrite Hcells. cbn.
    repeat case_decide; try lia.
    + replace (c - k)%nat with (S (c - S k)) by lia. reflexivity.
    + destruct H0 as [-> Hc]. assert (c = k) as -> by lia.
      rewrite lookup_insert_eq. by rewrite Nat.sub_diag.
    + rewrite lookup_insert_ne; [done|]. intros [= <- <-]. lia.
Qed.

Lemma append_spec ws row ws' :
  openpyxl.append ws row = Return ws' ->
  exists vals,
    guardados row vals /\ mismo_marco ws ws' /\
    openpyxl._current_row ws' = S (openpyxl._current_row ws) /\
    forall r c,
      openpyxl._cells ws' !! (r, c) =
      if decide (r = S (openpyxl._current_row ws) /\ (1 <= c <= length row)%nat)
      then celda <$> vals !! (c - 1)%nat
      else openpyxl._cells ws !! (r, c).
Proof.
  unfold openpyxl.append.
  destruct (for_each _ ws _) as [ws1|] eqn:H; cbn; [|discriminate]. intros [= <-].
  apply llenar_fila_spec in H as (vals & Hvals & Hm & Hcur & Hcells).
  exists vals. split; [exact Hvals|]. split; [exact Hm|]. split; [reflexivity|].
  intros r c. cbn. rewrite Hcells. repeat case_decide; try reflexivity; lia.
Qed.

(** The rows appended one after the other, seen from the first of them. *)
Lemma append_all_spec : forall rows ws ws',
  for_each openpyxl.append ws rows = Return ws' ->
  exists valss,
    Forall2 guardados rows valss /\ mismo_marco ws ws' /\
    openpyxl._current_row ws' = (openpyxl._current_row ws + length rows)%nat /\
    forall r c,
      openpyxl._cells ws' !! (r, c) =
      match (if decide (openpyxl._current_row ws < r)%nat
             then valss !! (r - S (openpyxl._current_row ws))%nat else None) with
      | Some vals =>
          if decide (1 <= c <= length vals)%nat then celda <$> vals !! (c - 1)%nat
          else openpyxl._cells ws !! (r, c)
      | None => openpyxl._cells ws !! (r, c)
      end.
Proof.
  induction rows as [|row rows IH]; intros ws ws'; cbn [for_each].
  - intros [= <-]. exists [].
    refine (conj _ (conj (mismo_marco_refl ws) (conj _ _))); [by unfold guardados|cbn; lia|].
    intros r c. by case_decide.
  - destruct (openpyxl.append ws row) as [ws1|] eqn:H1; cbn; [|discriminate].
    intros H2. apply append_spec in H1 as (vals & Hvals & Hm1 & Hcur1 & Hcells1).
    apply IH in H2 as (valss & Hvalss & Hm2 & Hcur2 & Hcells2).
    exists (vals :: valss). split; [by unfold guardados; constructor|].
    split; [by eapply mismo_marco_trans|]. split; [cbn; lia|].
    intros r c. rewrite Hcells2, Hcur1, Hcells1.
    pose proof (Forall2_length _ _ _ Hvals) as Hlen.
    set (cur := openpyxl._current_row ws) in *.
    destruct (lt_eq_lt_dec r (S cur)) as [[Hlt| -> ]|Hgt].
    + repeat case_decide; try lia; reflexivity.
    + rewrite Nat.sub_diag. cbn [lookup list_lookup].
      repeat case_decide; try lia; reflexivity.
    + replace (r - S cur)%nat with (S (r - S (S cur))) by lia.
      cbn [lookup list_lookup].
      repeat case_decide; try lia; try reflexivity;
        destruct (valss !! _); repeat case_decide; try lia; reflexivity.
Qed.

(** *** The banner *)

Lemma poner_titulo_hoja : poner_titulo = Return hoja_titulo.
Proof. vm_compute. reflexivity. Qed.

Lemma lookup_merged_run (x : openpyxl.cell) (n a r c : nat) :
  (list_to_map (map (fun col => ((1%nat, col), x)) (seq a n))
     : gmap (nat * nat) openpyxl.cell) !! (r, c) =
  if decide (r = 1%nat /\ (a <= c < a + n)%nat) then Some x else None.
Proof.
  revert a. induction n as [|n IH]; intros a; cbn [seq map].
  - rewrite list_to_map_nil, lookup_empty. case_decide; [lia|reflexivity].
  - rewrite list_to_map_cons, lookup_insert. destruct (decide ((1%nat, a) = (r, c))) as [[= <- <-]|Hne].
    + rewrite decide_True by lia. reflexivity.
    + rewrite IH. repeat case_decide; try reflexivity; try lia.
      exfalso. apply Hne. f_equal; lia.
Qed.

Lemma celdas_titulo_lookup (r c : nat) :
  celdas_titulo !! (r, c) =
  if decide (r = 1%nat /\ c = 1%nat) then Some celda_titulo
  else if decide (r = 1%nat /\ (2 <= c <= 10)%nat) then Some openpyxl.MergedCell
  else None.
Proof.
  unfold celdas_titulo. rewrite lookup_insert.
  destruct (decide ((1%nat, 1%nat) = (r, c))) as [[= <- <-]|Hne].
  - by rewrite decide_True.
  - rewrite decide_False by (intros [-> ->]; done).
    rewrite lookup_merged_run. repeat case_decide; try reflexivity; lia.
Qed.

(** *** [max_row] and [max_column] *)

Lemma max_row_ge ws r c :
  is_Some (openpyxl._cells ws !! (r, c)) -> (r <= openpyxl.max_row ws)%nat.
Proof.
  intros [x Hx]. unfold openpyxl.max_row.
  assert (r ∈ (map_to_list (openpyxl._cells ws)).*1.*1) as Hin.
  { apply list_elem_of_fmap. exists (r, c). split; [reflexivity|].
    apply list_elem_of_fmap. exists ((r, c), x). split; [reflexivity|].
    by apply elem_of_map_to_list. }
  destruct ((map_to_list (openpyxl._cells ws)).*1.*1) as [|r0 rows] eqn:E.
  - by apply elem_of_nil in Hin.
  - by apply max_list_elem_of_le.
Qed.

Lemma max_column_ge ws r c :
  is_Some (openpyxl._cells ws !! (r, c)) -> (c <= openpyxl.max_column ws)%nat.
Proof.
  intros [x Hx]. unfold openpyxl.max_column.
  assert (c ∈ (map_to_list (openpyxl._cells ws)).*1.*2) as Hin.
  { apply list_elem_of_fmap. exists (r, c). split; [reflexivity|].
    apply list_elem_of_fmap. exists ((r, c), x). split; [reflexivity|].
    by apply elem_of_map_to_list. }
  destruct ((map_to_list (openpyxl._cells ws)).*1.*2) as [|c0 cols] eqn:E.
  - by apply elem_of_nil in Hin.
  - by apply max_list_elem_of_le.
Qed.

Lemma valor_beyond_max_row ws r c :
  (openpyxl.max_row ws < r)%nat -> valor ws r c = VNone.
Proof.
  intros Hr. unfold valor.
  destruct (openpyxl._cells ws !! (r, c)) as [x|] eqn:Hx; [|reflexivity].
  pose proof (max_row_ge ws r c (mk_is_Some _ _ Hx)). lia.
Qed.

(** *** Column letters *)

Lemma elem_of_N_run (n : N) (len : nat) (start : N) :
  (start <= n < start + N.of_nat len)%N -> In n (N_run start len).
Proof.
  revert start. induction len as [|len IH]; intros start Hn; [lia|].
  cbn [N_run]. destruct (N.eq_dec start n) as [->|Hne]; [by left|].
  right. apply IH. lia.
Qed.

Lemma letters_round_trip :
  forallb (fun c => (openpyxl.column_index (openpyxl.letters 3 c EmptyString) 0 =? c)%N)
          (N_run 1 18278) = true.
Proof. vm_compute. reflexivity. Qed.

Lemma get_column_letter_index c letter :
  openpyxl.get_column_letter c = Return letter ->
  openpyxl.column_index letter 0 = N.of_nat c.
Proof.
  unfold openpyxl.get_column_letter.
  destruct ((1 <=? c)%nat && (c <=? 18278)%nat) eqn:E; [|discriminate].
  intros [= <-]. apply andb_true_iff in E as [H1 H2].
  apply Nat.leb_le in H1, H2.
  pose proof letters_round_trip as H.
  rewrite forallb_forall in H. apply N.eqb_eq, H, elem_of_N_run. lia.
Qed.

Lemma get_column_letter_inj c c' letter :
  openpyxl.get_column_letter c = Return letter ->
  openpyxl.get_column_letter c' = Return letter -> c = c'.
Proof.
  intros H H'. apply get_column_letter_index in H, H'. lia.
Qed.

(** *** What a cell keeps and what the loop measures *)

Lemma prefix_all (n : nat) (s : string) :
  (String.length s <= n)%nat -> Py.prefix n s = s.
Proof.
  revert n. induction s as [|a s IH]; intros [|n] Hlen; cbn in *; try done; try lia.
  f_equal. apply IH. lia.
Qed.

Lemma bind_value_medible v v' :
  medible v -> openpyxl.bind_value v = Return v' -> v' = v.
Proof.
  intros (_ & _ & Hs). destruct v as [| | |n|s]; cbn; try (by intros [= <-]).
  unfold openpyxl.check_string. rewrite prefix_all by (by apply Hs).
  destruct (existsb _ _); cbn; [discriminate|]. by intros [= <-].
Qed.

Lemma len_nonneg s : 0 <= Py.len s.
Proof. unfold Py.len. lia. Qed.

Lemma medida_nonneg v : 0 <= medida v.
Proof. apply len_nonneg. Qed.

Lemma medida_none : medida VNone = 0.
Proof. reflexivity. Qed.

Lemma medida_medible v : medible v -> medida v = longitud v.
Proof.
  intros (H0 & Hf & _). unfold medida, value_or_empty.
  destruct v as [| |[]|n|[|a s]]; cbn; try reflexivity; try done.
  destruct (n =? 0) eqn:E; [|reflexivity].
  apply Z.eqb_eq in E. by subst.
Qed.

Lemma medida_guardado v v' :
  medible v -> openpyxl.bind_value v = Return v' -> medida v' = longitud v.
Proof.
  intros Hm Hb. rewrite (bind_value_medible v v' Hm Hb). by apply medida_medible.
Qed.

Lemma medible_texto s : (String.length s <= 32767)%nat -> medible (VStr s).
Proof. intros Hs. repeat split; try done. by intros ? [= <-]. Qed.

(** *** The longest of a list *)

Lemma longest_cons (x : Z) (l : list Z) : longest (x :: l) = Z.max x (longest l).
Proof. reflexivity. Qed.

Lemma longest_nonneg (l : list Z) : 0 <= longest l.
Proof. induction l as [|x l IH]; [done|]. rewrite longest_cons. lia. Qed.

Lemma foldl_max_longest (l : list Z) (x : Z) :
  0 <= x -> foldl Z.max x l = Z.max x (longest l).
Proof.
  revert x. induction l as [|y l IH]; intros x Hx; cbn [foldl].
  - change (longest []) with 0. lia.
  - rewrite IH, longest_cons by lia. lia.
Qed.

Lemma max_longest (l : list Z) (m : Z) :
  Forall (fun x => 0 <= x) l -> max_ l = Return m -> m = longest l.
Proof.
  destruct l as [|x l]; [discriminate|]. intros Hpos [= <-].
  rewrite foldl_max_longest by (by inversion Hpos). reflexivity.
Qed.

Lemma longest_app (l k : list Z) : longest (l ++ k) = Z.max (longest l) (longest k).
Proof.
  induction l as [|x l IH]; cbn [app].
  - change (longest []) with 0. pose proof (longest_nonneg k). lia.
  - rewrite !longest_cons, IH. lia.
Qed.

Lemma longest_zeros (l : list Z) : Forall (fun x => x = 0) l -> longest l = 0.
Proof.
  induction 1 as [|x l -> _ IH]; [done|]. rewrite longest_cons, IH. lia.
Qed.

(** Rows past [a] that measure zero do not count. *)
Lemma longest_rows (f : nat -> Z) (a b : nat) :
  (a <= b)%nat -> (forall r, (a < r)%nat -> f r = 0) ->
  longest (map f (seq 1 b)) = longest (map f (seq 1 a)).
Proof.
  intros Hab Hzero. replace b with (a + (b - a))%nat by lia.
  rewrite seq_app, map_app, longest_app, (longest_zeros (map f (seq (1 + a) (b - a)))).
  - pose proof (longest_nonneg (map f (seq 1 a))). lia.
  - apply Forall_map, Forall_forall. intros r Hr.
    apply list_elem_of_In, in_seq in Hr. apply Hzero. lia.
Qed.

(** *** The sheet after the header and the rows *)

Section Hoja.

Variables (df : DataFrame) (ws2 ws3 : openpyxl.Worksheet).
Hypothesis Hheader : openpyxl.append hoja_titulo (map VStr (columns df)) = Return ws2.
Hypothesis Hrows : for_each openpyxl.append ws2 (dataframe_to_rows df) = Return ws3.

Lemma celdas_hoja :
  exists hvals valss,
    guardados (map VStr (columns df)) hvals /\
    Forall2 guardados (data df) valss /\
    forall r c,
      openpyxl._cells ws3 !! (r, c) =
      if decide (r = 2%nat) then
        if decide (1 <= c <= length hvals)%nat then celda <$> hvals !! (c - 1)%nat
        else None
      else
        match (if decide (2 < r)%nat then valss !! (r - 3)%nat else None) with
        | Some vals =>
            if decide (1 <= c <= length vals)%nat then celda <$> vals !! (c - 1)%nat
            else None
        | None => celdas_titulo !! (r, c)
        end.
Proof.
  destruct (append_spec _ _ _ Hheader) as (hvals & Hh & _ & Hcur2 & Hcells2).
  destruct (append_all_spec _ _ _ Hrows) as (valss & Hv & _ & _ & Hcells3).
  exists hvals, valss. split; [exact Hh|]. split; [exact Hv|].
  intros r c. rewrite Hcells3, Hcur2, !Hcells2.
  pose proof (Forall2_length _ _ _ Hh) as Hlen.
  change (openpyxl._current_row hoja_titulo) with 1%nat.
  change (openpyxl._cells hoja_titulo) with celdas_titulo.
  destruct (decide (r = 2%nat)) as [->|Hr].
  - rewrite (decide_False (P := (2 < 2)%nat)) by lia.
    repeat case_decide; try lia; try reflexivity.
    rewrite celdas_titulo_lookup. repeat case_decide; try lia; reflexivity.
  - destruct (decide (2 < r)%nat) as [Hgt|Hle].
    + destruct (valss !! (r - 3)%nat) as [vals|]; repeat case_decide; try lia;
        try reflexivity.
      rewrite celdas_titulo_lookup. repeat case_decide; try lia; reflexivity.
    + repeat case_decide; try lia; reflexivity.
Qed.

Lemma sheet_mismo_marco : mismo_marco hoja_titulo ws3.
Proof.
  destruct (append_spec _ _ _ Hheader) as (_ & _ & Hm2 & _).
  destruct (append_all_spec _ _ _ Hrows) as (_ & _ & Hm3 & _).
  by eapply mismo_marco_trans.
Qed.

Lemma sheet_current_row :
  openpyxl._current_row ws3 = (2 + length (data df))%nat.
Proof.
  destruct (append_spec _ _ _ Hheader) as (_ & _ & _ & Hcur2 & _).
  destruct (append_all_spec _ _ _ Hrows) as (_ & _ & _ & Hcur3 & _).
  rewrite Hcur3, Hcur2. reflexivity.
Qed.

Lemma sheet_row1 c : openpyxl._cells ws3 !! (1%nat, c) = celdas_titulo !! (1%nat, c).
Proof.
  destruct celdas_hoja as (hvals & valss & _ & _ & Hcells).
  rewrite Hcells. repeat case_decide; try lia; reflexivity.
Qed.

Lemma sheet_has_header c :
  (1 <= c <= length (columns df))%nat -> is_Some (openpyxl._cells ws3 !! (2%nat, c)).
Proof.
  intros Hc. destruct celdas_hoja as (hvals & valss & Hh & _ & Hcells).
  rewrite Hcells. apply Forall2_length in Hh. rewrite length_map in Hh.
  rewrite decide_True by done. rewrite decide_True by lia.
  apply fmap_is_Some, lookup_lt_is_Some. lia.
Qed.

Hypothesis Hnames : Forall (fun n => (String.length n <= 32767)%nat) (columns df).
Hypothesis Hdata : Forall (Forall medible) (data df).

Lemma guardado_medida row vals c :
  guardados row vals -> Forall medible row ->
  medida (default VNone (vals !! c)) = longitud (nth c row VNone).
Proof.
  intros Hg Hm. rewrite nth_lookup.
  destruct (row !! c) as [v|] eqn:Hv.
  - destruct (Forall2_lookup_l _ _ _ _ _ Hg Hv) as (v' & -> & Hb). cbn.
    apply medida_guardado; [|done]. by eapply Forall_lookup_1.
  - apply lookup_ge_None in Hv. rewrite (Forall2_length _ _ _ Hg) in Hv.
    apply lookup_ge_None in Hv. by rewrite Hv.
Qed.

Lemma medida_fila1 c :
  (1 <= c)%nat ->
  medida (valor ws3 1 c) = if (c =? 1)%nat then Py.len titulo_empresa else 0.
Proof.
  intros Hc. unfold valor. rewrite sheet_row1, celdas_titulo_lookup.
  destruct (c =? 1)%nat eqn:E.
  - apply Nat.eqb_eq in E. subst. by rewrite decide_True.
  - apply Nat.eqb_neq in E. rewrite decide_False by lia.
    by case_decide.
Qed.

Lemma medida_fila2 c :
  (1 <= c)%nat ->
  medida (valor ws3 2 c) = longitud (nth (c - 1) (map VStr (columns df)) VNone).
Proof.
  intros Hc. destruct celdas_hoja as (hvals & valss & Hh & _ & Hcells).
  assert (Forall medible (map VStr (columns df))) as Hm.
  { apply Forall_map. eapply Forall_impl; [exact Hnames|].
    intros n. apply medible_texto. }
  rewrite <- (guardado_medida _ _ (c - 1) Hh Hm).
  unfold valor. rewrite Hcells. rewrite decide_True by done.
  case_decide.
  - by destruct (hvals !! (c - 1)%nat).
  - rewrite lookup_ge_None_2 by lia. reflexivity.
Qed.

Lemma medida_datos i c :
  (1 <= c)%nat ->
  medida (valor ws3 (3 + i) c) =
  longitud (nth (c - 1) (nth i (data df) []) VNone).
Proof.
  intros Hc. destruct celdas_hoja as (hvals & valss & _ & Hv & Hcells).
  unfold valor. rewrite Hcells. rewrite decide_False by lia.
  rewrite decide_True by lia. replace (3 + i - 3)%nat with i by lia.
  rewrite (nth_lookup (data df)).
  destruct (data df !! i) as [row|] eqn:Hrow.
  - destruct (Forall2_lookup_l _ _ _ _ _ Hv Hrow) as (vals & -> & Hg). cbn.
    assert (Forall medible row) as Hm by (by eapply Forall_lookup_1 in Hdata).
    rewrite <- (guardado_medida _ _ (c - 1) Hg Hm).
    case_decide.
    + by destruct (vals !! (c - 1)%nat).
    + rewrite lookup_ge_None_2 by lia. reflexivity.
  - apply lookup_ge_None in Hrow. rewrite (Forall2_length _ _ _ Hv) in Hrow.
    apply lookup_ge_None in Hrow. rewrite Hrow.
    rewrite celdas_titulo_lookup. repeat case_decide; try lia.
    cbn. by destruct (c - 1)%nat.
Qed.

Lemma valor_fuera r c :
  (2 + length (data df) < r)%nat -> valor ws3 r c = VNone.
Proof.
  intros Hr. destruct celdas_hoja as (hvals & valss & _ & Hv & Hcells).
  unfold valor. rewrite Hcells. rewrite decide_False by lia.
  rewrite decide_True by lia.
  rewrite (lookup_ge_None_2 valss) by (rewrite <- (Forall2_length _ _ _ Hv); lia).
  rewrite celdas_titulo_lookup. repeat case_decide; try lia; reflexivity.
Qed.

(** What the loop measures down column [c] is what [medidas] lists. *)
Lemma medidas_hoja c :
  (1 <= c)%nat ->
  map (fun r => medida (valor ws3 r c)) (seq 1 (2 + length (data df))) = medidas df c.
Proof.
  intros Hc. unfold medidas. cbn [seq map Nat.add].
  rewrite medida_fila1, medida_fila2 by done. do 2 f_equal.
  apply list_eq. intros i. rewrite !list_lookup_fmap.
  destruct (data df !! i) as [row|] eqn:Hrow.
  - rewrite (lookup_seq_lt _ _ _ (lookup_lt_Some _ _ _ Hrow)).
    cbn [fmap option_fmap option_map].
    rewrite (medida_datos i c Hc), (nth_lookup (data df)), Hrow. reflexivity.
  - rewrite lookup_seq_ge by (by apply lookup_ge_None). reflexivity.
Qed.

End Hoja.

(** *** The table and the widths *)

Lemma llenar_hoja_spec df ws0 ws :
  llenar_hoja df ws0 = Return ws ->
  exists ws2 ws3 letter tab,
    openpyxl.append ws0 (map VStr (columns df)) = Return ws2 /\
    for_each openpyxl.append ws2 (dataframe_to_rows df) = Return ws3 /\
    openpyxl.get_column_letter (openpyxl.max_column ws3) = Return letter /\
    tab = openpyxl.mkTable "TablaDatos"
            ("A2:" +:+ letter +:+ Py.str_int (Z.of_nat (openpyxl.max_row ws3)))
            (Some (openpyxl.mkTableStyleInfo "TableStyleMedium9" false false true false)) /\
    if (openpyxl._current_row ws3 =? 0)%nat then ws = openpyxl.add_table ws3 tab
    else for_each (ajustar_columna (openpyxl.max_row ws3)) (openpyxl.add_table ws3 tab)
           (seq 1 (openpyxl.max_column ws3)) = Return ws.
Proof.
  unfold llenar_hoja.
  destruct (openpyxl.append ws0 _) as [ws2|] eqn:H2; cbn; [|discriminate].
  destruct (for_each openpyxl.append ws2 _) as [ws3|] eqn:H3; cbn; [|discriminate].
  destruct (openpyxl.get_column_letter _) as [letter|] eqn:Hl; cbn; [|discriminate].
  intros H. eexists ws2, ws3, letter, _.
  repeat (split; [first [reflexivity|assumption]|]).
  destruct (openpyxl._current_row ws3 =? 0)%nat; [by injection H|exact H].
Qed.

Lemma ajustar_todas_conserva last_row : forall cols ws ws',
  for_each (ajustar_columna last_row) ws cols = Return ws' -> conserva ws ws'.
Proof.
  induction cols as [|c cols IH]; intros ws ws'; cbn [for_each].
  - intros [= <-]. apply conserva_refl.
  - destruct (ajustar_columna last_row ws c) as [ws1|] eqn:H1; cbn; [|discriminate].
    intros H. apply ajustar_columna_spec in H1 as [Hc _].
    eapply conserva_trans; [exact Hc|by apply IH].
Qed.

(** A width stays as it is while other columns are sized. *)
Lemma ajustar_todas_otras last_row letter : forall cols ws ws',
  for_each (ajustar_columna last_row) ws cols = Return ws' ->
  (forall c, c ∈ cols -> openpyxl.get_column_letter c <> Return letter) ->
  openpyxl.column_width ws' !! letter = openpyxl.column_width ws !! letter.
Proof.
  induction cols as [|c cols IH]; intros ws ws'; cbn [for_each].
  - by intros [= <-].
  - destruct (ajustar_columna last_row ws c) as [ws1|] eqn:H1; cbn; [|discriminate].
    intros H Hother. apply ajustar_columna_spec in H1 as (_ & l & m & Hl & _ & Hw).
    rewrite (IH _ _ H) by (intros c' Hc'; apply Hother; by right).
    rewrite Hw. apply lookup_insert_ne. intros ->.
    apply (Hother c); [by left|done].
Qed.

Lemma ajustar_todas_ancho last_row : forall cols ws ws' c,
  for_each (ajustar_columna last_row) ws cols = Return ws' ->
  NoDup cols -> c ∈ cols ->
  exists letter m,
    openpyxl.get_column_letter c = Return letter /\
    max_ (map (fun row => medida (valor ws row c)) (seq 1 last_row)) = Return m /\
    openpyxl.column_width ws' !! letter = Some (m + 2).
Proof.
  induction cols as [|c0 cols IH]; intros ws ws' c; cbn [for_each].
  - intros _ _ Hc. by apply elem_of_nil in Hc.
  - destruct (ajustar_columna last_row ws c0) as [ws1|] eqn:H1; cbn; [|discriminate].
    intros H Hnd Hc. apply NoDup_cons in Hnd as [Hnotin Hnd].
    apply ajustar_columna_spec in H1 as (Hcons & l & m & Hl & Hm & Hw).
    apply elem_of_cons in Hc as [->|Hc].
    + exists l, m. split; [exact Hl|]. split; [exact Hm|].
      rewrite (ajustar_todas_otras _ l _ _ _ H).
      * rewrite Hw. apply lookup_insert_eq.
      * intros c' Hc' Hl'. apply Hnotin.
        by rewrite (get_column_letter_inj _ _ _ Hl Hl').
    + destruct (IH _ _ c H Hnd Hc) as (l' & m' & Hl' & Hm' & Hw').
      exists l', m'. split; [exact Hl'|]. split; [|exact Hw'].
      rewrite <- Hm'. f_equal. apply map_ext. intros r.
      f_equal. symmetry. apply Hcons.
Qed.

(** Saving makes cells at most. *)
Lemma cells_of_spec : forall positions ws ws' cells,
  openpyxl.cells_of ws positions = Return (ws', cells) ->
  conserva ws ws' /\ openpyxl.column_width ws' = openpyxl.column_width ws.
Proof.
  induction positions as [|[row col] positions IH]; intros ws ws' cells;
    cbn [openpyxl.cells_of].
  - intros [= <- <-]. split; [apply conserva_refl|done].
  - destruct (openpyxl.cell_at ws row col) as [[ws1 x]|] eqn:H1;
      cbn [mbind result_bind]; [|discriminate].
    destruct (openpyxl.cells_of ws1 positions) as [[ws2 xs]|] eqn:H2;
      cbn [mbind result_bind]; [|discriminate].
    intros [= <- <-].
    apply cell_at_spec in H1 as (Hc1 & Hw1 & _).
    apply IH in H2 as (Hc2 & Hw2).
    split; [by eapply conserva_trans|congruence].
Qed.

Lemma save_spec ws ws' :
  openpyxl.save ws = Return ws' ->
  conserva ws ws' /\ openpyxl.column_width ws' = openpyxl.column_width ws.
Proof.
  unfold openpyxl.save. generalize (openpyxl.tables ws). intros ts. revert ws.
  induction ts as [|t ts IH]; intros ws; cbn [for_each].
  - intros [= <-]. split; [apply conserva_refl|done].
  - destruct (openpyxl.range_boundaries _) as [[[[min_col min_row] max_col] max_row]|];
      cbn [mbind result_bind]; [|discriminate].
    destruct (openpyxl.cells_of ws _) as [[ws1 xs]|] eqn:H1;
      cbn [mbind result_bind]; [|discriminate].
    destruct (max_row <? min_row)%nat; cbn [mbind result_bind]; [discriminate|].
    intros H. apply cells_of_spec in H1 as (Hc1 & Hw1).
    apply IH in H as (Hc2 & Hw2).
    split; [by eapply conserva_trans|congruence].
Qed.

Lemma crear_excel_spec df ws :
  crear_excel_en_memoria df = Return ws ->
  exists ws2 ws3 tab ws4,
    openpyxl.append hoja_titulo (map VStr (columns df)) = Return ws2 /\
    for_each openpyxl.append ws2 (dataframe_to_rows df) = Return ws3 /\
    for_each (ajustar_columna (openpyxl.max_row ws3)) (openpyxl.add_table ws3 tab)
      (seq 1 (openpyxl.max_column ws3)) = Return ws4 /\
    conserva ws4 ws /\ openpyxl.column_width ws = openpyxl.column_width ws4.
Proof.
  unfold crear_excel_en_memoria. rewrite poner_titulo_hoja. cbn [mbind result_bind].
  destruct (llenar_hoja df hoja_titulo) as [ws4|] eqn:H; cbn [mbind result_bind];
    [|discriminate].
  intros Hsave. apply save_spec in Hsave as [Hc Hw].
  apply llenar_hoja_spec in H as (ws2 & ws3 & letter & tab & H2 & H3 & _ & _ & H).
  exists ws2, ws3, tab, ws4. split; [exact H2|]. split; [exact H3|].
  rewrite (sheet_current_row df ws2 ws3 H2 H3) in H. by split.
Qed.

(** C6: on the table of the example the header lands on row 2 and the two
    rows on rows 3 and 4, unchanged and in order, but the table region runs
    over ten columns, not two: the merged banner has put cells on A1:J1, so
    [ws.max_column] is 10 and the reference is A2:J4, with eight header
    cells that hold nothing. *)
Theorem tabla_de_ejemplo_cubre_diez_columnas :
  exists ws,
    crear_excel_en_memoria df6 = Return ws /\
    fila ws 2 = [VStr "id"; VStr "name"; VNone; VNone; VNone; VNone; VNone; VNone;
                 VNone; VNone] /\
    fila ws 3 = [VStr "1"; VStr "Acme"; VNone; VNone; VNone; VNone; VNone; VNone;
                 VNone; VNone] /\
    fila ws 4 = [VStr "2"; VStr "Beta"; VNone; VNone; VNone; VNone; VNone; VNone;
                 VNone; VNone] /\
    openpyxl.max_row ws = 4%nat /\
    map openpyxl.ref (openpyxl.tables ws) = ["A2:J4"] /\
    openpyxl.range_boundaries "A2:J4" = Return (1, 2, 10, 4)%nat.
Proof.
  eexists. split; [vm_compute; reflexivity|].
  repeat split; vm_compute; reflexivity.
Qed.

(** C7 (amended): for every rendered table the banner on row 1 is one
    merged range over the ten columns A to J, whatever the number of columns
    of the table: A1 holds the styled caption, B1 to J1 are merged
    placeholders and the row is 30 high. *)
Theorem titulo_combinado_en_diez_columnas (df : DataFrame) (ws : openpyxl.Worksheet) :
  crear_excel_en_memoria df = Return ws ->
  openpyxl.merged_cells ws = [(1, 1, 10, 1)%nat] /\
  map columnas_del_rango (openpyxl.merged_cells ws) = [10%nat] /\
  openpyxl._cells ws !! (1, 1)%nat = Some celda_titulo /\
  (forall c, (2 <= c <= 10)%nat ->
     openpyxl._cells ws !! (1%nat, c) = Some openpyxl.MergedCell) /\
  openpyxl.row_height ws !! 1%nat = Some 30.
Proof.
  intros H.
  apply crear_excel_spec in H as (ws2 & ws3 & tab & ws4 & H2 & H3 & H & Hsave & _).
  apply ajustar_todas_conserva in H.
  destruct (conserva_trans _ _ _ H Hsave) as (_ & Hmerged & Hheight & _ & Hcells & _).
  destruct (sheet_mismo_marco df ws2 ws3 H2 H3) as (_ & Hm3 & Hh3 & _).
  cbn in Hmerged, Hheight, Hcells.
  assert (openpyxl.merged_cells ws = [(1, 1, 10, 1)%nat]) as Hm
    by (by rewrite Hmerged, Hm3).
  split; [exact Hm|]. split; [by rewrite Hm|]. split; [|split].
  - apply Hcells. rewrite (sheet_row1 df ws2 ws3 H2 H3), celdas_titulo_lookup.
    by rewrite decide_True.
  - intros c Hc. apply Hcells.
    rewrite (sheet_row1 df ws2 ws3 H2 H3), celdas_titulo_lookup.
    rewrite decide_False by lia. by rewrite decide_True.
  - by rewrite Hheight, Hh3.
Qed.

Lemma crear_excel_df6 : exists ws, crear_excel_en_memoria df6 = Return ws.
Proof. eexists. vm_compute. reflexivity. Qed.

Lemma titulo_combinado_en_diez_columnas_witness :
  exists ws,
    crear_excel_en_memoria df6 = Return ws /\
    openpyxl.merged_cells ws = [(1, 1, 10, 1)%nat] /\
    map columnas_del_rango (openpyxl.merged_cells ws) = [10%nat] /\
    openpyxl._cells ws !! (1, 1)%nat = Some celda_titulo /\
    (forall c, (2 <= c <= 10)%nat ->
       openpyxl._cells ws !! (1%nat, c) = Some openpyxl.MergedCell) /\
    openpyxl.row_height ws !! 1%nat = Some 30.
Proof.
  destruct crear_excel_df6 as [ws Hws]. exists ws. split; [exact Hws|].
  exact (titulo_combinado_en_diez_columnas df6 ws Hws).
Defined.

(** C7 as stated fails: the table of the example has two columns and its
    banner is merged over ten. *)
Lemma titulo_de_diez_en_tabla_de_dos :
  exists ws,
    crear_excel_en_memoria df6 = Return ws /\
    map columnas_del_rango (openpyxl.merged_cells ws) = [10%nat] /\
    10%nat <> Nat.min 10 (length (columns df6)).
Proof.
  eexists. split; [vm_compute; reflexivity|]. split; [vm_compute; reflexivity|].
  cbn. lia.
Qed.

(** C8 (amended): for every rendered table whose cells hold no zero and no
    [False] and whose texts fit a cell, every sheet column from 1 to the
    larger of 10 and the number of table columns gets the width 2 + the
    longest text among the cells of that sheet column from row 1 on, the
    banner row included: the caption counts for column A, the merged
    placeholders and missing cells for nothing. *)
Theorem ancho_de_columna (df : DataFrame) (ws : openpyxl.Worksheet) (c : nat) :
  crear_excel_en_memoria df = Return ws ->
  Forall (fun n => (String.length n <= 32767)%nat) (columns df) ->
  Forall (Forall medible) (data df) ->
  (1 <= c <= Nat.max 10 (length (columns df)))%nat ->
  exists letter,
    openpyxl.get_column_letter c = Return letter /\
    openpyxl.column_width ws !! letter = Some (longest (medidas df c) + 2).
Proof.
  intros H Hnames Hdata Hc.
  apply crear_excel_spec in H as (ws2 & ws3 & tab & ws4 & H2 & H3 & H & _ & Hancho).
  assert (c <= openpyxl.max_column ws3)%nat as Hmax.
  { destruct (decide (c <= 10)%nat) as [H10|H10].
    - etransitivity; [exact H10|]. apply (max_column_ge ws3 1).
      rewrite (sheet_row1 df ws2 ws3 H2 H3), celdas_titulo_lookup.
      rewrite decide_False by lia. rewrite decide_True by lia. done.
    - etransitivity; [|apply (max_column_ge ws3 2 (length (columns df)))]; [lia|].
      apply (sheet_has_header df ws2 ws3 H2 H3). lia. }
  destruct (ajustar_todas_ancho _ _ _ _ c H) as (letter & m & Hl & Hm & Hw).
  { apply NoDup_seq. }
  { apply list_elem_of_In, in_seq. lia. }
  exists letter. split; [exact Hl|]. rewrite Hancho, Hw. do 2 f_equal.
  change (fun row => medida (valor (openpyxl.add_table ws3 tab) row c))
    with (fun row => medida (valor ws3 row c)) in Hm.
  apply max_longest in Hm.
  2:{ apply Forall_map, Forall_forall. intros; apply medida_nonneg. }
  rewrite Hm, <- (medidas_hoja df ws2 ws3 H2 H3 Hnames Hdata c) by lia.
  set (f := fun r => medida (valor ws3 r c)).
  set (a := openpyxl.max_row ws3). set (b := (2 + length (data df))%nat).
  rewrite <- (longest_rows f a (Nat.max a b)), <- (longest_rows f b (Nat.max a b));
    try lia; try reflexivity.
  - intros r Hr. subst f b. cbn beta.
    by rewrite (valor_fuera df ws2 ws3 H2 H3 r c Hr).
  - intros r Hr. subst f a. cbn beta. by rewrite valor_beyond_max_row.
Qed.

Lemma ancho_de_columna_witness :
  exists ws,
    crear_excel_en_memoria df6 = Return ws /\
    Forall (fun n => (String.length n <= 32767)%nat) (columns df6) /\
    Forall (Forall medible) (data df6) /\
    (1 <= 1 <= Nat.max 10 (length (columns df6)))%nat /\
    exists letter,
      openpyxl.get_column_letter 1 = Return letter /\
      openpyxl.column_width ws !! letter = Some (longest (medidas df6 1) + 2).
Proof.
  destruct crear_excel_df6 as [ws Hws]. exists ws.
  assert (forall s, (String.length s <=? 32767)%nat = true ->
                    (String.length s <= 32767)%nat) as Hle
    by (intros s; apply Nat.leb_le).
  assert (Forall (fun n => (String.length n <= 32767)%nat) (columns df6)) as Hn.
  { repeat (apply List.Forall_cons; [apply Hle; vm_compute; reflexivity|]).
    apply List.Forall_nil. }
  assert (Forall (Forall medible) (data df6)) as Hd.
  { repeat (apply List.Forall_cons;
              [repeat (apply List.Forall_cons;
                         [apply medible_texto, Hle; vm_compute; reflexivity|]);
               apply List.Forall_nil|]).
    apply List.Forall_nil. }
  assert (1 <= 1 <= Nat.max 10 (length (columns df6)))%nat as Hc by (cbn; lia).
  split; [exact Hws|]. split; [exact Hn|]. split; [exact Hd|]. split; [exact Hc|].
  exact (ancho_de_columna df6 ws 1 Hws Hn Hd Hc).
Defined.

(** C8 as stated fails: column A of the example table is 40 wide, the 38
    characters of the banner caption plus 2, while its header and its data
    cells are at most 2 characters long. *)
Lemma ancho_de_A_cuenta_el_titulo :
  exists ws,
    crear_excel_en_memoria df6 = Return ws /\
    openpyxl.get_column_letter 1 = Return "A" /\
    openpyxl.column_width ws !! "A" = Some 40 /\
    longest (map longitud [VStr "id"; VStr "1"; VStr "2"]) + 2 = 4.
Proof.
  eexists. split; [vm_compute; reflexivity|].
  repeat split; vm_compute; reflexivity.
Qed.

(** * Further properties *)

(** ** The predicate builder *)

Lemma lstrip_replace s :
  Py.lstrip (Py.replace "'" "''" s) = Py.replace "'" "''" (Py.lstrip s).
Proof.
  induction s as [|c r IH]; [done|]. cbn [Py.replace Py.lstrip].
  destruct (Ascii.eqb c "'") eqn:E.
  - apply Ascii.eqb_eq in E. subst c. cbn. reflexivity.
  - cbn [Py.lstrip]. destruct (Py.isspace c); [exact IH|].
    cbn [Py.replace]. by rewrite E.
Qed.

Lemma replace_empty s : Py.replace "'" "''" s = EmptyString -> s = EmptyString.
Proof.
  destruct s as [|c r]; [done|]. cbn. by destruct (Ascii.eqb c "'").
Qed.

Lemma rstrip_replace s :
  Py.rstrip (Py.replace "'" "''" s) = Py.replace "'" "''" (Py.rstrip s).
Proof.
  induction s as [|c r IH]; [done|]. cbn [Py.replace Py.rstrip].
  destruct (Ascii.eqb c "'") eqn:E.
  - apply Ascii.eqb_eq in E. subst c.
    change ("''" +:+ Py.replace "'" "''" r)
      with (String "'" (String "'" (Py.replace "'" "''" r))).
    cbn [Py.rstrip]. rewrite IH.
    destruct (Py.rstrip r) as [|c' r'] eqn:Er; [reflexivity|].
    cbn [Py.replace]. destruct (Ascii.eqb c' "'"); reflexivity.
  - cbn [Py.rstrip]. rewrite IH.
    destruct (Py.rstrip r) as [|c' r'] eqn:Er.
    + cbn [Py.replace]. destruct (Py.isspace c); [reflexivity|].
      cbn [Py.replace]. by rewrite E.
    + cbn [Py.replace]. rewrite E.
      destruct (Ascii.eqb c' "'"); reflexivity.
Qed.

Lemma strip_replace s :
  Py.strip (Py.replace "'" "''" s) = Py.replace "'" "''" (Py.strip s).
Proof. unfold Py.strip. by rewrite lstrip_replace, rstrip_replace. Qed.

Lemma comillas_dobles_replace s : comillas_dobles (Py.replace "'" "''" s) = true.
Proof.
  induction s as [|c r IH]; [done|]. cbn [Py.replace].
  destruct (Ascii.eqb c "'") eqn:E.
  - exact IH.
  - cbn [comillas_dobles]. by rewrite E.
Qed.

Lemma sin_doblar_replace s : sin_doblar (Py.replace "'" "''" s) = s.
Proof.
  induction s as [|c r IH]; [done|]. cbn [Py.replace].
  destruct (Ascii.eqb c "'") eqn:E.
  - apply Ascii.eqb_eq in E. subst c.
    change ("''" +:+ Py.replace "'" "''" r)
      with (String "'" (String "'" (Py.replace "'" "''" r))).
    cbn [sin_doblar Ascii.eqb Bool.eqb]. by rewrite IH.
  - cbn [sin_doblar]. by rewrite E, IH.
Qed.

Lemma rstrip_rstrip s : Py.rstrip (Py.rstrip s) = Py.rstrip s.
Proof.
  induction s as [|c r IH]; [done|]. cbn [Py.rstrip].
  destruct (Py.rstrip r) as [|c' r'] eqn:Er.
  - destruct (Py.isspace c) eqn:Ec; [done|]. cbn [Py.rstrip]. by rewrite Ec.
  - cbn [Py.rstrip]. cbn [Py.rstrip] in IH. rewrite IH. reflexivity.
Qed.

Lemma lstrip_head s :
  match Py.lstrip s with String c _ => Py.isspace c = false | EmptyString => True end.
Proof.
  induction s as [|c r IH]; [done|]. cbn [Py.lstrip].
  by destruct (Py.isspace c) eqn:E.
Qed.

Lemma rstrip_head c r :
  Py.isspace c = false -> exists r', Py.rstrip (String c r) = String c r'.
Proof.
  intros E. cbn [Py.rstrip]. destruct (Py.rstrip r); rewrite ?E; eauto.
Qed.

Lemma strip_strip s : Py.strip (Py.strip s) = Py.strip s.
Proof.
  unfold Py.strip. pose proof (lstrip_head s) as H.
  destruct (Py.lstrip s) as [|c r]; [done|].
  destruct (rstrip_head c r H) as [r' Hr]. rewrite Hr.
  cbn [Py.lstrip]. rewrite H, <- Hr. apply rstrip_rstrip.
Qed.

Lemma escapar_texto s :
  escapar_sql_mejorado (JStr s) = Return (JStr (Py.strip (Py.replace "'" "''" s))).
Proof. by destruct s. Qed.

Lemma contiene_lstrip c s : contiene c s = false -> contiene c (Py.lstrip s) = false.
Proof.
  induction s as [|c' r IH]; [done|]. cbn [Py.lstrip].
  destruct (Py.isspace c'); [|done]. cbn. intros H. apply orb_false_iff in H as [_ H]. auto.
Qed.

Lemma contiene_rstrip c s : contiene c s = false -> contiene c (Py.rstrip s) = false.
Proof.
  induction s as [|c' r IH]; [done|]. cbn [Py.rstrip contiene].
  intros H. apply orb_false_iff in H as [H1 H2]. specialize (IH H2).
  destruct (Py.rstrip r) as [|c'' r'].
  - destruct (Py.isspace c'); [done|]. cbn. by rewrite H1.
  - cbn [contiene]. cbn [contiene] in IH. by rewrite H1, IH.
Qed.

Lemma contiene_strip c s : contiene c s = false -> contiene c (Py.strip s) = false.
Proof. intros H. by apply contiene_rstrip, contiene_lstrip. Qed.

Lemma contiene_replace s :
  contiene "," s = false -> contiene "," (Py.replace "'" "''" s) = false.
Proof.
  induction s as [|c r IH]; [done|]. cbn [Py.replace contiene].
  intros H. apply orb_false_iff in H as [H1 H2].
  destruct (Ascii.eqb c "'"); cbn; rewrite ?H1; auto.
Qed.

Lemma split_sin_separador sep s :
  Forall (fun p => contiene sep p = false) (Py.split sep s).
Proof.
  induction s as [|c r IH]; [by constructor|]. cbn [Py.split].
  destruct (Ascii.eqb c sep) eqn:E.
  - by constructor.
  - destruct (Py.split sep r) as [|h t]; [by constructor; [cbn; rewrite E|]|].
    apply Forall_cons in IH as [Hh Ht]. constructor; [|done].
    cbn. by rewrite E, Hh.
Qed.

Lemma mapM_return {A B : Type} (f : A -> result B) (g : A -> B) (l : list A) :
  (forall x, f x = Return (g x)) -> mapM f l = Return (map g l).
Proof.
  intros Hf. induction l as [|x l IH]; [done|].
  cbn. rewrite Hf. cbn. rewrite IH. reflexivity.
Qed.

Lemma procesar_texto s :
  procesar_terminos_multiples (JStr s) =
  Return (map (fun termino => JStr (Py.replace "'" "''" (Py.strip termino)))
            (filter (fun termino => Py.nonempty (Py.strip termino) = true)
                    (Py.split "," s))).
Proof.
  unfold procesar_terminos_multiples. destruct s as [|c r] eqn:Es; [done|].
  cbn [truthy Py.nonempty negb]. apply mapM_return.
  intros x. by rewrite escapar_texto, strip_replace, strip_strip.
Qed.

(** X1: for every text, [escapar_sql_mejorado] returns a text whose quotes
    come in pairs only and that has no blank at either end; putting every
    pair back to one quote gives the input trimmed, so nothing else is
    changed or lost. *)
Theorem escapar_comillas_en_pares (s : string) :
  exists e,
    escapar_sql_mejorado (JStr s) = Return (JStr e) /\
    comillas_dobles e = true /\
    Py.strip e = e /\
    sin_doblar e = Py.strip s.
Proof.
  exists (Py.strip (Py.replace "'" "''" s)). split; [apply escapar_texto|].
  rewrite strip_strip, strip_replace.
  split; [apply comillas_dobles_replace|]. split; [done|]. apply sin_doblar_replace.
Qed.

(** X2: for every text, [procesar_terminos_multiples] returns, without
    raising, terms that are not empty, have no blank at either end, no comma
    and quotes in pairs only; there are no more terms than comma-separated
    parts, and there is none exactly when every part is blank. *)
Theorem procesar_terminos_limpios (s : string) :
  exists terminos,
    procesar_terminos_multiples (JStr s) = Return terminos /\
    Forall termino_limpio terminos /\
    (length terminos <= length (Py.split "," s))%nat /\
    (terminos = [] <->
     Forall (fun parte => Py.strip parte = EmptyString) (Py.split "," s)).
Proof.
  eexists. split; [apply procesar_texto|].
  pose proof (split_sin_separador "," s) as Hsep.
  induction (Py.split "," s) as [|p l IH].
  - repeat split; done.
  - apply Forall_cons in Hsep as [Hp Hl]. destruct (IH Hl) as (IH1 & IH2 & IH3).
    rewrite filter_cons. destruct (decide (Py.nonempty (Py.strip p) = true)) as [Hne|He].
    + cbn [map length]. split; [|split; [lia|]].
      * constructor; [|done]. eexists. split; [reflexivity|].
        rewrite <- strip_replace, strip_strip, strip_replace.
        split; [|split; [done|split]].
        -- intros H. apply replace_empty in H. by rewrite H in Hne.
        -- by apply contiene_replace, contiene_strip.
        -- apply comillas_dobles_replace.
      * split; [done|]. intros H. apply Forall_cons in H as [H _].
        by rewrite H in Hne.
    + split; [done|]. split; [cbn [length]; lia|].
      rewrite IH3. split.
      * intros H. constructor; [|done]. by destruct (Py.strip p).
      * intros H. by apply Forall_cons in H as [_ H].
Qed.

Lemma texto_o_falso_truthy v : texto_o_falso v = false -> truthy v = true.
Proof. destruct v as [|b|n|s]; cbn; try done; by destruct (negb _) eqn:E; [|apply negb_false_iff in E]. Qed.

Lemma procesar_ok v :
  texto_o_falso v = true -> exists l, procesar_terminos_multiples v = Return l.
Proof.
  destruct v as [|b|n|s]; cbn [texto_o_falso]; intros H.
  - by eexists.
  - unfold procesar_terminos_multiples. rewrite H. by eexists.
  - unfold procesar_terminos_multiples. rewrite H. by eexists.
  - eexists. apply procesar_texto.
Qed.

Lemma procesar_raise v :
  texto_o_falso v = false -> procesar_terminos_multiples v = Raise AttributeError.
Proof.
  destruct v as [|b|n|s]; cbn [texto_o_falso]; intros H; try done;
    unfold procesar_terminos_multiples; by rewrite H.
Qed.

Lemma escapar_ok v :
  texto_o_falso v = true -> exists t, escapar_sql_mejorado v = Return t.
Proof.
  destruct v as [|b|n|s]; cbn [texto_o_falso]; intros H.
  - by eexists.
  - unfold escapar_sql_mejorado. rewrite H. by eexists.
  - unfold escapar_sql_mejorado. rewrite H. by eexists.
  - eexists. apply escapar_texto.
Qed.

Lemma escapar_raise v :
  texto_o_falso v = false -> escapar_sql_mejorado v = Raise AttributeError.
Proof.
  destruct v as [|b|n|s]; cbn [texto_o_falso]; intros H; try done;
    unfold escapar_sql_mejorado; by rewrite H.
Qed.

Local Ltac bloque_ok filtros k E :=
  match goal with
  | |- context [(if truthy (get filtros k) then ?a else ?b) ≫= ?r] =>
      let c := fresh "condiciones" in
      assert (exists c', (if truthy (get filtros k) then a else b) = Return c') as [c ->];
      [ destruct (truthy (get filtros k)); [|by eexists];
        first [ destruct (procesar_ok _ E) as [[|? ?] ->]
              | destruct (escapar_ok _ E) as [? ->] ];
        by eexists
      | cbn [mbind result_bind] ]
  end.

Local Ltac bloque_raise E :=
  rewrite (texto_o_falso_truthy _ E);
  first [rewrite (procesar_raise _ E) | rewrite (escapar_raise _ E)];
  cbn [mbind result_bind];
  split; [reflexivity|]; unfold claves_texto; rewrite !Exists_cons; tauto.

Local Ltac bloque filtros k :=
  let E := fresh "E" in
  destruct (texto_o_falso (get filtros k)) eqn:E;
  [bloque_ok filtros k E|bloque_raise E].

Lemma construir_tipos (filtros : gmap string json) :
  match construir_consulta_where filtros with
  | Return _ => Forall (fun k => texto_o_falso (get filtros k) = true) claves_texto
  | Raise e =>
      e = AttributeError /\
      Exists (fun k => texto_o_falso (get filtros k) = false) claves_texto
  end.
Proof.
  unfold construir_consulta_where.
  cbn [for_each campos_multiples condicion_multiple].
  bloque filtros "proceso_de_compra".
  bloque filtros "entidad".
  bloque filtros "departamento".
  bloque filtros "ciudad".
  bloque filtros "modalidades".
  bloque filtros "estado_del_procedimiento".
  bloque filtros "estado_de_apertura_del_proceso".
  unfold claves_texto. repeat (constructor; [assumption|]). constructor.
Qed.

Lemma efectivo_igual (f1 f2 : gmap string json) k :
  efectivo f1 k = efectivo f2 k ->
  truthy (get f2 k) = truthy (get f1 k) /\
  (truthy (get f1 k) = true -> get f2 k = get f1 k).
Proof.
  unfold efectivo. destruct (truthy (get f1 k)), (truthy (get f2 k)); try done.
  by intros [= ->].
Qed.

Local Ltac misma_clave H f1 f2 k :=
  let Ht := fresh "Ht" in
  let Hv := fresh "Hv" in
  let T := fresh "T" in
  destruct (efectivo_igual f1 f2 k) as [Ht Hv];
  [ apply H; unfold claves_filtro, claves_texto; set_solver
  | rewrite Ht; destruct (truthy (get f1 k)) eqn:T;
    [rewrite (Hv eq_refl)|]; clear Ht Hv ].

Lemma bind_igual {A B : Type} (m1 m2 : result A) (k1 k2 : A -> result B) :
  m1 = m2 -> (forall a, k1 a = k2 a) -> m1 ≫= k1 = m2 ≫= k2.
Proof. intros <- H. destruct m1; [apply H|reflexivity]. Qed.

Lemma construir_igual (f1 f2 : gmap string json) :
  (forall k, k ∈ claves_filtro -> efectivo f1 k = efectivo f2 k) ->
  construir_consulta_where f1 = construir_consulta_where f2.
Proof.
  intros H. unfold construir_consulta_where.
  cbn [for_each campos_multiples condicion_multiple].
  apply bind_igual; [by misma_clave H f1 f2 "proceso_de_compra"|intros c0].
  apply bind_igual.
  { apply bind_igual; [by misma_clave H f1 f2 "entidad"|intros c1].
    apply bind_igual; [by misma_clave H f1 f2 "departamento"|intros c2].
    apply bind_igual; [by misma_clave H f1 f2 "ciudad"|intros c3].
    apply bind_igual; [by misma_clave H f1 f2 "modalidades"|done]. }
  intros c4.
  apply bind_igual; [by misma_clave H f1 f2 "estado_del_procedimiento"|intros c5].
  apply bind_igual; [by misma_clave H f1 f2 "estado_de_apertura_del_proceso"|intros c6].
  misma_clave H f1 f2 "fecha_inicio"; misma_clave H f1 f2 "fecha_fin"; reflexivity.
Qed.

Lemma construir_raise (filtros : gmap string json) e :
  construir_consulta_where filtros = Raise e -> e = AttributeError.
Proof.
  intros H. pose proof (construir_tipos filtros) as Ht. rewrite H in Ht. tauto.
Qed.

(** X3: [construir_consulta_where] returns a predicate exactly when each of
    the seven text filters holds a text or something falsy; when one of them
    holds a number other than zero or [true], it raises [AttributeError],
    and it raises nothing else. *)
Theorem construir_solo_falla_por_tipo (filtros : gmap string json) :
  if forallb (fun k => texto_o_falso (get filtros k)) claves_texto
  then exists w, construir_consulta_where filtros = Return w
  else construir_consulta_where filtros = Raise AttributeError.
Proof.
  pose proof (construir_tipos filtros) as Ht.
  destruct (forallb _ _) eqn:E.
  - destruct (construir_consulta_where filtros) as [w|e]; [by exists w|].
    destruct Ht as [_ Ht]. apply Exists_exists in Ht as (k & Hk & Hf).
    rewrite forallb_forall in E. apply list_elem_of_In in Hk.
    rewrite (E k Hk) in Hf. discriminate.
  - destruct (construir_consulta_where filtros) as [w|e]; [|by destruct Ht as [-> _]].
    assert (forallb (fun k => texto_o_falso (get filtros k)) claves_texto = true);
      [|congruence].
    apply forallb_forall. intros k Hk. apply list_elem_of_In in Hk.
    by eapply Forall_forall in Ht.
Qed.

(** X4: the predicate depends on the nine filter keys only, and on each
    through its value when that is truthy: two payloads that agree there
    give the same predicate or the same exception, whatever other keys
    (such as [max_registros]) they hold, and a falsy value counts as an
    absent key. *)
Theorem construir_lee_solo_sus_claves (f1 f2 : gmap string json) :
  Forall (fun k => efectivo f1 k = efectivo f2 k) claves_filtro ->
  construir_consulta_where f1 = construir_consulta_where f2.
Proof.
  intros H. apply construir_igual. intros k Hk. by eapply Forall_forall in H.
Qed.

Lemma construir_lee_solo_sus_claves_witness :
  Forall (fun k =>
            efectivo {[ "entidad" := JStr "Bogota"; "ciudad" := JStr EmptyString;
                        "max_registros" := JInt 5 ]} k =
            efectivo {[ "entidad" := JStr "Bogota" ]} k) claves_filtro /\
  construir_consulta_where {[ "entidad" := JStr "Bogota"; "ciudad" := JStr EmptyString;
                              "max_registros" := JInt 5 ]} =
  construir_consulta_where {[ "entidad" := JStr "Bogota" ]}.
Proof.
  assert (Forall (fun k =>
            efectivo {[ "entidad" := JStr "Bogota"; "ciudad" := JStr EmptyString;
                        "max_registros" := JInt 5 ]} k =
            efectivo {[ "entidad" := JStr "Bogota" ]} k) claves_filtro) as H.
  { unfold claves_filtro, claves_texto. cbn [app].
    repeat (apply List.Forall_cons; [vm_compute; reflexivity|]). apply List.Forall_nil. }
  split; [exact H|]. exact (construir_lee_solo_sus_claves _ _ H).
Defined.

(** X5: when none of the nine filters is truthy the predicate is the empty
    text, and the address of a request with the empty predicate has no
    [$where] parameter. *)
Theorem sin_filtros_sin_predicado (filtros : gmap string json) :
  Forall (fun k => truthy (get filtros k) = false) claves_filtro ->
  construir_consulta_where filtros = Return EmptyString /\
  forall l o,
    url (mkRequest l o EmptyString) =
    BASE_URL +:+ "?$limit=" +:+ Py.str_int l +:+ "&$offset=" +:+ Py.str_int o.
Proof.
  intros H. split; [|reflexivity].
  rewrite (construir_igual filtros ∅); [reflexivity|].
  intros k Hk. eapply Forall_forall in H; [|exact Hk].
  unfold efectivo. by rewrite H.
Qed.

Lemma sin_filtros_sin_predicado_witness :
  Forall (fun k => truthy (get {[ "entidad" := JStr EmptyString; "fecha_fin" := JNull;
                                  "max_registros" := JInt 100 ]} k) = false)
    claves_filtro /\
  construir_consulta_where {[ "entidad" := JStr EmptyString; "fecha_fin" := JNull;
                              "max_registros" := JInt 100 ]} = Return EmptyString /\
  forall l o,
    url (mkRequest l o EmptyString) =
    BASE_URL +:+ "?$limit=" +:+ Py.str_int l +:+ "&$offset=" +:+ Py.str_int o.
Proof.
  assert (Forall (fun k => truthy (get {[ "entidad" := JStr EmptyString;
                                          "fecha_fin" := JNull;
                                          "max_registros" := JInt 100 ]} k) = false)
            claves_filtro) as H.
  { unfold claves_filtro, claves_texto. cbn [app].
    repeat (apply List.Forall_cons; [vm_compute; reflexivity|]). apply List.Forall_nil. }
  split; [exact H|]. exact (sin_filtros_sin_predicado _ H).
Defined.

(** ** The paginated fetch, for any endpoint *)

Lemma lookup_snoc_cases {A : Type} (l suf : list A) (x y : A) (n : nat) :
  (l ++ [x] ++ suf) !! n = Some y ->
  (n < length l)%nat /\ l !! n = Some y \/
  n = length l /\ y = x \/
  (length (l ++ [x]) <= n)%nat.
Proof.
  intros H. destruct (lt_eq_lt_dec n (length l)) as [[Hlt| -> ]|Hgt].
  - left. split; [done|]. by rewrite lookup_app_l in H.
  - right. left. split; [done|].
    rewrite lookup_app_r, Nat.sub_diag in H by done. cbn in H. congruence.
  - right. right. rewrite length_app. cbn. lia.
Qed.

Lemma bucle_peticiones fuel get w cap : forall llamadas paginas off total l r,
  bucle fuel get w cap llamadas paginas off total = Some (l, r) ->
  off = limite_por_pagina * Z.of_nat (length llamadas) ->
  limite_por_pagina * Z.of_nat (length llamadas) <= total ->
  (forall n p, llamadas !! n = Some p -> peticion_en_regla w cap n p) ->
  (forall n p, l !! n = Some p -> peticion_en_regla w cap n p) /\
  (l = llamadas \/ limite_por_pagina * (Z.of_nat (length l) - 1) < cap).
Proof.
  induction fuel as [|fuel IH]; intros llamadas paginas off total l r;
    cbn [bucle]; destruct (total <? cap) eqn:E; try discriminate;
    try (intros [= <- <-]; auto).
  apply Z.ltb_lt in E.
  set (actual := mkRequest _ off w).
  intros Hb Hoff Htotal Hprev.
  assert (forall n p, (llamadas ++ [actual]) !! n = Some p -> peticion_en_regla w cap n p)
    as Hnext.
  { intros n p Hl.
    destruct (lookup_snoc_cases llamadas [] actual p n) as [[_ H]|[[-> ->]|H]];
      [by rewrite app_nil_r|by apply Hprev| |].
    - subst actual. unfold peticion_en_regla, limite_por_pagina in *. cbn.
      split; [lia|]. split; [done|lia].
    - apply lookup_lt_Some in Hl. lia. }
  assert (limite_por_pagina * (Z.of_nat (length (llamadas ++ [actual])) - 1) < cap)
    as Hcount by (rewrite length_app; cbn [length]; lia).
  destruct (get (length llamadas) actual) as [falla|response];
    [injection Hb as <- <-; auto|].
  destruct (raise_for_status response); [|injection Hb as <- <-; auto].
  destruct (read_csv response) as [df|]; [|injection Hb as <- <-; auto].
  destruct (pd.empty df); [injection Hb as <- <-; auto|].
  destruct (pd.len df <? limite_por_pagina) eqn:Hshort; [injection Hb as <- <-; auto|].
  apply Z.ltb_ge in Hshort.
  apply IH in Hb as [Hall Hlen]; [|rewrite length_app; cbn [length]; lia..|exact Hnext].
  split; [exact Hall|]. right. destruct Hlen as [->|Hlen]; [exact Hcount|exact Hlen].
Qed.

Lemma descargar_bucle get w cap llamadas r :
  descargar_datos_paginado get w cap = Some (llamadas, r) ->
  exists paginas,
    bucle (turnos cap) get w cap [] [] 0 0 = Some (llamadas, paginas) /\
    r = (todas_las_paginas ← paginas;
         match todas_las_paginas with
         | [] => Return pd.DataFrame_
         | _ => Return (pd.concat todas_las_paginas)
         end).
Proof.
  unfold descargar_datos_paginado.
  destruct (bucle _ _ _ _ _ _ _ _) as [[l paginas]|]; [|discriminate].
  cbn. intros [= <- <-]. by exists paginas.
Qed.

(** X6: whatever the endpoint answers, the download comes to an end and
    issues at most ceil(cap / 10000) requests, none when the cap is zero or
    negative. *)
Theorem descarga_termina_con_pocas_llamadas (get : endpoint) (w : string) (cap : Z) :
  exists llamadas r,
    descargar_datos_paginado get w cap = Some (llamadas, r) /\
    Z.of_nat (length llamadas) <=
      Z.max 0 ((cap + limite_por_pagina - 1) / limite_por_pagina).
Proof.
  destruct (descargar_datos_paginado_total get w cap) as (l & r & Hd).
  exists l, r. split; [exact Hd|].
  apply descargar_bucle in Hd as (paginas & Hb & _).
  apply bucle_peticiones in Hb as [_ [->|Hlen]]; try done; [cbn; lia|].
  unfold limite_por_pagina in *.
  assert (Z.of_nat (length l) <= (cap + 10000 - 1) / 10000); [|lia].
  apply Z.div_le_lower_bound; lia.
Qed.

(** X7: whatever the endpoint answers, call number [n] of a download (from
    0) asks for offset 10000 * n with the predicate unchanged, and for at
    least one row and at most 10000 and at most cap - 10000 * n rows. *)
Theorem peticiones_en_regla (get : endpoint) (w : string) (cap : Z)
    (llamadas : list Request) (r : result DataFrame) (n : nat) (peticion : Request) :
  descargar_datos_paginado get w cap = Some (llamadas, r) ->
  llamadas !! n = Some peticion ->
  peticion_en_regla w cap n peticion.
Proof.
  intros Hd Hl. apply descargar_bucle in Hd as (paginas & Hb & _).
  apply bucle_peticiones in Hb as [Hall _]; try done. by apply Hall.
Qed.

Lemma descarga_de_muestra_tabla :
  exists df,
    descargar_datos_paginado fuente_llena "estado = 'Abierto'" 15000 =
    Some ([mkRequest 10000 0 "estado = 'Abierto'";
           mkRequest 5000 10000 "estado = 'Abierto'"], Return df).
Proof. eexists. vm_compute. reflexivity. Qed.

Lemma peticiones_en_regla_witness :
  exists r,
    descargar_datos_paginado fuente_llena "estado = 'Abierto'" 15000 =
      Some ([mkRequest 10000 0 "estado = 'Abierto'";
             mkRequest 5000 10000 "estado = 'Abierto'"], r) /\
    [mkRequest 10000 0 "estado = 'Abierto'";
     mkRequest 5000 10000 "estado = 'Abierto'"] !! 1%nat =
      Some (mkRequest 5000 10000 "estado = 'Abierto'") /\
    peticion_en_regla "estado = 'Abierto'" 15000 1
      (mkRequest 5000 10000 "estado = 'Abierto'").
Proof.
  destruct descarga_de_muestra_tabla as [df Hr]. exists (Return df).
  split; [exact Hr|]. split; [reflexivity|].
  exact (peticiones_en_regla _ _ _ _ _ 1%nat _ Hr eq_refl).
Defined.

(** The request that gets a short page, an empty page or a body that does
    not parse is the last one. *)
Lemma bucle_ultima fuel get w cap : forall llamadas paginas off total l r n peticion response,
  bucle fuel get w cap llamadas paginas off total = Some (l, r) ->
  (length llamadas <= n)%nat ->
  l !! n = Some peticion ->
  get n peticion = inr response ->
  raise_for_status response = Return tt ->
  match csv response with
  | None => r = Raise ParserError /\ length l = S n
  | Some df =>
      pd.empty df = true \/ pd.len df < limite_por_pagina ->
      (exists paginas', r = Return paginas') /\ length l = S n
  end.
Proof.
  induction fuel as [|fuel IH];
    intros llamadas paginas off total l r n peticion response;
    cbn [bucle]; destruct (total <? cap); try discriminate;
    try (intros [= <- <-] Hn Hl; apply lookup_lt_Some in Hl; lia).
  set (actual := mkRequest _ off w).
  assert ((length llamadas <= n)%nat ->
          (llamadas ++ [actual]) !! n = Some peticion ->
          n = length llamadas /\ peticion = actual /\
          length (llamadas ++ [actual]) = S n) as Hlast.
  { intros Hn Hl.
    destruct (lookup_snoc_cases llamadas [] actual peticion n) as [[H _]|[[-> ->]|H]];
      [by rewrite app_nil_r|lia| |].
    - rewrite length_app. cbn. repeat split; lia.
    - apply lookup_lt_Some in Hl. lia. }
  destruct (get (length llamadas) actual) as [falla|response0] eqn:Hresp0.
  { intros [= <- <-] Hn Hl. destruct (Hlast Hn Hl) as (-> & -> & _). congruence. }
  destruct (raise_for_status response0) as [[]|e] eqn:Hst.
  2:{ intros [= <- <-] Hn Hl. destruct (Hlast Hn Hl) as (-> & -> & _). congruence. }
  unfold read_csv. destruct (csv response0) as [df|] eqn:Hcsv.
  2:{ intros [= <- <-] Hn Hl. destruct (Hlast Hn Hl) as (-> & -> & Hlen).
      rewrite Hresp0. intros [= <-] _. by rewrite Hcsv. }
  destruct (pd.empty df) eqn:Hempty.
  { intros [= <- <-] Hn Hl. destruct (Hlast Hn Hl) as (-> & -> & Hlen).
    rewrite Hresp0. intros [= <-] _. rewrite Hcsv. eauto. }
  destruct (pd.len df <? limite_por_pagina) eqn:Hshort.
  { intros [= <- <-] Hn Hl. destruct (Hlast Hn Hl) as (-> & -> & Hlen).
    rewrite Hresp0. intros [= <-] _. rewrite Hcsv. eauto. }
  intros Hb Hn Hl.
  destruct (bucle_extends _ _ _ _ _ _ _ _ _ _ Hb) as [suf ->].
  rewrite <- app_assoc in Hl.
  destruct (lookup_snoc_cases llamadas suf actual peticion n Hl) as [[H _]|[[-> ->]|H]];
    [lia| |].
  - rewrite Hresp0. intros [= <-] _. rewrite Hcsv. apply Z.ltb_ge in Hshort.
    intros [?|?]; [congruence|lia].
  - rewrite app_assoc in Hl. exact (IH _ _ _ _ _ _ _ _ _ Hb H Hl).
Qed.

(** The pages the loop returns are the non-empty pages it was served, and
    every call of a download that returns was answered. *)
Lemma bucle_exito fuel get w cap : forall llamadas paginas off total l ps,
  bucle fuel get w cap llamadas paginas off total = Some (l, Return ps) ->
  paginas = no_vacias (paginas_servidas get llamadas) ->
  (forall n p, llamadas !! n = Some p -> atendida get n p) ->
  ps = no_vacias (paginas_servidas get l) /\
  (forall n p, l !! n = Some p -> atendida get n p).
Proof.
  induction fuel as [|fuel IH]; intros llamadas paginas off total l ps;
    cbn [bucle]; destruct (total <? cap); try discriminate;
    try (intros [= <- <-]; auto).
  set (actual := mkRequest _ off w).
  destruct (get (length llamadas) actual) as [falla|response] eqn:Hresp; [discriminate|].
  destruct (raise_for_status response) as [[]|e] eqn:Hst; [|discriminate].
  unfold read_csv. destruct (csv response) as [df|] eqn:Hcsv; [|discriminate].
  intros Hb Hkept Hprev.
  assert (pagina get (length llamadas) actual = df) as Hpag
    by (unfold pagina; rewrite Hresp, Hcsv; reflexivity).
  assert (no_vacias (paginas_servidas get (llamadas ++ [actual])) =
          paginas ++ (if pd.empty df then [] else [df])) as Hkept'
    by (by rewrite paginas_servidas_snoc, no_vacias_snoc, Hpag, Hkept).
  assert (forall n p, (llamadas ++ [actual]) !! n = Some p -> atendida get n p) as Hnext.
  { intros n p Hl.
    destruct (lookup_snoc_cases llamadas [] actual p n) as [[_ H]|[[-> ->]|H]];
      [by rewrite app_nil_r|by apply Hprev| |].
    - by exists response, df.
    - apply lookup_lt_Some in Hl. lia. }
  destruct (pd.empty df) eqn:Hempty.
  { injection Hb as <- <-. by rewrite Hkept', app_nil_r. }
  destruct (pd.len df <? limite_por_pagina).
  { injection Hb as <- <-. by rewrite Hkept'. }
  by apply IH in Hb.
Qed.

(** X8: a request answered with a status that does not raise ends the
    download when its page has no rows or no columns, or fewer than 10000
    rows: it is the last request and a table is returned; when its body does
    not parse, it is the last request and [ParserError] is raised. *)
Theorem pagina_corta_termina (get : endpoint) (w : string) (cap : Z)
    (llamadas : list Request) (r : result DataFrame) (n : nat) (peticion : Request)
    (response : Response) :
  descargar_datos_paginado get w cap = Some (llamadas, r) ->
  llamadas !! n = Some peticion ->
  get n peticion = inr response ->
  raise_for_status response = Return tt ->
  match csv response with
  | None => r = Raise ParserError /\ length llamadas = S n
  | Some df =>
      pd.empty df = true \/ pd.len df < limite_por_pagina ->
      (exists tabla, r = Return tabla) /\ length llamadas = S n
  end.
Proof.
  intros Hd Hl Hresp Hok. apply descargar_bucle in Hd as (paginas & Hb & ->).
  pose proof (bucle_ultima _ _ _ _ _ _ _ _ _ _ n _ _ Hb ltac:(cbn; lia) Hl Hresp Hok) as H.
  destruct (csv response) as [df|].
  - intros Hshort. destruct (H Hshort) as [[ps ->] Hlen]. split; [|done].
    destruct ps; cbn; eauto.
  - destruct H as [-> Hlen]. by split.
Qed.

(** X9: a download that returns a table had every one of its requests
    answered with a status that does not raise and a body that parses, and
    the table has as many rows as the non-empty pages served taken together:
    no page is cut, also when the source sends more rows than asked for. *)
Theorem descarga_sin_recortes (get : endpoint) (w : string) (cap : Z)
    (llamadas : list Request) (df : DataFrame) :
  descargar_datos_paginado get w cap = Some (llamadas, Return df) ->
  (forall n peticion, llamadas !! n = Some peticion -> atendida get n peticion) /\
  pd.len df =
    Z.of_nat (length (concat (map data (no_vacias (paginas_servidas get llamadas))))).
Proof.
  intros Hd. apply descargar_bucle in Hd as (paginas & Hb & Hr).
  destruct paginas as [ps|e]; [|discriminate].
  apply bucle_exito in Hb as [-> Hall]; [|done..].
  split; [exact Hall|].
  cbn in Hr. destruct (no_vacias _) as [|p ps] eqn:Hps.
  - by injection Hr as ->.
  - injection Hr as ->. apply concat_len.
Qed.

Lemma pagina_corta_termina_witness :
  exists df,
    descargar_datos_paginado fuente_llena "estado = 'Abierto'" 15000 =
      Some ([mkRequest 10000 0 "estado = 'Abierto'";
             mkRequest 5000 10000 "estado = 'Abierto'"], Return df) /\
    raise_for_status (mkResponse 200 "id,name"
                        (Some (mkDataFrame ["id"; "name"] (replicate 5000 fila_muestra)))) =
      Return tt /\
    pd.len (mkDataFrame ["id"; "name"] (replicate 5000 fila_muestra)) < limite_por_pagina /\
    (exists tabla, Return df = Return tabla) /\
    length [mkRequest 10000 0 "estado = 'Abierto'";
            mkRequest 5000 10000 "estado = 'Abierto'"] = 2%nat.
Proof.
  destruct descarga_de_muestra_tabla as [df Hdf]. exists df.
  assert (pd.len (mkDataFrame ["id"; "name"] (replicate 5000 fila_muestra))
          < limite_por_pagina) as Hshort by (vm_compute; reflexivity).
  split; [exact Hdf|]. split; [reflexivity|]. split; [exact Hshort|].
  exact (pagina_corta_termina fuente_llena _ _ _ _ 1%nat
           (mkRequest 5000 10000 "estado = 'Abierto'") _ Hdf eq_refl eq_refl eq_refl
           (or_intror Hshort)).
Defined.

Lemma descarga_sin_recortes_witness :
  exists df,
    descargar_datos_paginado fuente_llena "estado = 'Abierto'" 15000 =
      Some ([mkRequest 10000 0 "estado = 'Abierto'";
             mkRequest 5000 10000 "estado = 'Abierto'"], Return df) /\
    (forall n peticion,
       [mkRequest 10000 0 "estado = 'Abierto'";
        mkRequest 5000 10000 "estado = 'Abierto'"] !! n = Some peticion ->
       atendida fuente_llena n peticion) /\
    pd.len df =
      Z.of_nat (length (concat (map data (no_vacias (paginas_servidas fuente_llena
        [mkRequest 10000 0 "estado = 'Abierto'";
         mkRequest 5000 10000 "estado = 'Abierto'"]))))).
Proof.
  destruct descarga_de_muestra_tabla as [df Hdf]. exists df.
  split; [exact Hdf|]. exact (descarga_sin_recortes _ _ _ _ _ Hdf).
Defined.

(** ** The address and the request handler *)

Lemma list_ascii_of_string_app (a b : string) :
  list_ascii_of_string (a +:+ b) = list_ascii_of_string a ++ list_ascii_of_string b.
Proof.
  induction a as [|c a IH]; [done|].
  change (String c a +:+ b) with (String c (a +:+ b)). cbn. f_equal. exact IH.
Qed.

Lemma quote_char_url (c : ascii) :
  forallb caracter_de_url (list_ascii_of_string (urllib.quote_char c)) = true.
Proof. destruct c as [[] [] [] [] [] [] [] []]; vm_compute; reflexivity. Qed.

Lemma append_vacio_r (s : string) : s +:+ EmptyString = s.
Proof.
  induction s as [|c s IH]; [done|].
  change (String c s +:+ EmptyString) with (String c (s +:+ EmptyString)).
  f_equal. exact IH.
Qed.

(** X10: in the address of a request the predicate appears percent-encoded:
    the value of [$where] holds only letters, digits, [_.-~/] and escapes
    starting with a percent sign, so no character of the predicate can end
    the parameter or start another one. *)
Theorem predicado_codificado (w : string) :
  forallb caracter_de_url (list_ascii_of_string (urllib.quote w)) = true /\
  forall l o,
    url (mkRequest l o w) =
    BASE_URL +:+ "?" +:+
      ("$limit=" +:+ Py.str_int l +:+ "&$offset=" +:+ Py.str_int o) +:+ parametro_where w.
Proof.
  split.
  - induction w as [|c w IH]; [done|]. cbn [urllib.quote].
    by rewrite list_ascii_of_string_app, forallb_app, quote_char_url, IH.
  - intros l o. unfold url, parametro_where. cbn [limit offset where_].
    destruct (Py.nonempty w); [reflexivity|]. by rewrite append_vacio_r.
Qed.

(** X11: [handle_query] always answers, and with one of the statuses 200,
    403, 404, 500 and 502; past the expiry date the answer is the 403
    message whatever the payload; an answer with status 200 is the workbook
    rendered from a non-empty table that the download returned for the
    predicate and the cap of the payload, named
    [secop2_reporte_<timestamp>.xlsx]. *)
Theorem handle_query_responde (now : nat -> datetime) (get : endpoint)
    (filtros : gmap string json) :
  exists response,
    handle_query now get filtros = Some response /\
    In (status response) [200; 403; 404; 500; 502] /\
    (datetime_gt (now 0%nat) fecha_limite = true -> response = jsonify mensaje_403 403) /\
    (status response = 200 ->
     exists w cap llamadas df ws,
       construir_consulta_where filtros = Return w /\
       int (get_default filtros "max_registros" (JInt 50000)) = Return cap /\
       descargar_datos_paginado get w cap = Some (llamadas, Return df) /\
       pd.empty df = false /\
       crear_excel_en_memoria df = Return ws /\
       response =
         send_file ws ("secop2_reporte_" +:+ strftime (now 1%nat) +:+ ".xlsx") xlsx).
Proof.
  unfold handle_query, consulta. fold fecha_limite.
  destruct (datetime_gt _ _) eqn:Hgate.
  { eexists. split; [reflexivity|]. cbn. split; [tauto|]. split; [done|discriminate]. }
  destruct (construir_consulta_where filtros) as [w|e].
  2:{ cbn. destruct e; eexists; (split; [reflexivity|]); cbn;
        (split; [tauto|]); (split; discriminate). }
  destruct (int _) as [cap|e].
  2:{ cbn. destruct e; eexists; (split; [reflexivity|]); cbn;
        (split; [tauto|]); (split; discriminate). }
  destruct (descargar_datos_paginado_total get w cap) as (l & r & Hd).
  rewrite Hd. cbn.
  destruct r as [df|e]; cbn.
  2:{ destruct e; eexists; (split; [reflexivity|]); cbn;
        (split; [tauto|]); (split; discriminate). }
  destruct (pd.empty df) eqn:Hempty; cbn.
  { eexists. split; [reflexivity|]. cbn. split; [tauto|]. split; discriminate. }
  destruct (crear_excel_en_memoria df) as [ws|e] eqn:Hws; cbn.
  2:{ destruct e; eexists; (split; [reflexivity|]); cbn;
        (split; [tauto|]); (split; discriminate). }
  eexists. split; [reflexivity|]. cbn. split; [tauto|]. split; [discriminate|].
  intros _. exists w, cap, l, df, ws. repeat split; first [assumption|reflexivity].
Qed.

Lemma get_insert_ne (filtros : gmap string json) k k' v :
  k <> k' -> get (<[k := v]> filtros) k' = get filtros k'.
Proof. intros H. unfold get. by rewrite lookup_insert_ne. Qed.

(** X12: a payload without the key [max_registros] is answered as the same
    payload with [max_registros] set to 50000. *)
Theorem tope_por_omision (now : nat -> datetime) (get : endpoint)
    (filtros : gmap string json) :
  filtros !! "max_registros" = None ->
  handle_query now get filtros =
  handle_query now get (<["max_registros" := JInt 50000]> filtros).
Proof.
  intros Hnone. unfold handle_query, consulta.
  rewrite (construir_igual (<["max_registros" := JInt 50000]> filtros) filtros).
  2:{ intros k Hk. unfold efectivo. rewrite get_insert_ne; [done|].
      intros <-. revert Hk. unfold claves_filtro, claves_texto. cbn [app].
      rewrite !elem_of_cons, elem_of_nil. intros H.
      repeat (destruct H as [H|H]; [discriminate|]). done. }
  unfold get_default. by rewrite Hnone, lookup_insert_eq.
Qed.

Lemma tope_por_omision_witness :
  ({[ "entidad" := JStr "Bogota" ]} : gmap string json) !! "max_registros" = None /\
  handle_query reloj fuente_vacia {[ "entidad" := JStr "Bogota" ]} =
  handle_query reloj fuente_vacia
    (<["max_registros" := JInt 50000]> {[ "entidad" := JStr "Bogota" ]}).
Proof.
  assert (({[ "entidad" := JStr "Bogota" ]} : gmap string json) !! "max_registros" = None)
    as H by (vm_compute; reflexivity).
  split; [exact H|]. exact (tope_por_omision reloj fuente_vacia _ H).
Defined.

(** X13: a payload whose [max_registros] is [null] does not get the default
    cap: before the expiry date it is answered with the 500 message,
    whatever the other filters and the endpoint. *)
Theorem tope_nulo_es_error (now : nat -> datetime) (get : endpoint)
    (filtros : gmap string json) :
  datetime_gt (now 0%nat) fecha_limite = false ->
  filtros !! "max_registros" = Some JNull ->
  handle_query now get filtros = Some (jsonify mensaje_500 500).
Proof.
  intros Hgate Hnull. unfold handle_query, consulta. fold fecha_limite.
  rewrite Hgate. unfold get_default. rewrite Hnull.
  destruct (construir_consulta_where filtros) as [w|e] eqn:Hw; cbn; [reflexivity|].
  by rewrite (construir_raise _ _ Hw).
Qed.

Lemma tope_nulo_es_error_witness :
  datetime_gt (reloj 0%nat) fecha_limite = false /\
  ({[ "max_registros" := JNull ]} : gmap string json) !! "max_registros" = Some JNull /\
  handle_query reloj fuente_llena {[ "max_registros" := JNull ]} =
    Some (jsonify mensaje_500 500).
Proof.
  assert (({[ "max_registros" := JNull ]} : gmap string json) !! "max_registros"
          = Some JNull) as H by (vm_compute; reflexivity).
  split; [reflexivity|]. split; [exact H|].
  exact (tope_nulo_es_error reloj fuente_llena _ eq_refl H).
Defined.

(** ** The workbook, for any table *)

Lemma bind_value_guardado v v' :
  openpyxl.bind_value v = Return v' -> v' = guardado v.
Proof.
  destruct v as [| |b|n|s]; unfold openpyxl.bind_value, guardado;
    try (intros [= <-]; reflexivity).
  unfold openpyxl.check_string. generalize (Py.prefix 32767 s). intros p.
  destruct (existsb _ _); cbn [mbind result_bind]; [discriminate|].
  intros [= <-]. reflexivity.
Qed.

Lemma bind_value_limpio v :
  openpyxl.bind_value v =
  if limpio v then Return (guardado v) else Raise IllegalCharacterError.
Proof.
  destruct v as [| |b|n|s]; try reflexivity.
  unfold openpyxl.bind_value, limpio, guardado, openpyxl.check_string.
  generalize (Py.prefix 32767 s). intros p.
  destruct (existsb _ _); reflexivity.
Qed.

Lemma guardados_lookup row vals c :
  guardados row vals -> default VNone (vals !! c) = guardado (nth c row VNone).
Proof.
  intros Hg. rewrite nth_lookup. destruct (row !! c) as [v|] eqn:Hv.
  - destruct (Forall2_lookup_l _ _ _ _ _ Hg Hv) as (v' & -> & Hb). cbn.
    by apply bind_value_guardado.
  - apply lookup_ge_None in Hv. rewrite (Forall2_length _ _ _ Hg) in Hv.
    apply lookup_ge_None in Hv. by rewrite Hv.
Qed.

Lemma valor_hoja df ws2 ws3 row col :
  openpyxl.append hoja_titulo (map VStr (columns df)) = Return ws2 ->
  for_each openpyxl.append ws2 (dataframe_to_rows df) = Return ws3 ->
  valor ws3 row col = contenido df row col.
Proof.
  intros H2 H3.
  destruct (celdas_hoja df ws2 ws3 H2 H3) as (hvals & valss & Hh & Hv & Hcells).
  unfold valor, contenido. rewrite Hcells.
  destruct (col =? 0)%nat eqn:Ec.
  { apply Nat.eqb_eq in Ec. subst col.
    repeat case_decide; try lia; try reflexivity.
    - destruct (valss !! _); [by rewrite decide_False by lia|].
      rewrite celdas_titulo_lookup. by repeat case_decide; try lia.
    - rewrite celdas_titulo_lookup. by repeat case_decide; try lia. }
  apply Nat.eqb_neq in Ec.
  destruct (row =? 1)%nat eqn:E1.
  { apply Nat.eqb_eq in E1. subst row.
    rewrite decide_False by lia. rewrite decide_False by lia.
    rewrite celdas_titulo_lookup.
    destruct (col =? 1)%nat eqn:Ec1.
    - apply Nat.eqb_eq in Ec1. subst. by rewrite decide_True.
    - apply Nat.eqb_neq in Ec1. rewrite decide_False by lia. by case_decide. }
  apply Nat.eqb_neq in E1.
  destruct (row =? 2)%nat eqn:E2.
  { apply Nat.eqb_eq in E2. subst row. rewrite decide_True by done.
    rewrite <- (guardados_lookup _ _ (col - 1) Hh).
    case_decide.
    - by destruct (hvals !! (col - 1)%nat).
    - by rewrite lookup_ge_None_2 by lia. }
  apply Nat.eqb_neq in E2. rewrite decide_False by done.
  destruct (3 <=? row)%nat eqn:E3.
  - apply Nat.leb_le in E3. rewrite decide_True by lia.
    rewrite (nth_lookup (data df)).
    destruct (data df !! (row - 3)%nat) as [fila_|] eqn:Hrow.
    + destruct (Forall2_lookup_l _ _ _ _ _ Hv Hrow) as (vals & -> & Hg). cbn.
      rewrite <- (guardados_lookup _ _ (col - 1) Hg).
      case_decide.
      * by destruct (vals !! (col - 1)%nat).
      * by rewrite lookup_ge_None_2 by lia.
    + apply lookup_ge_None in Hrow. rewrite (Forall2_length _ _ _ Hv) in Hrow.
      apply lookup_ge_None in Hrow. rewrite Hrow.
      rewrite celdas_titulo_lookup. repeat case_decide; try lia.
      cbn. by destruct (col - 1)%nat.
  - apply Nat.leb_gt in E3. rewrite decide_False by lia.
    rewrite celdas_titulo_lookup. by repeat case_decide; try lia.
Qed.

(** X14: the sheet rendered from a table holds, at every position, the
    caption in A1, the column labels on row 2 from column A on, row [i] of
    the table on row [3 + i] in column order, and nothing anywhere else; the
    values are those of the table, a text longer than 32767 characters being
    cut to its first 32767. *)
Theorem hoja_contenido (df : DataFrame) (ws : openpyxl.Worksheet) (row col : nat) :
  crear_excel_en_memoria df = Return ws ->
  valor ws row col = contenido df row col.
Proof.
  intros H.
  apply crear_excel_spec in H as (ws2 & ws3 & tab & ws4 & H2 & H3 & H & Hsave & _).
  apply ajustar_todas_conserva in H.
  destruct (conserva_trans _ _ _ H Hsave) as (_ & _ & _ & _ & _ & Hvalor).
  rewrite Hvalor. exact (valor_hoja df ws2 ws3 row col H2 H3).
Qed.

Lemma hoja_contenido_witness :
  exists ws,
    crear_excel_en_memoria df6 = Return ws /\
    valor ws 4 2 = contenido df6 4 2 /\
    contenido df6 4 2 = VStr "Beta".
Proof.
  destruct crear_excel_df6 as [ws Hws]. exists ws. split; [exact Hws|].
  split; [exact (hoja_contenido df6 ws 4 2 Hws)|reflexivity].
Defined.

Lemma max_list_cota (l : list nat) (R : nat) :
  Forall (fun n => (n <= R)%nat) l -> (max_list l <= R)%nat.
Proof. induction 1; cbn; lia. Qed.

Lemma max_row_le ws R :
  (1 <= R)%nat ->
  (forall r c, is_Some (openpyxl._cells ws !! (r, c)) -> (r <= R)%nat) ->
  (openpyxl.max_row ws <= R)%nat.
Proof.
  intros HR Hall. unfold openpyxl.max_row.
  destruct ((map_to_list (openpyxl._cells ws)).*1.*1) as [|r0 rows] eqn:E; [done|].
  rewrite <- E. apply max_list_cota, Forall_forall. intros r Hr.
  apply list_elem_of_fmap in Hr as (p & -> & Hr).
  apply list_elem_of_fmap in Hr as ([[r' c] x] & -> & Hr).
  apply elem_of_map_to_list in Hr. apply (Hall r' c). by exists x.
Qed.

Lemma max_column_le ws R :
  (1 <= R)%nat ->
  (forall r c, is_Some (openpyxl._cells ws !! (r, c)) -> (c <= R)%nat) ->
  (openpyxl.max_column ws <= R)%nat.
Proof.
  intros HR Hall. unfold openpyxl.max_column.
  destruct ((map_to_list (openpyxl._cells ws)).*1.*2) as [|c0 cols] eqn:E; [done|].
  rewrite <- E. apply max_list_cota, Forall_forall. intros c Hc.
  apply list_elem_of_fmap in Hc as (p & -> & Hc).
  apply list_elem_of_fmap in Hc as ([[r c'] x] & -> & Hc).
  apply elem_of_map_to_list in Hc. apply (Hall r c'). by exists x.
Qed.

Section Bordes.

Variables (df : DataFrame) (ws2 ws3 : openpyxl.Worksheet).
Hypothesis Hheader : openpyxl.append hoja_titulo (map VStr (columns df)) = Return ws2.
Hypothesis Hrows : for_each openpyxl.append ws2 (dataframe_to_rows df) = Return ws3.

(** Where the sheet has cells. *)
Lemma celda_presente r c :
  is_Some (openpyxl._cells ws3 !! (r, c)) <->
  (r = 1 /\ 1 <= c <= 10)%nat \/
  (r = 2 /\ 1 <= c <= length (columns df))%nat \/
  (exists fila_, data df !! (r - 3)%nat = Some fila_ /\ 3 <= r /\ 1 <= c <= length fila_)%nat.
Proof.
  destruct (celdas_hoja df ws2 ws3 Hheader Hrows) as (hvals & valss & Hh & Hv & Hcells).
  pose proof (Forall2_length _ _ _ Hh) as Hlen. rewrite length_map in Hlen.
  rewrite Hcells. destruct (decide (r = 2%nat)) as [->|Hr2].
  { case_decide.
    - split; [intros _; right; left; lia|intros _].
      apply fmap_is_Some, lookup_lt_is_Some. lia.
    - split; [by intros [? ?]|]. intros [H'|[H'|(f & _ & H' & _)]]; lia. }
  destruct (decide (2 < r)%nat) as [Hr|Hr].
  - destruct (valss !! (r - 3)%nat) as [vals|] eqn:Hvals.
    + destruct (Forall2_lookup_r _ _ _ _ _ Hv Hvals) as (f & Hf & Hg).
      pose proof (Forall2_length _ _ _ Hg) as Hlenf.
      case_decide.
      * split; [intros _; right; right; exists f; split; [done|lia]|intros _].
        apply fmap_is_Some, lookup_lt_is_Some. lia.
      * split; [by intros [? ?]|]. intros [H'|[H'|(f' & Hf' & H' & Hc)]]; try lia.
        rewrite Hf in Hf'. injection Hf' as <-. lia.
    + rewrite celdas_titulo_lookup. rewrite !decide_False by lia.
      split; [by intros [? ?]|]. intros [H'|[H'|(f' & Hf' & H' & Hc)]]; try lia.
      apply lookup_ge_None in Hvals. rewrite <- (Forall2_length _ _ _ Hv) in Hvals.
      apply lookup_lt_Some in Hf'. lia.
  - rewrite celdas_titulo_lookup. split.
    + repeat case_decide; try (by intros [? ?]); intros _; left; lia.
    + intros [H'|[H'|(f' & Hf' & H' & Hc)]]; try lia.
      repeat case_decide; try done. lia.
Qed.

Hypothesis Hcols : columns df <> [].
Hypothesis Hwf : Forall (fun row => length row = length (columns df)) (data df).

Lemma hoja_max_row : openpyxl.max_row ws3 = (2 + length (data df))%nat.
Proof.
  assert (1 <= length (columns df))%nat as Hn
    by (destruct (columns df); [done|cbn; lia]).
  apply Nat.le_antisymm.
  - apply max_row_le; [lia|]. intros r c Hrc.
    apply celda_presente in Hrc as [H|[H|(f & Hf & H & _)]]; try lia.
    apply lookup_lt_Some in Hf. lia.
  - apply (max_row_ge ws3 _ 1). apply celda_presente.
    destruct (decide (length (data df) = 0%nat)) as [H0|H0]; [right; left; lia|].
    destruct (lookup_lt_is_Some_2 (data df) (length (data df) - 1)) as [f Hf]; [lia|].
    right. right. exists f.
    replace (2 + length (data df) - 3)%nat with (length (data df) - 1)%nat by lia.
    split; [done|]. pose proof (Forall_lookup_1 _ _ _ _ Hwf Hf) as Hlen.
    cbn in Hlen. lia.
Qed.

Lemma hoja_max_column : openpyxl.max_column ws3 = Nat.max 10 (length (columns df)).
Proof.
  apply Nat.le_antisymm.
  - apply max_column_le; [lia|]. intros r c Hrc.
    apply celda_presente in Hrc as [H|[H|(f & Hf & H & Hc)]]; try lia.
    pose proof (Forall_lookup_1 _ _ _ _ Hwf Hf) as Hlen. cbn in Hlen. lia.
  - apply Nat.max_lub.
    + apply (max_column_ge ws3 1). apply celda_presente. lia.
    + assert (1 <= length (columns df))%nat as Hn
        by (destruct (columns df); [done|cbn; lia]).
      apply (max_column_ge ws3 2). apply celda_presente. right. left. lia.
Qed.

End Bordes.

(** X15: for a table with at least one column whose rows are as long as its
    label list, the sheet is titled [Datos SECOP2] and has exactly one
    registered table, [TablaDatos] with style [TableStyleMedium9] and row
    stripes, whose region runs from A2 to the last data row (2 + number of
    rows) and to the column of the larger of 10 and the number of columns. *)
Theorem region_de_la_tabla (df : DataFrame) (ws : openpyxl.Worksheet) :
  crear_excel_en_memoria df = Return ws ->
  columns df <> [] ->
  Forall (fun row => length row = length (columns df)) (data df) ->
  exists letter,
    openpyxl.get_column_letter (Nat.max 10 (length (columns df))) = Return letter /\
    openpyxl.tables ws = [tabla_datos letter (2 + length (data df))] /\
    openpyxl.title ws = "Datos SECOP2".
Proof.
  intros H Hcols Hwf. unfold crear_excel_en_memoria in H.
  rewrite poner_titulo_hoja in H. cbn [mbind result_bind] in H.
  destruct (llenar_hoja df hoja_titulo) as [ws4|] eqn:H4; cbn [mbind result_bind] in H;
    [|discriminate].
  apply save_spec in H as [Hsave _].
  apply llenar_hoja_spec in H4 as (ws2 & ws3 & letter & tab & H2 & H3 & Hl & -> & H4).
  rewrite (sheet_current_row df ws2 ws3 H2 H3) in H4. cbn [Nat.add Nat.eqb] in H4.
  apply ajustar_todas_conserva in H4.
  destruct (conserva_trans _ _ _ H4 Hsave) as (Htitle & _ & _ & Htables & _).
  destruct (sheet_mismo_marco df ws2 ws3 H2 H3) as (Ht3 & _ & _ & _ & Htab3).
  rewrite (hoja_max_column df ws2 ws3 H2 H3 Hcols Hwf) in Hl.
  rewrite (hoja_max_row df ws2 ws3 H2 H3 Hcols Hwf) in Htables.
  exists letter. split; [exact Hl|]. split.
  - rewrite Htables. cbn [openpyxl.tables openpyxl.add_table]. rewrite Htab3. reflexivity.
  - rewrite Htitle. cbn [openpyxl.title openpyxl.add_table]. by rewrite Ht3.
Qed.

Lemma region_de_la_tabla_witness :
  exists ws,
    crear_excel_en_memoria df6 = Return ws /\
    columns df6 <> [] /\
    Forall (fun row => length row = length (columns df6)) (data df6) /\
    exists letter,
      openpyxl.get_column_letter (Nat.max 10 (length (columns df6))) = Return letter /\
      openpyxl.tables ws = [tabla_datos letter (2 + length (data df6))] /\
      openpyxl.title ws = "Datos SECOP2".
Proof.
  destruct crear_excel_df6 as [ws Hws]. exists ws.
  assert (columns df6 <> []) as Hc by discriminate.
  assert (Forall (fun row => length row = length (columns df6)) (data df6)) as Hwf
    by (repeat (apply List.Forall_cons; [reflexivity|]); apply List.Forall_nil).
  split; [exact Hws|]. split; [exact Hc|]. split; [exact Hwf|].
  exact (region_de_la_tabla df6 ws Hws Hc Hwf).
Defined.

(** *** When the rendering fails *)

Lemma Cell_limpio v :
  openpyxl.Cell v =
  if limpio v then Return (celda (guardado v)) else Raise IllegalCharacterError.
Proof.
  unfold openpyxl.Cell. rewrite bind_value_limpio. by destruct (limpio v).
Qed.

Lemma llenar_fila_limpia row_idx : forall row k ws,
  match for_each (fun ws '(col_idx, content) =>
                    c ← openpyxl.Cell content; Return (openpyxl.put ws row_idx col_idx c))
          ws (zip (seq k (length row)) row) with
  | Return _ => forallb limpio row = true
  | Raise e => e = IllegalCharacterError /\ forallb limpio row = false
  end.
Proof.
  induction row as [|v row IH]; intros k ws; cbn [length seq zip_with for_each forallb].
  - reflexivity.
  - rewrite Cell_limpio. destruct (limpio v); cbn [mbind result_bind andb]; [|done].
    apply IH.
Qed.

Lemma append_limpio ws row :
  match openpyxl.append ws row with
  | Return _ => forallb limpio row = true
  | Raise e => e = IllegalCharacterError /\ forallb limpio row = false
  end.
Proof.
  unfold openpyxl.append.
  pose proof (llenar_fila_limpia (S (openpyxl._current_row ws)) row 1 ws) as H.
  by destruct (for_each _ ws _).
Qed.

Lemma append_all_limpio : forall rows ws,
  match for_each openpyxl.append ws rows with
  | Return _ => forallb (forallb limpio) rows = true
  | Raise e => e = IllegalCharacterError /\ forallb (forallb limpio) rows = false
  end.
Proof.
  induction rows as [|row rows IH]; intros ws; cbn [for_each forallb]; [reflexivity|].
  pose proof (append_limpio ws row) as H.
  destruct (openpyxl.append ws row) as [ws1|e]; cbn [mbind result_bind].
  - rewrite H. apply IH.
  - destruct H as [-> ->]. done.
Qed.

(** The first cell that is refused stops the rendering. *)
Lemma crear_excel_sucio (df : DataFrame) :
  tabla_limpia df = false ->
  crear_excel_en_memoria df = Raise IllegalCharacterError.
Proof.
  unfold tabla_limpia, crear_excel_en_memoria. rewrite poner_titulo_hoja.
  cbn [mbind result_bind]. unfold llenar_hoja, dataframe_to_rows.
  pose proof (append_limpio hoja_titulo (map VStr (columns df))) as H2.
  destruct (openpyxl.append hoja_titulo _) as [ws2|e]; cbn [mbind result_bind].
  2:{ by destruct H2 as [-> _]. }
  pose proof (append_all_limpio (data df) ws2) as H3.
  destruct (for_each openpyxl.append ws2 _) as [ws3|e]; cbn [mbind result_bind].
  2:{ by destruct H3 as [-> _]. }
  rewrite H2, H3. discriminate.
Qed.

(** X16: when a column label or a cell of the downloaded table has a control
    character among the characters a cell would keep, rendering raises
    [IllegalCharacterError] and the request is answered with the 500
    message: no workbook is sent. *)
Theorem caracter_de_control_impide_el_libro (now : nat -> datetime) (get : endpoint)
    (filtros : gmap string json) (w : string) (cap : Z) (llamadas : list Request)
    (df : DataFrame) :
  llega_a_descarga now filtros w cap ->
  descargar_datos_paginado get w cap = Some (llamadas, Return df) ->
  pd.empty df = false ->
  tabla_limpia df = false ->
  crear_excel_en_memoria df = Raise IllegalCharacterError /\
  handle_query now get filtros = Some (jsonify mensaje_500 500).
Proof.
  intros (Hgate & Hw & Hcap) Hd Hempty Hdirty.
  pose proof (crear_excel_sucio df Hdirty) as Hx. split; [exact Hx|].
  unfold handle_query, consulta. fold fecha_limite.
  rewrite Hgate, Hw, Hcap, Hd. cbn [mbind option_bind result_bind].
  rewrite Hempty, Hx. reflexivity.
Qed.

(** *** When the rendering succeeds *)

Lemma cell_at_ok ws row col :
  (1 <= row)%nat -> Z.of_nat row <= 1048576 -> (1 <= col)%nat ->
  exists ws' x, openpyxl.cell_at ws row col = Return (ws', x).
Proof.
  intros Hr Hr' Hc. unfold openpyxl.cell_at.
  replace ((1 <=? Z.of_nat row) && (Z.of_nat row <=? 1048576) && (1 <=? Z.of_nat col))
    with true.
  2:{ symmetry. rewrite !andb_true_iff, !Z.leb_le. lia. }
  destruct (openpyxl._cells ws !! (row, col)); eauto.
Qed.

Lemma cells_at_ok col : forall rows ws,
  (1 <= col)%nat ->
  Forall (fun row => (1 <= row)%nat /\ Z.of_nat row <= 1048576) rows ->
  exists ws' cells, openpyxl.cells_at ws col rows = Return (ws', cells).
Proof.
  induction rows as [|row rows IH]; intros ws Hc Hrows; cbn [openpyxl.cells_at]; [eauto|].
  apply Forall_cons in Hrows as [[Hr Hr'] Hrows].
  destruct (cell_at_ok ws row col Hr Hr' Hc) as (ws1 & x & ->). cbn [mbind result_bind].
  destruct (IH ws1 Hc Hrows) as (ws2 & xs & ->). cbn [mbind result_bind]. eauto.
Qed.

Lemma cells_of_ok : forall positions ws,
  Forall (fun '(row, col) => (1 <= row)%nat /\ Z.of_nat row <= 1048576 /\ (1 <= col)%nat)
    positions ->
  exists ws' cells, openpyxl.cells_of ws positions = Return (ws', cells).
Proof.
  induction positions as [|[row col] positions IH]; intros ws Hps;
    cbn [openpyxl.cells_of]; [eauto|].
  apply Forall_cons in Hps as [(Hr & Hr' & Hc) Hps].
  destruct (cell_at_ok ws row col Hr Hr' Hc) as (ws1 & x & ->). cbn [mbind result_bind].
  destruct (IH ws1 Hps) as (ws2 & xs & ->). cbn [mbind result_bind]. eauto.
Qed.

Lemma ajustar_columna_ok last_row ws col :
  (1 <= col <= 18278)%nat -> (1 <= last_row)%nat -> Z.of_nat last_row <= 1048576 ->
  exists ws', ajustar_columna last_row ws col = Return ws'.
Proof.
  intros Hcol Hrow Hrow'. unfold ajustar_columna, openpyxl.column.
  destruct (cells_at_ok col (seq 1 last_row) ws) as (ws1 & cells & Hcells); [lia| |].
  { apply Forall_forall. intros r Hr. apply list_elem_of_In, in_seq in Hr. lia. }
  rewrite Hcells. cbn [mbind result_bind].
  apply cells_at_spec in Hcells as (_ & _ & Hvals).
  unfold openpyxl.get_column_letter.
  replace ((1 <=? col)%nat && (col <=? 18278)%nat) with true.
  2:{ symmetry. apply andb_true_iff. split; apply Nat.leb_le; lia. }
  cbn [mbind result_bind].
  destruct cells as [|x cells].
  { apply (f_equal length) in Hvals. rewrite !length_map, length_seq in Hvals.
    cbn in Hvals. lia. }
  cbn [map max_ mbind result_bind]. eauto.
Qed.

Lemma ajustar_todas_ok last_row : forall cols ws,
  Forall (fun col => (1 <= col <= 18278)%nat) cols ->
  (1 <= last_row)%nat -> Z.of_nat last_row <= 1048576 ->
  exists ws', for_each (ajustar_columna last_row) ws cols = Return ws'.
Proof.
  induction cols as [|col cols IH]; intros ws Hcols Hrow Hrow'; cbn [for_each]; [eauto|].
  apply Forall_cons in Hcols as [Hcol Hcols].
  destruct (ajustar_columna_ok last_row ws col Hcol Hrow Hrow') as [ws1 ->].
  cbn [mbind result_bind]. by apply IH.
Qed.

(** *** Reading a table's range back *)

Lemma letters_alfabeto :
  forallb (fun c =>
             let l := openpyxl.letters 3 c EmptyString in
             (1 <=? String.length l)%nat && (String.length l <=? 3)%nat &&
             forallb openpyxl.is_letter (list_ascii_of_string l))
          (N_run 1 18278) = true.
Proof. vm_compute. reflexivity. Qed.

Lemma get_column_letter_alfabeto c letter :
  openpyxl.get_column_letter c = Return letter ->
  (1 <= String.length letter <= 3)%nat /\
  forallb openpyxl.is_letter (list_ascii_of_string letter) = true.
Proof.
  unfold openpyxl.get_column_letter.
  destruct ((1 <=? c)%nat && (c <=? 18278)%nat) eqn:E; [|discriminate].
  intros [= <-]. apply andb_true_iff in E as [E1 E2].
  apply Nat.leb_le in E1, E2.
  pose proof letters_alfabeto as H. rewrite forallb_forall in H.
  specialize (H (N.of_nat c)). cbv zeta in H.
  rewrite !andb_true_iff, !Nat.leb_le in H. apply H.
  apply elem_of_N_run. 
  assert (N.of_nat 18278 = 18278%N) as E by (vm_compute; reflexivity).
  lia.
Qed.

Lemma pretty_N_char_digito :
  forallb (fun d => Py.is_digit (pretty_N_char d) &&
                    (nat_of_ascii (pretty_N_char d) - 48 =? N.to_nat d)%nat)
          (N_run 0 10) = true.
Proof. vm_compute. reflexivity. Qed.

Lemma digits_value_pretty (x : N) : forall s,
  openpyxl.digits_value (pretty_N_go x s) 0 = openpyxl.digits_value s (N.to_nat x).
Proof.
  induction (N.lt_wf_0 x) as [x _ IH]. intros s.
  destruct (decide (x = 0%N)) as [->|Hx]; [by rewrite pretty_N_go_0|].
  rewrite pretty_N_go_step by lia.
  rewrite IH by (apply N.div_lt; lia).
  pose proof pretty_N_char_digito as Hd. rewrite forallb_forall in Hd.
  specialize (Hd (x `mod` 10)%N).
  rewrite andb_true_iff, Nat.eqb_eq in Hd. destruct Hd as [Hd1 Hd2].
  { apply elem_of_N_run. pose proof (N.mod_upper_bound x 10 ltac:(lia)) as H.
    split; [apply N.le_0_l|exact H]. }
  cbn [openpyxl.digits_value]. rewrite Hd1, Hd2. f_equal.
  pose proof (N.div_mod x 10 ltac:(lia)). lia.
Qed.

Lemma pretty_N_go_digitos (x : N) : forall s,
  forallb Py.is_digit (list_ascii_of_string s) = true ->
  forallb Py.is_digit (list_ascii_of_string (pretty_N_go x s)) = true.
Proof.
  induction (N.lt_wf_0 x) as [x _ IH]. intros s Hs.
  destruct (decide (x = 0%N)) as [->|Hx]; [by rewrite pretty_N_go_0|].
  rewrite pretty_N_go_step by lia. apply IH; [apply N.div_lt; lia|].
  pose proof pretty_N_char_digito as Hd. rewrite forallb_forall in Hd.
  specialize (Hd (x `mod` 10)%N). rewrite andb_true_iff in Hd. destruct Hd as [Hd1 _].
  { apply elem_of_N_run. pose proof (N.mod_upper_bound x 10 ltac:(lia)) as H.
    split; [apply N.le_0_l|exact H]. }
  cbn [list_ascii_of_string forallb]. by rewrite Hd1, Hs.
Qed.

Lemma str_int_pretty (r : nat) :
  (1 <= r)%nat -> Py.str_int (Z.of_nat r) = pretty_N_go (N.of_nat r) EmptyString.
Proof. destruct r as [|r]; [lia|]. reflexivity. Qed.

Lemma is_digit_no_letter c :
  Py.is_digit c = true -> openpyxl.is_letter c = false /\ Ascii.eqb c ":" = false.
Proof. destruct c as [[] [] [] [] [] [] [] []]; vm_compute; intuition congruence. Qed.

Lemma is_letter_no_colon c : openpyxl.is_letter c = true -> Ascii.eqb c ":" = false.
Proof. destruct c as [[] [] [] [] [] [] [] []]; vm_compute; congruence. Qed.

Lemma split_sin_separador_entero sep s :
  forallb (fun c => negb (Ascii.eqb c sep)) (list_ascii_of_string s) = true ->
  Py.split sep s = [s].
Proof.
  induction s as [|c s IH]; [done|]. cbn [list_ascii_of_string forallb Py.split].
  intros H. apply andb_true_iff in H as [Hc Hs]. apply negb_true_iff in Hc.
  rewrite Hc, (IH Hs). reflexivity.
Qed.

Lemma split_letters_app (l d : string) :
  forallb openpyxl.is_letter (list_ascii_of_string l) = true ->
  match d with String c _ => openpyxl.is_letter c = false | EmptyString => True end ->
  openpyxl.split_letters (l +:+ d) = (l, d).
Proof.
  intros Hl Hd. induction l as [|c l IH].
  - change (EmptyString +:+ d) with d. destruct d as [|c d]; [done|].
    cbn [openpyxl.split_letters]. by rewrite Hd.
  - change (String c l +:+ d) with (String c (l +:+ d)).
    cbn [list_ascii_of_string forallb] in Hl. apply andb_true_iff in Hl as [Hc Hl].
    cbn [openpyxl.split_letters]. by rewrite Hc, (IH Hl).
Qed.

Lemma forallb_impl {A : Type} (f g : A -> bool) (l : list A) :
  (forall x, f x = true -> g x = true) -> forallb f l = true -> forallb g l = true.
Proof.
  intros Hfg. induction l as [|x l IH]; [done|]. cbn. rewrite !andb_true_iff.
  intros [Hx Hl]. auto.
Qed.

(** The range of the table parses back to its four bounds. *)
Lemma rango_de_tabla c letter r :
  openpyxl.get_column_letter c = Return letter -> (1 <= r)%nat ->
  openpyxl.range_boundaries ("A2:" +:+ letter +:+ Py.str_int (Z.of_nat r)) =
  Return (1, 2, c, r)%nat.
Proof.
  intros Hl Hr. rewrite (str_int_pretty r Hr).
  destruct (get_column_letter_alfabeto c letter Hl) as [Hlen Hletters].
  pose proof (get_column_letter_index c letter Hl) as Hidx.
  set (d := pretty_N_go (N.of_nat r) EmptyString).
  assert (forallb Py.is_digit (list_ascii_of_string d) = true) as Hd
    by (by apply pretty_N_go_digitos).
  assert (openpyxl.digits_value d 0 = Some r) as Hval.
  { subst d. rewrite digits_value_pretty. cbn [openpyxl.digits_value].
    by rewrite Nat2N.id. }
  assert (exists c0 d0, d = String c0 d0) as (c0 & d0 & Ed).
  { destruct d as [|c0 d0]; [|eauto]. cbn in Hval. injection Hval as <-. lia. }
  assert (Py.split ":" ("A2:" +:+ letter +:+ d) = ["A2"; letter +:+ d]) as Hsplit.
  { change ("A2:" +:+ letter +:+ d)
      with (String "A" (String "2" (String ":" (letter +:+ d)))).
    cbn [Py.split Ascii.eqb Bool.eqb]. rewrite split_sin_separador_entero; [reflexivity|].
    rewrite list_ascii_of_string_app, forallb_app. apply andb_true_iff. split.
    - eapply forallb_impl; [|exact Hletters].
      intros x Hx. by rewrite (is_letter_no_colon x Hx).
    - eapply forallb_impl; [|exact Hd].
      intros x Hx. by destruct (is_digit_no_letter x Hx) as [_ ->]. }
  unfold openpyxl.range_boundaries. rewrite Hsplit.
  change (openpyxl.coordinate_to_tuple "A2") with (Return (2, 1)%nat
    : result (nat * nat)).
  cbn [mbind result_bind].
  unfold openpyxl.coordinate_to_tuple. rewrite split_letters_app; [|exact Hletters|].
  2:{ rewrite Ed. rewrite Ed in Hd. cbn [list_ascii_of_string forallb] in Hd.
      apply andb_true_iff in Hd as [Hd _]. by destruct (is_digit_no_letter c0 Hd). }
  unfold openpyxl.column_index_from_string.
  replace ((1 <=? String.length letter)%nat && (String.length letter <=? 3)%nat)
    with true by (symmetry; apply andb_true_iff; split; apply Nat.leb_le; lia).
  rewrite Hletters, Hidx, Nat2N.id. cbn [andb mbind result_bind].
  clearbody d. rewrite Ed in Hval |- *. rewrite Hval.
  replace (1 <=? r)%nat with true by (symmetry; apply Nat.leb_le; lia).
  reflexivity.
Qed.

Lemma elem_of_range_cells min_col min_row max_col max_row row col :
  (row, col) ∈ openpyxl.range_cells min_col min_row max_col max_row ->
  (min_row <= row <= max_row /\ min_col <= col <= max_col)%nat.
Proof.
  unfold openpyxl.range_cells. intros H.
  apply list_elem_of_bind in H as (r & H & Hr).
  apply list_elem_of_bind in H as (c & H & Hc).
  apply list_elem_of_singleton in H as [= -> ->].
  apply list_elem_of_In, in_seq in Hr, Hc. lia.
Qed.

Lemma save_ok ws c letter r :
  openpyxl.tables ws = [tabla_datos letter r] ->
  openpyxl.get_column_letter c = Return letter ->
  (2 <= r)%nat -> Z.of_nat r <= 1048576 ->
  exists ws', openpyxl.save ws = Return ws'.
Proof.
  intros Ht Hl Hr Hr'. unfold openpyxl.save. rewrite Ht. cbn [for_each].
  unfold tabla_datos at 1. cbn [openpyxl.ref].
  rewrite (rango_de_tabla c letter r Hl) by lia. cbn [mbind result_bind].
  destruct (cells_of_ok (openpyxl.range_cells 1 2 c r) ws) as (ws1 & xs & ->).
  { apply Forall_forall. intros [row col] H.
    apply elem_of_range_cells in H. lia. }
  cbn [mbind result_bind].
  replace (r <? 2)%nat with false by (symmetry; apply Nat.ltb_ge; lia).
  cbn [mbind result_bind]. eauto.
Qed.

(** X17: rendering returns a workbook for every table that has at least one
    column and at most 18278, rows of at most 18278 cells and at most
    1048574 of them, integers that are int64 and no control character among
    the characters its cells would keep.  (The bound on the integers keeps
    away from the 4300 digits beyond which [str] refuses an [int], which the
    width loop would meet and [str_value] does not show.) *)
Theorem tabla_limpia_da_libro (df : DataFrame) :
  tabla_limpia df = true ->
  columns df <> [] ->
  (length (columns df) <= 18278)%nat ->
  Forall (fun row => (length row <= 18278)%nat) (data df) ->
  Z.of_nat (length (data df)) <= 1048574 ->
  enteros_int64 (data df) ->
  exists ws, crear_excel_en_memoria df = Return ws.
Proof.
  intros Hclean Hne Hcols Hrows Hmany _. apply andb_true_iff in Hclean as [Hc1 Hc2].
  unfold crear_excel_en_memoria. rewrite poner_titulo_hoja.
  cbn [mbind result_bind]. unfold llenar_hoja, dataframe_to_rows.
  pose proof (append_limpio hoja_titulo (map VStr (columns df))) as H2.
  destruct (openpyxl.append hoja_titulo _) as [ws2|e] eqn:E2; cbn [mbind result_bind].
  2:{ destruct H2 as [_ H2]. congruence. }
  pose proof (append_all_limpio (data df) ws2) as H3.
  destruct (for_each openpyxl.append ws2 _) as [ws3|e] eqn:E3; cbn [mbind result_bind].
  2:{ destruct H3 as [_ H3]. congruence. }
  assert (10 <= 18278)%nat as H18 by (apply Nat.leb_le; vm_compute; reflexivity).
  assert (10 <= openpyxl.max_column ws3 <= 18278)%nat as [Hlo Hhi].
  { split.
    - apply (max_column_ge ws3 1). apply (celda_presente df ws2 ws3 E2 E3). lia.
    - apply max_column_le; [lia|]. intros r c Hrc.
      apply (celda_presente df ws2 ws3 E2 E3) in Hrc as [H|[H|(f & Hf & H & Hc)]];
        try lia.
      pose proof (Forall_lookup_1 _ _ _ _ Hrows Hf) as Hlen. cbv beta in Hlen. lia. }
  assert (2 <= openpyxl.max_row ws3 <= 2 + length (data df))%nat as [Hrlo Hrhi].
  { assert (1 <= length (columns df))%nat as Hn
      by (destruct (columns df); [done|cbn; lia]).
    split.
    - apply (max_row_ge ws3 2 1). apply (celda_presente df ws2 ws3 E2 E3). lia.
    - apply max_row_le; [lia|]. intros r c Hrc.
      apply (celda_presente df ws2 ws3 E2 E3) in Hrc as [H|[H|(f & Hf & H & Hc)]];
        try lia.
      apply lookup_lt_Some in Hf. lia. }
  destruct (openpyxl.get_column_letter (openpyxl.max_column ws3)) as [letter|e] eqn:El.
  2:{ exfalso. revert El. unfold openpyxl.get_column_letter.
      replace ((1 <=? openpyxl.max_column ws3)%nat
               && (openpyxl.max_column ws3 <=? 18278)%nat) with true; [discriminate|].
      symmetry. apply andb_true_iff. split; apply Nat.leb_le; lia. }
  cbn [mbind result_bind openpyxl.add_table openpyxl._current_row].
  rewrite (sheet_current_row df ws2 ws3 E2 E3). cbn [Nat.add Nat.eqb].
  match goal with
  | |- context [for_each (ajustar_columna ?last_row) ?ws0 ?cols] =>
      destruct (ajustar_todas_ok last_row cols ws0) as [ws4 H4]
  end.
  { apply Forall_forall. intros c Hc. apply list_elem_of_In, in_seq in Hc.
    cbn [openpyxl.max_column openpyxl._cells] in Hc.
    change (openpyxl.max_column _) with (openpyxl.max_column ws3) in Hc. lia. }
  { cbn [openpyxl.max_row openpyxl._cells]. 
    change (openpyxl.max_row _) with (openpyxl.max_row ws3). lia. }
  { change (openpyxl.max_row _) with (openpyxl.max_row ws3). lia. }
  rewrite H4. cbn [mbind result_bind].
  apply ajustar_todas_conserva in H4 as (_ & _ & _ & Htables & _).
  destruct (sheet_mismo_marco df ws2 ws3 E2 E3) as (_ & _ & _ & _ & Htab3).
  eapply (save_ok ws4 (openpyxl.max_column ws3) letter (openpyxl.max_row ws3));
    [|exact El|lia|lia].
  rewrite Htables. cbn [openpyxl.tables openpyxl.add_table]. rewrite Htab3.
  reflexivity.
Qed.

Lemma tabla_limpia_da_libro_witness :
  tabla_limpia df6 = true /\
  columns df6 <> [] /\
  (length (columns df6) <= 18278)%nat /\
  Forall (fun row => (length row <= 18278)%nat) (data df6) /\
  Z.of_nat (length (data df6)) <= 1048574 /\
  enteros_int64 (data df6) /\
  exists ws, crear_excel_en_memoria df6 = Return ws.
Proof.
  assert (tabla_limpia df6 = true) as Hclean by (vm_compute; reflexivity).
  assert (columns df6 <> []) as Hne by discriminate.
  assert (forall n, (n <=? 18278)%nat = true -> (n <= 18278)%nat) as Hle
    by (intros n; apply Nat.leb_le).
  assert (length (columns df6) <= 18278)%nat as Hcols
    by (apply Hle; vm_compute; reflexivity).
  assert (Forall (fun row => (length row <= 18278)%nat) (data df6)) as Hrows.
  { repeat (apply List.Forall_cons; [apply Hle; vm_compute; reflexivity|]).
    apply List.Forall_nil. }
  assert (Z.of_nat (length (data df6)) <= 1048574) as Hmany by (cbn; lia).
  assert (enteros_int64 (data df6)) as Hint.
  { repeat (apply List.Forall_cons;
              [repeat (apply List.Forall_cons; [intros n; discriminate|]);
               apply List.Forall_nil|]).
    apply List.Forall_nil. }
  split; [exact Hclean|]. split; [exact Hne|]. split; [exact Hcols|].
  split; [exact Hrows|]. split; [exact Hmany|]. split; [exact Hint|].
  exact (tabla_limpia_da_libro df6 Hclean Hne Hcols Hrows Hmany Hint).
Defined.

(** Without a column the table's range is A2:J1 and saving fails. *)
Lemma crear_excel_sin_columnas :
  crear_excel_en_memoria pd.DataFrame_ = Raise IndexError.
Proof. vm_compute. reflexivity. Qed.

Lemma caracter_de_control_impide_el_libro_witness :
  llega_a_descarga reloj ∅ EmptyString 50000 /\
  descargar_datos_paginado fuente_sucia EmptyString 50000 =
    Some ([mkRequest 10000 0 EmptyString], Return df_sucio) /\
  pd.empty df_sucio = false /\
  tabla_limpia df_sucio = false /\
  crear_excel_en_memoria df_sucio = Raise IllegalCharacterError /\
  handle_query reloj fuente_sucia ∅ = Some (jsonify mensaje_500 500).
Proof.
  assert (llega_a_descarga reloj ∅ EmptyString 50000) as Hl
    by (repeat split; vm_compute; reflexivity).
  assert (descargar_datos_paginado fuente_sucia EmptyString 50000 =
          Some ([mkRequest 10000 0 EmptyString], Return df_sucio)) as Hd
    by (vm_compute; reflexivity).
  assert (tabla_limpia df_sucio = false) as Hs by (vm_compute; reflexivity).
  split; [exact Hl|]. split; [exact Hd|]. split; [reflexivity|]. split; [exact Hs|].
  exact (caracter_de_control_impide_el_libro reloj fuente_sucia ∅ EmptyString 50000
           _ df_sucio Hl Hd eq_refl Hs).
Defined.

(** X18: the expiry date is the first instant of 31 December 2025: on that
    day the gate is closed at every time but 00:00:00.000000, and a request
    made after midnight is answered with the 403 message whatever the
    payload and the endpoint. *)
Theorem expira_al_empezar_el_ultimo_dia (now : nat -> datetime) (get : endpoint)
    (filtros : gmap string json) :
  year (now 0%nat) = 2025 -> month (now 0%nat) = 12 -> day (now 0%nat) = 31 ->
  0 <= hour (now 0%nat) -> 0 <= minute (now 0%nat) ->
  0 <= second (now 0%nat) -> 0 <= microsecond (now 0%nat) ->
  datetime_gt (now 0%nat) fecha_limite =
    negb ((hour (now 0%nat) =? 0) && (minute (now 0%nat) =? 0) &&
          (second (now 0%nat) =? 0) && (microsecond (now 0%nat) =? 0)) /\
  (0 < hour (now 0%nat) + minute (now 0%nat) + second (now 0%nat)
       + microsecond (now 0%nat) ->
   handle_query now get filtros = Some (jsonify mensaje_403 403)).
Proof.
  intros Hy Hm Hd Hh Hmin Hs Hus.
  assert (datetime_gt (now 0%nat) fecha_limite =
          negb ((hour (now 0%nat) =? 0) && (minute (now 0%nat) =? 0) &&
                (second (now 0%nat) =? 0) && (microsecond (now 0%nat) =? 0))) as Hgt.
  { unfold datetime_gt, datetime_fields, fecha_limite. cbn [year month day hour minute second microsecond lex_gt].
    rewrite Hy, Hm, Hd. cbn [Z.ltb Z.eqb Z.compare Pos.compare Pos.compare_cont Pos.eqb orb andb].
    destruct (Z.eqb_spec (hour (now 0%nat)) 0) as [->|Hh0].
    2:{ replace (0 <? hour (now 0%nat)) with true by (symmetry; apply Z.ltb_lt; lia).
        reflexivity. }
    destruct (Z.eqb_spec (minute (now 0%nat)) 0) as [->|Hm0].
    2:{ replace (0 <? minute (now 0%nat)) with true by (symmetry; apply Z.ltb_lt; lia).
        reflexivity. }
    destruct (Z.eqb_spec (second (now 0%nat)) 0) as [->|Hs0].
    2:{ replace (0 <? second (now 0%nat)) with true by (symmetry; apply Z.ltb_lt; lia).
        reflexivity. }
    destruct (Z.eqb_spec (microsecond (now 0%nat)) 0) as [->|Hu0].
    2:{ replace (0 <? microsecond (now 0%nat)) with true
          by (symmetry; apply Z.ltb_lt; lia).
        reflexivity. }
    reflexivity. }
  split; [exact Hgt|]. intros Hpos. unfold handle_query. fold fecha_limite.
  rewrite Hgt.
  destruct (Z.eqb_spec (hour (now 0%nat)) 0) as [Eh|_]; [|reflexivity].
  destruct (Z.eqb_spec (minute (now 0%nat)) 0) as [Em|_]; [|reflexivity].
  destruct (Z.eqb_spec (second (now 0%nat)) 0) as [Es|_]; [|reflexivity].
  destruct (Z.eqb_spec (microsecond (now 0%nat)) 0) as [Eu|_]; [|reflexivity].
  lia.
Qed.

Lemma expira_al_empezar_el_ultimo_dia_witness :
  year (reloj_ultimo_dia 0%nat) = 2025 /\
  month (reloj_ultimo_dia 0%nat) = 12 /\
  day (reloj_ultimo_dia 0%nat) = 31 /\
  0 < hour (reloj_ultimo_dia 0%nat) + minute (reloj_ultimo_dia 0%nat)
      + second (reloj_ultimo_dia 0%nat) + microsecond (reloj_ultimo_dia 0%nat) /\
  datetime_gt (reloj_ultimo_dia 0%nat) fecha_limite = true /\
  handle_query reloj_ultimo_dia fuente_llena ∅ = Some (jsonify mensaje_403 403).
Proof.
  assert (0 < hour (reloj_ultimo_dia 0%nat) + minute (reloj_ultimo_dia 0%nat)
              + second (reloj_ultimo_dia 0%nat) + microsecond (reloj_ultimo_dia 0%nat))
    as Hpos by (cbn; lia).
  destruct (expira_al_empezar_el_ultimo_dia reloj_ultimo_dia fuente_llena ∅
              eq_refl eq_refl eq_refl) as [Hgt H403]; try (cbn; lia).
  split; [reflexivity|]. split; [reflexivity|]. split; [reflexivity|].
  split; [exact Hpos|]. split; [exact Hgt|exact (H403 Hpos)].
Defined.
